(** * RAG orchestration layer and MCP envelope: a shallow embedding

    The Python sources [rag/chunker.py], [rag/retriever.py],
    [rag/generator.py], [rag/pipeline.py], [mcp/protocol.py],
    [mcp/server.py], [mcp/client.py], [agents/database_agent.py] and
    [agents/query_agent.py] are transcribed as Rocq functions.  Python [str] is
    [string], [int] is [Z], a [dict] keyed by strings is a
    [gmap string _], an exception is the [Raised] case of [outcome], and
    the [while] loop of the chunker runs on fuel. *)

From Stdlib Require Import ZArith List Ascii String Lia Bool.
From stdpp Require Import gmap strings list pretty sorting.

Open Scope string_scope.
Open Scope Z_scope.

(** ** Python values and built-ins *)

Module Py.

(** What a call hands back: a value, or a raised exception carried by
    its [str(e)]. *)
Inductive outcome (A : Type) : Type :=
| Returned (a : A)
| Raised (msg : string).
Arguments Returned {A} a.
Arguments Raised {A} msg.

(** Sequencing: an exception skips the rest of the block. *)
#[export] Instance outcome_ret : MRet outcome := fun _ a => Returned a.
#[export] Instance outcome_bind : MBind outcome := fun _ _ f m =>
  match m with
  | Returned a => f a
  | Raised msg => Raised msg
  end.

(** The values that flow through the dictionaries of the program: the
    JSON universe.  A float is carried by its [repr]; no float
    arithmetic is performed anywhere in the modelled code. *)
#[warnings="-register-all"]
Inductive value : Type :=
| VNone
| VBool (b : bool)
| VInt (z : Z)
| VFloat (repr : string)
| VStr (s : string)
| VList (l : list value)
| VDict (d : gmap string value).

(** [bool(v)] *)
Definition truthy (v : value) : bool :=
  match v with
  | VNone => false
  | VBool b => b
  | VInt z => negb (z =? 0)
  | VFloat r => negb (String.eqb r "0.0" || String.eqb r "-0.0")
  | VStr s => negb (String.eqb s "")
  | VList l => match l with [] => false | _ => true end
  | VDict d => negb (bool_decide (d = ∅))
  end.

(** [type(v).__name__] *)
Definition type_name (v : value) : string :=
  match v with
  | VNone => "NoneType"
  | VBool _ => "bool"
  | VInt _ => "int"
  | VFloat _ => "float"
  | VStr _ => "str"
  | VList _ => "list"
  | VDict _ => "dict"
  end.

(** [d.get(k)] and [d.get(k, dflt)] *)
Definition get (d : gmap string value) (k : string) : value :=
  default VNone (d !! k).
Definition get_or (d : gmap string value) (k : string) (dflt : value) : value :=
  default dflt (d !! k).

Definition nl : ascii := ascii_of_nat 10.
Definition NL : string := String nl "".

(** [len(s)] *)
Definition len (s : string) : Z := Z.of_nat (String.length s).

(** A slice bound brought into [0, n]: a negative bound counts from the
    end, and everything is clipped. *)
Definition adjust (n : Z) (i : Z) : nat :=
  Z.to_nat (if i <? 0 then Z.max (i + n) 0 else Z.min i n).

(** [s[start:stop]] *)
Definition slice (s : string) (start stop : Z) : string :=
  let lo := adjust (len s) start in
  let hi := adjust (len s) stop in
  substring lo (hi - lo) s.

(** Scan for the last position in [lo, hi) holding [c]; [i] is the
    position of the head of [s]. *)
Fixpoint rfind_from (s : string) (c : ascii) (i lo hi : nat)
    (found : option nat) : option nat :=
  match s with
  | EmptyString => found
  | String x s' =>
      rfind_from s' c (S i) lo hi
        (if (lo <=? i)%nat && (i <? hi)%nat && Ascii.eqb x c
         then Some i else found)
  end.

(** [s.rfind(c, start, stop)] for a one-character [c] *)
Definition rfind (s : string) (c : ascii) (start stop : Z) : Z :=
  match rfind_from s c 0 (adjust (len s) start) (adjust (len s) stop) None with
  | Some p => Z.of_nat p
  | None => -1
  end.

(** [c.isspace()] on the code points below 256 *)
Definition isspace (c : ascii) : bool :=
  let n := nat_of_ascii c in
  ((9 <=? n) && (n <=? 13) || (28 <=? n) && (n <=? 32)
   || (n =? 133) || (n =? 160))%nat.

Fixpoint lstrip (s : string) : string :=
  match s with
  | EmptyString => EmptyString
  | String x s' => if isspace x then lstrip s' else s
  end.

Fixpoint rstrip (s : string) : string :=
  match s with
  | EmptyString => EmptyString
  | String x s' =>
      match rstrip s' with
      | EmptyString => if isspace x then EmptyString else String x EmptyString
      | r => String x r
      end
  end.

(** [s.strip()] *)
Definition strip (s : string) : string := rstrip (lstrip s).

(** [sep.join(parts)] *)
Definition join (sep : string) (parts : list string) : string :=
  String.concat sep parts.

(** [str(n)] for an int *)
Definition str_int (z : Z) : string := pretty z.

End Py.

Import Py.

(** ** rag/chunker.py *)

Module TextChunker.

Record t : Type := { chunk_size : Z; chunk_overlap : Z }.

(** [__init__]: stores both parameters; there is no [raise] in it. *)
Definition init (chunk_size chunk_overlap : Z) : outcome t :=
  Returned {| chunk_size := chunk_size; chunk_overlap := chunk_overlap |}.

(** [TextChunker()] *)
Definition default : outcome t := init 1000 200.

(** One element of the returned list:
    [{'text': ..., 'metadata': ...}]. *)
Record chunk : Type := { text : string; metadata : gmap string value }.

(** [max(last_period, last_newline, last_space)] *)
Definition split_point (txt : string) (start stop : Z) : Z :=
  Z.max (Z.max (rfind txt "." start stop) (rfind txt nl start stop))
        (rfind txt " " start stop).

(** The value of [end] when the slice is taken (lines 37-46). *)
Definition chunk_end (self : t) (txt : string) (start : Z) : Z :=
  let stop := start + chunk_size self in
  if stop <? len txt then
    let sp := split_point txt start stop in
    if sp >? start then sp + 1 else stop
  else stop.

(** Line 63. *)
Definition next_start (self : t) (txt : string) (stop : Z) : Z :=
  if stop <? len txt then stop - chunk_overlap self else stop.

(** [metadata.copy() if metadata else {}] followed by [update]. *)
Definition chunk_metadata (md : option (gmap string value))
    (start stop index : Z) : gmap string value :=
  let base :=
    match md with
    | Some m => if truthy (VDict m) then m else ∅
    | None => ∅
    end in
  <["chunk_index" := VInt index]>
    (<["chunk_end" := VInt stop]> (<["chunk_start" := VInt start]> base)).

(** Lines 48-61: the slice is trimmed and appended unless it is empty. *)
Definition emit (txt : string) (md : option (gmap string value))
    (start stop : Z) (chunks : list chunk) : list chunk :=
  let chunk_text := strip (slice txt start stop) in
  if truthy (VStr chunk_text) then
    chunks ++ [ {| text := chunk_text;
                   metadata := chunk_metadata md start stop
                                 (Z.of_nat (length chunks)) |} ]
  else chunks.

(** The [while] loop; [None] when the fuel runs out first. *)
Fixpoint loop (self : t) (txt : string) (md : option (gmap string value))
    (fuel : nat) (start : Z) (chunks : list chunk) : option (list chunk) :=
  if start <? len txt then
    match fuel with
    | O => None
    | S fuel' =>
        let stop := chunk_end self txt start in
        loop self txt md fuel' (next_start self txt stop)
          (emit txt md start stop chunks)
    end
  else Some chunks.

Definition chunk_text (self : t) (txt : string)
    (md : option (gmap string value)) (fuel : nat) : option (list chunk) :=
  if truthy (VStr txt) then loop self txt md fuel 0 [] else Some [].

(** The spans [(start, end)] of the slices the loop takes, emitted or
    not: the same iteration with the chunk list left out. *)
Fixpoint slices (self : t) (txt : string) (fuel : nat) (start : Z)
    : option (list (Z * Z)) :=
  if start <? len txt then
    match fuel with
    | O => None
    | S fuel' =>
        let stop := chunk_end self txt start in
        cons (start, stop) <$> slices self txt fuel' (next_start self txt stop)
    end
  else Some [].

(** Recorded offsets of a chunk. *)
Definition chunk_start_of (c : chunk) : value := get (metadata c) "chunk_start".
Definition chunk_end_of (c : chunk) : value := get (metadata c) "chunk_end".
Definition chunk_index_of (c : chunk) : value := get (metadata c) "chunk_index".

End TextChunker.

(** ** mcp/protocol.py *)

Module MessageType.

Inductive t : Type := REQUEST | RESPONSE | NOTIFICATION | ERROR.

Definition value (m : t) : string :=
  match m with
  | REQUEST => "request"
  | RESPONSE => "response"
  | NOTIFICATION => "notification"
  | ERROR => "error"
  end.

End MessageType.

Module MCPRequest.

Record t : Type := { method : string; params : gmap string value; id : string }.

Definition to_dict (self : t) : gmap string value :=
  {[ "type" := VStr (MessageType.value MessageType.REQUEST);
     "method" := VStr (method self);
     "params" := VDict (params self);
     "id" := VStr (id self) ]}.

End MCPRequest.

Module MCPResponse.

(** The dataclass checks no field type, so the three fields range over
    all values; the defaults are [None]. *)
Record t : Type := { result : value; error : value; id : value }.

Definition to_dict (self : t) : gmap string value :=
  let response : gmap string value :=
    {[ "type" := VStr (MessageType.value MessageType.RESPONSE);
       "id" := id self ]} in
  if truthy (error self) then <["error" := error self]> response
  else <["result" := result self]> response.

Definition from_dict (data : gmap string value) : t :=
  {| result := get data "result";
     error := get data "error";
     id := get data "id" |}.

End MCPResponse.

(** ** mcp/server.py *)

Module MCPServer.

(** What a handler hands back when it does not raise: a value
    [jsonify] can serialise, or one in which [jsonify] meets an object
    of type [type_name] and raises [TypeError]. *)
Inductive returned : Type :=
| Json (v : value)
| NonJson (type_name : string).

Definition handler : Type := value -> outcome returned.

(** An HTTP answer: the JSON body and the status code. *)
Definition answer : Type := (gmap string value * Z)%type.

(** [data.get(k, dflt)] on a value that need not be a dict. *)
Definition attr_get (data : value) (k : string) (dflt : value) : outcome value :=
  match data with
  | VDict d => Returned (get_or d k dflt)
  | _ => Raised ("'" +:+ type_name data +:+ "' object has no attribute 'get'")
  end.

(** [v != s] for a string literal [s] *)
Definition differs (v : value) (s : string) : bool :=
  match v with
  | VStr s' => negb (String.eqb s' s)
  | _ => true
  end.

(** [method in self.handlers]: hashing a list or a dict raises; the
    keys of the table are strings. *)
Definition contains (handlers : gmap string handler) (method : value)
    : outcome (option handler) :=
  match method with
  | VList _ | VDict _ =>
      Raised ("unhashable type: '" +:+ type_name method +:+ "'")
  | VStr m => Returned (handlers !! m)
  | _ => Returned None
  end.

(** [f"{v}"] for the values that reach the format: a list or a dict
    never does, [contains] raises on them first. *)
Definition format (v : value) : string :=
  match v with
  | VNone => "None"
  | VBool true => "True"
  | VBool false => "False"
  | VInt z => str_int z
  | VFloat r => r
  | VStr s => s
  | VList _ | VDict _ => ""
  end.

Definition invalid_request : answer :=
  ({[ "type" := VStr (MessageType.value MessageType.ERROR);
      "error" := VStr "Invalid request format" ]}, 400).

Definition processing_error (msg : string) : answer :=
  ({[ "type" := VStr (MessageType.value MessageType.ERROR);
      "error" := VStr msg ]}, 500).

Definition error_response (msg : string) (request_id : value) : gmap string value :=
  MCPResponse.to_dict
    {| MCPResponse.result := VNone; MCPResponse.error := VStr msg;
       MCPResponse.id := request_id |}.

(** The inner [try]: call the handler and serialise its result; both
    happen under the inner [except]. *)
Definition invoke (h : handler) (params request_id : value) : answer :=
  match h params with
  | Returned (Json r) =>
      (MCPResponse.to_dict
         {| MCPResponse.result := r; MCPResponse.error := VNone;
            MCPResponse.id := request_id |}, 200)
  | Returned (NonJson ty) =>
      (error_response
         ("Error executing method: " +:+
          "Object of type " +:+ ty +:+ " is not JSON serializable")
         request_id, 500)
  | Raised msg =>
      (error_response ("Error executing method: " +:+ msg) request_id, 500)
  end.

(** The body of the outer [try]. *)
Definition dispatch (handlers : gmap string handler) (data : value)
    : outcome answer :=
  if negb (truthy data) then Returned invalid_request else
  ty ← attr_get data "type" VNone;
  if differs ty (MessageType.value MessageType.REQUEST)
  then Returned invalid_request else
  method ← attr_get data "method" VNone;
  params ← attr_get data "params" (VDict ∅);
  request_id ← attr_get data "id" VNone;
  found ← contains handlers method;
  match found with
  | None =>
      Returned
        (error_response ("Method '" +:+ format method +:+ "' not found")
           request_id, 404)
  | Some h => Returned (invoke h params request_id)
  end.

(** The [/mcp] route on the decoded body [data]. *)
Definition handle_mcp_request (handlers : gmap string handler) (data : value)
    : answer :=
  match dispatch handlers data with
  | Returned a => a
  | Raised msg => processing_error msg
  end.

(** [register_handler] *)
Definition register_handler (handlers : gmap string handler)
    (method : string) (h : handler) : gmap string handler :=
  <[method := h]> handlers.

End MCPServer.

(** ** vector_db/base.py: the capability the retriever needs *)

Record VectorStore : Type := {
  similarity_search :
    string -> Z -> option (gmap string value) ->
    outcome (list (gmap string value))
}.

(** ** rag/retriever.py *)

Module Retriever.

(** The embedding model is stored by the constructor and used by
    neither method below; it is left out. *)
Record t : Type := { vector_store : VectorStore; top_k : Z }.

(** [k or self.top_k] *)
Definition k_or_top_k (self : t) (k : option Z) : Z :=
  match k with
  | Some z => if truthy (VInt z) then z else top_k self
  | None => top_k self
  end.

Definition retrieve (self : t) (query : string) (k : option Z)
    (filter : option (gmap string value)) : outcome (list (gmap string value)) :=
  similarity_search (vector_store self) query (k_or_top_k self k) filter.

(** The [for] loop of [format_context]; [doc['document']] raises
    [KeyError] when the key is missing. *)
Fixpoint context_parts (i : Z) (docs : list (gmap string value))
    : outcome (list value) :=
  match docs with
  | [] => Returned []
  | doc :: rest =>
      match doc !! "document" with
      | None => Raised "'document'"
      | Some d =>
          parts ← context_parts (i + 1) rest;
          Returned (VStr ("[Document " +:+ str_int i +:+ "]") :: d :: VStr "" :: parts)
      end
  end.

(** [sep.join(parts)] on values: the first part that is not a [str]
    raises [TypeError]. *)
Fixpoint str_items (n : Z) (parts : list value) : outcome (list string) :=
  match parts with
  | [] => Returned []
  | VStr s :: rest => items ← str_items (n + 1) rest; Returned (s :: items)
  | v :: _ =>
      Raised ("sequence item " +:+ str_int n +:+ ": expected str instance, "
              +:+ type_name v +:+ " found")
  end.

Definition join_values (sep : string) (parts : list value) : outcome string :=
  items ← str_items 0 parts; Returned (join sep items).

Definition format_context (retrieved_docs : list (gmap string value))
    : outcome string :=
  match retrieved_docs with
  | [] => Returned ""
  | _ => parts ← context_parts 1 retrieved_docs; join_values NL parts
  end.

End Retriever.

(** ** rag/generator.py *)

Module Generator.

(** What the code reads from a completion inside its [try]. *)
Record completion : Type := {
  content : value;
  prompt_tokens : value;
  completion_tokens : value;
  total_tokens : value
}.

(** [client] stands for [client.chat.completions.create] together with
    the attribute reads of lines 70-75: model, system message, user
    message and temperature in, a completion or an exception out. *)
Record t : Type := {
  client : string -> string -> string -> string -> outcome completion;
  model : string;
  temperature : string
}.

Definition default_system_prompt : string :=
  "You are a helpful assistant that answers questions based on the provided context. "
  +:+ "If the context doesn't contain relevant information, say so. "
  +:+ "Always cite which document(s) you used to answer.".

Definition user_message (query context : string) : string :=
  "Context:" +:+ NL +:+ context +:+ NL +:+ NL +:+ "Question: " +:+ query
  +:+ NL +:+ NL
  +:+ "Please answer the question based on the context provided above.".

Definition generate (self : t) (query context : string)
    (system_prompt : option string) : gmap string value :=
  let system_prompt := default default_system_prompt system_prompt in
  match client self (model self) system_prompt (user_message query context)
          (temperature self) with
  | Returned response =>
      {[ "answer" := content response;
         "model" := VStr (model self);
         "usage" := VDict {[ "prompt_tokens" := prompt_tokens response;
                             "completion_tokens" := completion_tokens response;
                             "total_tokens" := total_tokens response ]} ]}
  | Raised msg =>
      {[ "answer" := VNone; "error" := VStr msg ]}
  end.

End Generator.

(** ** rag/pipeline.py *)

Module RAGPipeline.

Record t : Type := { retriever : Retriever.t; generator : Generator.t }.

(** [__init__] builds the retriever from the store and [top_k]. *)
Definition init (store : VectorStore) (gen : Generator.t) (top_k : Z) : t :=
  {| retriever := {| Retriever.vector_store := store; Retriever.top_k := top_k |};
     generator := gen |}.

Definition query (self : t) (query : string) (k : option Z)
    (filter : option (gmap string value)) (system_prompt : option string)
    : outcome (gmap string value) :=
  retrieved_docs ← Retriever.retrieve (retriever self) query k filter;
  context ← Retriever.format_context retrieved_docs;
  let result := Generator.generate (generator self) query context system_prompt in
  Returned
    (<["num_documents" := VInt (Z.of_nat (length retrieved_docs))]>
       (<["retrieved_documents" := VList (VDict <$> retrieved_docs)]> result)).

End RAGPipeline.

(** ** rag/chunker.py: [chunk_documents] *)

Module ChunkDocuments.

(** The [for] loop over [zip(documents, metadatas)]: each document is
    chunked with its metadata, and the texts and the metadatas of its
    chunks are appended to the two result lists.  [None] when the loop
    of some [chunk_text] call outlives the fuel. *)
Fixpoint chunk_pairs (self : TextChunker.t) (fuel : nat)
    (pairs : list (string * gmap string value))
    : option (list string * list (gmap string value)) :=
  match pairs with
  | [] => Some ([], [])
  | (doc, metadata) :: rest =>
      match TextChunker.chunk_text self doc (Some metadata) fuel with
      | None => None
      | Some chunks =>
          match chunk_pairs self fuel rest with
          | None => None
          | Some (all_chunks, all_metadatas) =>
              Some (((TextChunker.text <$> chunks) ++ all_chunks)%list,
                    ((TextChunker.metadata <$> chunks) ++ all_metadatas)%list)
          end
      end
  end.

(** [metadatas] defaults to one empty dict per document only when it
    is [None]; [zip] stops at the shorter list. *)
Definition chunk_documents (self : TextChunker.t) (documents : list string)
    (metadatas : option (list (gmap string value))) (fuel : nat)
    : option (list string * list (gmap string value)) :=
  let metadatas :=
    match metadatas with
    | None => (fun _ => (∅ : gmap string value)) <$> documents
    | Some given => given
    end in
  chunk_pairs self fuel (zip documents metadatas).

End ChunkDocuments.

(** ** rag/pipeline.py: [add_documents] *)


Module Ingest.



End Ingest.

(** ** mcp/server.py: the default handlers *)

Module Database.

(** A fetched cell, as [jsonify] treats it: an object it writes as the
    JSON value [v] (numbers, strings, [None], and the dates, decimals
    and UUIDs that Flask writes as strings), or an object it rejects
    with a [TypeError] (bytes, a LOB), of type [type_name]. *)
Inductive cell : Type :=
| Cell (v : value)
| Opaque (type_name : string).

(** What the handlers read from a cursor once [execute] has returned:
    the column names of [description] (its [desc[0]] entries; [None]
    for a statement without a result set), the rows of [fetchall] and
    [rowcount]. *)
Record executed : Type := {
  description : option (list string);
  fetchall : outcome (list (list cell));
  rowcount : value
}.

(** The connection object, over the database states [S]: every call
    may change the state and may raise. *)
Record connection (S : Type) : Type := {
  cursor : S -> S * outcome unit;
  execute : value -> option (gmap string value) -> S -> S * outcome executed;
  commit : S -> S * outcome unit;
  rollback : S -> S * outcome unit
}.
Arguments cursor {S} _ _.
Arguments execute {S} _ _ _ _.
Arguments commit {S} _ _.
Arguments rollback {S} _ _.

End Database.

Module DefaultHandlers.

Import Database MCPServer.

(** [dict(pairs)]: a later pair overrides an earlier one with its key. *)
Definition py_dict {A : Type} (pairs : list (string * A)) : gmap string A :=
  fold_left (fun d kv => <[kv.1 := kv.2]> d) pairs ∅.

(** *** Serialising fetched cells

    [jsonify] runs on the dict a handler returned, under the same
    [try] as the handler.  It writes a list in order and the items of
    a dict in the order of their keys (Flask sorts keys by default),
    and raises on the first object it cannot write. *)

Definition rejected (c : cell) : option string :=
  match c with
  | Opaque type_name => Some type_name
  | Cell _ => None
  end.

Definition written (c : cell) : option value :=
  match c with
  | Cell v => Some v
  | Opaque _ => None
  end.

(** The order of [str] keys: by code points. *)
Definition key_le (a b : string) : Prop := String.leb a b = true.
#[export] Instance key_le_dec (a b : string) : Decision (key_le a b) :=
  decide (String.leb a b = true).

Definition sorted_keys {A : Type} (d : gmap string A) : list string :=
  merge_sort key_le (map_to_list d).*1.

(** The type of the first cell of a row dict that [jsonify] rejects. *)
Definition first_rejected_row (d : gmap string cell) : option string :=
  head (omap (fun k => d !! k ≫= rejected) (sorted_keys d)).

Definition first_rejected (results : list (gmap string cell))
    : option string :=
  head (omap first_rejected_row results).

(** The dict of lines 109-113 as [jsonify] treats it. *)
Definition query_result (results : list (gmap string cell)) : returned :=
  match first_rejected results with
  | Some type_name => NonJson type_name
  | None =>
      Json (VDict
        {[ "success" := VBool true;
           "data" := VList ((fun d => VDict (omap written d)) <$> results);
           "row_count" := VInt (Z.of_nat (length results)) ]})
  end.

(** The dict of lines 177-181 as [jsonify] treats it. *)
Definition schema_result (tables : list cell) : returned :=
  match head (omap rejected tables) with
  | Some type_name => NonJson type_name
  | None =>
      Json (VDict
        {[ "success" := VBool true;
           "tables" := VList (omap written tables);
           "count" := VInt (Z.of_nat (length tables)) ]})
  end.

Definition failure (msg : string) : returned :=
  Json (VDict {[ "success" := VBool false; "error" := VStr msg ]}).

(** [[row[0] for row in rows]]; the rows of a cursor are tuples. *)
Fixpoint first_columns (rows : list (list cell)) : outcome (list cell) :=
  match rows with
  | [] => Returned []
  | [] :: _ => Raised "tuple index out of range"
  | (cell :: _) :: rest =>
      tables ← first_columns rest; Returned (cell :: tables)
  end.

Definition schema_query : string :=
  NL +:+ "                SELECT table_name" +:+
  NL +:+ "                FROM all_tables" +:+
  NL +:+ "                WHERE owner = :owner" +:+
  NL +:+ "                ORDER BY table_name" +:+
  NL +:+ "            ".

Section WithConnection.

Context {S : Type}.
Variable db : connection S.

Definition handle_query_database (params : value) (s : S)
    : S * outcome returned :=
  match attr_get params "query" VNone with
  | Raised msg => (s, Raised msg)
  | Returned query =>
      if negb (truthy query) then (s, Raised "Query parameter is required")
      else
        match cursor db s with
        | (s1, Raised msg) => (s1, Returned (failure msg))
        | (s1, Returned _) =>
            match execute db query None s1 with
            | (s2, Raised msg) => (s2, Returned (failure msg))
            | (s2, Returned cur) =>
                let columns :=
                  match description cur with
                  | Some columns => columns
                  | None => []
                  end in
                match fetchall cur with
                | Raised msg => (s2, Returned (failure msg))
                | Returned rows =>
                    let results :=
                      (fun row => py_dict (zip columns row)) <$> rows in
                    (s2, Returned (query_result results))
                end
            end
        end
  end.

(** The [try] block of [_handle_execute_sql]: cursor, execute, commit,
    then the read of [rowcount]. *)
Definition execute_and_commit (sql : value) (s : S) : S * outcome value :=
  match cursor db s with
  | (s1, Raised msg) => (s1, Raised msg)
  | (s1, Returned _) =>
      match execute db sql None s1 with
      | (s2, Raised msg) => (s2, Raised msg)
      | (s2, Returned cur) =>
          match commit db s2 with
          | (s3, Raised msg) => (s3, Raised msg)
          | (s3, Returned _) => (s3, Returned (rowcount cur))
          end
      end
  end.

Definition handle_execute_sql (params : value) (s : S)
    : S * outcome returned :=
  match attr_get params "sql" VNone with
  | Raised msg => (s, Raised msg)
  | Returned sql =>
      if negb (truthy sql) then (s, Raised "SQL parameter is required")
      else
        match execute_and_commit sql s with
        | (s', Returned rows_affected) =>
            (s', Returned (Json (VDict
               {[ "success" := VBool true;
                  "rows_affected" := rows_affected ]})))
        | (s', Raised msg) =>
            match rollback db s' with
            | (s'', Raised msg') => (s'', Raised msg')
            | (s'', Returned _) => (s'', Returned (failure msg))
            end
        end
  end.

Definition handle_get_schema (params : value) (s : S)
    : S * outcome returned :=
  match cursor db s with
  | (s1, Raised msg) => (s1, Returned (failure msg))
  | (s1, Returned _) =>
      match attr_get params "owner" (VStr "X750571") with
      | Raised msg => (s1, Returned (failure msg))
      | Returned owner =>
          match execute db (VStr schema_query) (Some {[ "owner" := owner ]}) s1 with
          | (s2, Raised msg) => (s2, Returned (failure msg))
          | (s2, Returned cur) =>
              match fetchall cur ≫= first_columns with
              | Raised msg => (s2, Returned (failure msg))
              | Returned tables => (s2, Returned (schema_result tables))
              end
          end
      end
  end.

End WithConnection.

(** [_setup_default_handlers]: the table of a server built with the
    connection [db_connection], as it answers in the database state [s]. *)
Definition setup_default_handlers {S : Type}
    (db_connection : option (connection S)) (s : S) : gmap string handler :=
  match db_connection with
  | Some db =>
      register_handler
        (register_handler
           (register_handler ∅ "query_database"
              (fun params => (handle_query_database db params s).2))
           "execute_sql" (fun params => (handle_execute_sql db params s).2))
        "get_schema" (fun params => (handle_get_schema db params s).2)
  | None => ∅
  end.

End DefaultHandlers.

(** ** mcp/client.py *)

Module MCPClient.

(** What [requests.post] followed by [response.json()] gives: a
    response with its status and decoded body, or a
    [RequestException].  A body that is not JSON is outside this
    model. *)
Inductive posted : Type :=
| Response (status : Z) (body : value)
| RequestException (msg : string).

(** [post] is the transport to [base_url/mcp]; [http_error status] is
    the [str] of the [HTTPError] that [raise_for_status] raises. *)
Record t : Type := {
  post : gmap string value -> posted;
  http_error : Z -> string
}.

(** [send_request]; [request_id] is the [str(uuid.uuid4())] of the call. *)
Definition send_request (self : t) (request_id : string) (method : string)
    (params : option (gmap string value)) : outcome MCPResponse.t :=
  let request :=
    {| MCPRequest.method := method;
       MCPRequest.params := default ∅ params;
       MCPRequest.id := request_id |} in
  match post self (MCPRequest.to_dict request) with
  | RequestException msg =>
      Returned {| MCPResponse.result := VNone; MCPResponse.error := VStr msg;
                  MCPResponse.id := VStr request_id |}
  | Response status body =>
      if (400 <=? status) && (status <? 600) then
        Returned {| MCPResponse.result := VNone;
                    MCPResponse.error := VStr (http_error self status);
                    MCPResponse.id := VStr request_id |}
      else
        match body with
        | VDict data => Returned (MCPResponse.from_dict data)
        | _ => Raised ("'" +:+ type_name body
                       +:+ "' object has no attribute 'get'")
        end
  end.

Definition query_database (self : t) (request_id : string) (query : string)
    (context : option (gmap string value)) : outcome MCPResponse.t :=
  send_request self request_id "query_database"
    (Some {[ "query" := VStr query; "context" := VDict (default ∅ context) ]}).

Definition get_schema (self : t) (request_id : string) : outcome MCPResponse.t :=
  send_request self request_id "get_schema" None.

Definition execute_command (self : t) (request_id : string) (command : string)
    (args : option (gmap string value)) : outcome MCPResponse.t :=
  send_request self request_id "execute_command"
    (Some {[ "command" := VStr command; "args" := VDict (default ∅ args) ]}).

End MCPClient.

(** ** agents/database_agent.py *)

Module DatabaseAgent.

(** The agent holds a pipeline object and calls its [query] with
    whatever the context holds under ['top_k'] and ['filter']. *)
Record t : Type := {
  rag_pipeline_query : string -> value -> value -> outcome (gmap string value)
}.

Definition process (self : t) (query : string)
    (context : option (gmap string value)) : gmap string value :=
  let context := default ∅ context in
  match rag_pipeline_query self query (get context "top_k")
          (get context "filter") with
  | Returned result =>
      if truthy (get result "answer") then
        {[ "success" := VBool true;
           "answer" := get result "answer";
           "sources" := get_or result "retrieved_documents" (VList []);
           "metadata" :=
             VDict {[ "num_documents" := get_or result "num_documents" (VInt 0);
                      "usage" := get_or result "usage" (VDict ∅) ]} ]}
      else
        {[ "success" := VBool false;
           "error" := get_or result "error" (VStr "Unknown error") ]}
  | Raised msg =>
      {[ "success" := VBool false; "error" := VStr msg ]}
  end.

(** [query_via_mcp], over the agent's [self.mcp_client];
    [request_id] is the id that [send_request] generates. *)
Definition query_via_mcp (mcp_client : MCPClient.t) (request_id : string)
    (query : string) (context : option (gmap string value))
    : outcome (gmap string value) :=
  response ← MCPClient.query_database mcp_client request_id query context;
  Returned
    (if truthy (MCPResponse.error response) then
       {[ "success" := VBool false; "error" := MCPResponse.error response ]}
     else
       {[ "success" := VBool true; "result" := MCPResponse.result response ]}).

End DatabaseAgent.

(** ** agents/query_agent.py *)

Module QueryAgent.

(** [c.lower()] on the code points below 256: the ASCII capitals and
    the Latin-1 capitals (all of 192..222 but the multiplication sign
    215) move up by 32. *)
Definition lower_char (c : ascii) : ascii :=
  let n := nat_of_ascii c in
  if ((65 <=? n) && (n <=? 90) || (192 <=? n) && (n <=? 214)
      || (216 <=? n) && (n <=? 222))%nat
  then ascii_of_nat (n + 32) else c.

(** [s.lower()] *)
Fixpoint lower (s : string) : string :=
  match s with
  | EmptyString => EmptyString
  | String c rest => String (lower_char c) (lower rest)
  end.

(** [word in s]: [word] occurs in [s] at some position. *)
Fixpoint has_substring (s word : string) : bool :=
  String.prefix word s
  || match s with
     | EmptyString => false
     | String _ rest => has_substring rest word
     end.

(** [any(word in s for word in words)] *)
Definition any_in (s : string) (words : list string) : bool :=
  existsb (has_substring s) words.

Definition retrieval_words : list string :=
  ["select"; "show"; "get"; "find"; "list"].
Definition insertion_words : list string := ["insert"; "add"; "create"; "new"].
Definition update_words : list string := ["update"; "modify"; "change"; "edit"].
Definition deletion_words : list string := ["delete"; "remove"; "drop"].
Definition aggregation_words : list string :=
  ["count"; "sum"; "average"; "analyze"].

Definition classify_query (query : string) : string :=
  let query_lower := lower query in
  if any_in query_lower retrieval_words then "retrieval"
  else if any_in query_lower insertion_words then "insertion"
  else if any_in query_lower update_words then "update"
  else if any_in query_lower deletion_words then "deletion"
  else if any_in query_lower aggregation_words then "aggregation"
  else "general".

Definition actions : gmap string string :=
  {[ "retrieval" := "search_database";
     "insertion" := "insert_data";
     "update" := "update_data";
     "deletion" := "delete_data";
     "aggregation" := "aggregate_data";
     "general" := "process_general_query" ]}.

Definition determine_action (query_type : string) : string :=
  default "process_general_query" (actions !! query_type).

Definition interpret_query (query query_type : string) : gmap string value :=
  {[ "type" := VStr query_type;
     "requires_database" :=
       VBool (bool_decide (query_type ∈ ["retrieval"; "insertion"; "update";
                                         "deletion"; "aggregation"]));
     "requires_context" := VBool true;
     "action" := VStr (determine_action query_type) ]}.

End QueryAgent.

(* ===================================================================== *)
(** * Specification vocabulary and example data *)
(* ===================================================================== *)

(** ** Chunker *)

(** The boundary rule in the spec's words.  A position [p] lies in the
    window [[start, stop)] with the bounds read as Python reads slice
    bounds; for [0 <= start <= stop <= len(text)] that is
    [start <= p < stop]. *)
Definition is_delimiter (ch : ascii) : Prop :=
  ch = "."%char \/ ch = nl \/ ch = " "%char.

Definition window (txt : string) (start stop : Z) (p : nat) : Prop :=
  (adjust (len txt) start <= p < adjust (len txt) stop)%nat.

Definition delimiter_in (txt : string) (start stop : Z) (p : nat) : Prop :=
  window txt start stop p
  /\ exists ch, String.get p txt = Some ch /\ is_delimiter ch.

(** [p] is the maximum index of the window holding a delimiter. *)
Definition rightmost_delimiter (txt : string) (start stop : Z) (p : nat) : Prop :=
  delimiter_in txt start stop p
  /\ forall q, delimiter_in txt start stop q -> (q <= p)%nat.

(** [e] is the end the spec prescribes for a chunk starting at [s]. *)
Definition spec_end (self : TextChunker.t) (txt : string) (s e : Z) : Prop :=
  let stop := s + TextChunker.chunk_size self in
  (stop < len txt ->
     (forall p, rightmost_delimiter txt s stop p -> s < Z.of_nat p ->
        e = Z.of_nat p + 1)
     /\ ((forall p, ~ delimiter_in txt s stop p) -> e = stop)
     /\ (forall p, rightmost_delimiter txt s stop p -> Z.of_nat p = s ->
           e = stop))
  /\ (len txt <= stop -> e = stop).

(** The result of a right-to-left search for the characters in [P]. *)
Definition last_hit (txt : string) (lo hi : nat) (P : ascii -> Prop) (r : Z)
    : Prop :=
  (r = -1
   /\ forall j ch, (lo <= j < hi)%nat -> String.get j txt = Some ch -> ~ P ch)
  \/ (exists p : nat,
        r = Z.of_nat p /\ (lo <= p < hi)%nat
        /\ (exists ch, String.get p txt = Some ch /\ P ch)
        /\ forall j ch, (p < j < hi)%nat -> String.get j txt = Some ch -> ~ P ch).

(** The slice trims to a non-empty text: the test of line 50. *)
Definition nonblank (txt : string) (sl : Z * Z) : bool :=
  truthy (VStr (strip (slice txt sl.1 sl.2))).

(** The chunk appended for the slice [sl] when [index] chunks precede it. *)
Definition chunk_of (txt : string) (md : option (gmap string value))
    (index : nat) (sl : Z * Z) : TextChunker.chunk :=
  {| TextChunker.text := strip (slice txt sl.1 sl.2);
     TextChunker.metadata :=
       TextChunker.chunk_metadata md sl.1 sl.2 (Z.of_nat index) |}.

(** What a chunk records about its slice. *)
Definition recorded (c : TextChunker.chunk) : string * value * value :=
  (TextChunker.text c, TextChunker.chunk_start_of c, TextChunker.chunk_end_of c).

Definition records (r : option (list TextChunker.chunk))
    : option (list (string * value * value)) :=
  match r with
  | Some chunks => Some (recorded <$> chunks)
  | None => None
  end.

Definition sliced (txt : string) (sl : Z * Z) : string * value * value :=
  (strip (slice txt sl.1 sl.2), VInt sl.1, VInt sl.2).

(** What the loop keeps true of [start]: the tentative end is not
    negative, and a negative start only occurs on a text longer than
    one chunk. *)
Definition start_inv (self : TextChunker.t) (txt : string) (s : Z) : Prop :=
  0 <= s + TextChunker.chunk_size self
  /\ (s < 0 -> TextChunker.chunk_size self < len txt).

(** Letters without a delimiter, for a text the loop cannot cut. *)
Fixpoint letters (n : nat) : string :=
  match n with
  | O => ""
  | S n => String "x" (letters n)
  end.

(** ** Retriever and pipeline *)

(** What the spec words say [format_context] returns: one block per
    document text, numbered from [i], the blocks joined by a newline
    (each block ends with one, so consecutive blocks are a blank line
    apart). *)
Definition spec_block (i : Z) (doc_text : string) : string :=
  "[Document " +:+ str_int i +:+ "]" +:+ NL +:+ doc_text +:+ NL.

Fixpoint spec_blocks (i : Z) (texts : list string) : list string :=
  match texts with
  | [] => []
  | doc_text :: rest => spec_block i doc_text :: spec_blocks (i + 1) rest
  end.

Definition spec_context (texts : list string) : string :=
  join NL (spec_blocks 1 texts).

(** A store that answers with the arguments it was called with. *)
Definition recording_store : VectorStore :=
  {| similarity_search := fun query k filter =>
       Returned [ {[ "query" := VStr query; "k" := VInt k;
                     "filter" := from_option VDict VNone filter ]} ] |}.

(** The parts list of a run of well-formed documents, as strings. *)
Fixpoint part_strings (i : Z) (texts : list string) : list string :=
  match texts with
  | [] => []
  | doc_text :: rest =>
      ("[Document " +:+ str_int i +:+ "]") :: doc_text :: ""
      :: part_strings (i + 1) rest
  end.

(** A pipeline over a one-document store whose generation backend is
    out of quota. *)
Definition one_document_store : VectorStore :=
  {| similarity_search := fun _ _ _ =>
       Returned [ {[ "id" := VStr "d1"; "document" := VStr "Sales for Q1 2024 were $1.2M." ]} ] |}.

Definition failing_generator : Generator.t :=
  {| Generator.client := fun _ _ _ _ => Raised "insufficient_quota";
     Generator.model := "gpt-4";
     Generator.temperature := "0.7" |}.

(** ** Dispatch *)

(** A table with one handler that returns and one that raises. *)
Definition echo_handler : MCPServer.handler :=
  fun params => Returned (MCPServer.Json (VList [params])).
Definition failing_handler : MCPServer.handler :=
  fun _ => Raised "Query parameter is required".
Definition two_handlers : gmap string MCPServer.handler :=
  MCPServer.register_handler
    (MCPServer.register_handler ∅ "echo" echo_handler)
    "query_database" failing_handler.

Definition request (method : value) : value :=
  VDict {[ "type" := VStr "request"; "method" := method; "id" := VStr "7" ]}.

(** The last character of a string. *)
Fixpoint last_char (s : string) : option ascii :=
  match s with
  | EmptyString => None
  | String x EmptyString => Some x
  | String _ rest => last_char rest
  end.

(** Every keyword that [_classify_query] looks for. *)
Definition all_words : list string :=
  (QueryAgent.retrieval_words ++ QueryAgent.insertion_words
   ++ QueryAgent.update_words ++ QueryAgent.deletion_words
   ++ QueryAgent.aggregation_words)%list.

(** A toy connection over a log of the calls made: [execute] raises on
    the statement "bad", answers the statement "blob" with a row that
    holds a [bytes] object, and otherwise answers with two columns and
    two rows; [commit] and [rollback] only log. *)
Definition toy_executed : Database.executed :=
  {| Database.description := Some ["ID"; "NAME"];
     Database.fetchall :=
       Returned [ [Database.Cell (VInt 1); Database.Cell (VStr "ada")];
                  [Database.Cell (VInt 2); Database.Cell (VStr "bob")] ];
     Database.rowcount := VInt 2 |}.

Definition blob_executed : Database.executed :=
  {| Database.description := Some ["ID"; "DOC"];
     Database.fetchall :=
       Returned [ [Database.Cell (VInt 1); Database.Opaque "bytes"] ];
     Database.rowcount := VInt 1 |}.

Definition toy_db : Database.connection (list string) :=
  {| Database.cursor := fun log => (log ++ ["cursor"], Returned ());
     Database.execute := fun statement _ log =>
       (log ++ ["execute"],
        match statement with
        | VStr "bad" => Raised "ORA-00900: invalid SQL statement"
        | VStr "blob" => Returned blob_executed
        | _ => Returned toy_executed
        end);
     Database.commit := fun log => (log ++ ["commit"], Returned ());
     Database.rollback := fun log => (log ++ ["rollback"], Returned ()) |}%list.

(** A client whose transport hands the encoded request to the server
    over [handlers] and the answer back. *)
Definition loopback (handlers : gmap string MCPServer.handler)
    (http_error : Z -> string) : MCPClient.t :=
  {| MCPClient.post := fun d =>
       let a := MCPServer.handle_mcp_request handlers (VDict d) in
       MCPClient.Response a.2 (VDict a.1);
     MCPClient.http_error := http_error |}.

(** An agent over the pipeline [rp]: the context's ['top_k'] must be an
    integer or missing and its ['filter'] a dict or missing. *)
Definition agent_over (rp : RAGPipeline.t) : DatabaseAgent.t :=
  {| DatabaseAgent.rag_pipeline_query := fun q k filter =>
       RAGPipeline.query rp q
         match k with VInt n => Some n | _ => None end
         match filter with VDict f => Some f | _ => None end
         None |}.

(* ===================================================================== *)
(** * Properties *)
(* ===================================================================== *)

(** ** Python string built-ins *)

Section Strings.

Lemma get_length (s : string) (i : nat) :
  (i < String.length s)%nat <-> is_Some (String.get i s).
Proof.
  revert i. induction s as [| x s IH]; intros i; cbn.
  - split; [lia | by intros [? ?]].
  - destruct i as [| i]; cbn; [split; [eauto | lia] |].
    rewrite <- IH. lia.
Qed.

Lemma substring_zero (s : string) (n : nat) : substring n 0 s = "".
Proof.
  revert n. induction s as [| x s IH]; intros [| n]; cbn; auto.
Qed.

(** An empty or inverted range gives the empty slice. *)
Lemma slice_empty (s : string) (start stop : Z) :
  (adjust (len s) stop <= adjust (len s) start)%nat -> slice s start stop = "".
Proof.
  intros H. unfold slice.
  replace (adjust (len s) stop - adjust (len s) start)%nat with 0%nat by lia.
  apply substring_zero.
Qed.

(** The characters of a slice are those of the string, shifted. *)
Lemma slice_get (s : string) (start stop : Z) (i : nat) :
  (adjust (len s) start <= i < adjust (len s) stop)%nat ->
  String.get (i - adjust (len s) start) (slice s start stop) = String.get i s.
Proof.
  intros H. unfold slice. rewrite substring_correct1 by lia.
  f_equal. lia.
Qed.

Lemma adjust_inside (n i : Z) : 0 <= i <= n -> Z.of_nat (adjust n i) = i.
Proof. intros H. unfold adjust. destruct (Z.ltb_spec i 0); lia. Qed.

(** [rfind_from] keeps [found] or returns a later hit inside the
    window, and no hit inside the window lies beyond its result. *)
Lemma rfind_from_spec (c : ascii) (lo hi : nat) (s : string) :
  forall (i : nat) (found : option nat),
    (rfind_from s c i lo hi found = found
     \/ exists p, rfind_from s c i lo hi found = Some p
                  /\ (i <= p)%nat /\ (lo <= p < hi)%nat
                  /\ String.get (p - i) s = Some c)
    /\ (forall j, (i <= j)%nat -> (lo <= j < hi)%nat ->
          String.get (j - i) s = Some c ->
          exists p, rfind_from s c i lo hi found = Some p /\ (j <= p)%nat).
Proof.
  induction s as [| x s IH]; intros i found; cbn [rfind_from].
  - split; [by left |]. intros j _ _ H. destruct (j - i)%nat; discriminate.
  - set (found' := if (lo <=? i)%nat && (i <? hi)%nat && Ascii.eqb x c
                   then Some i else found).
    destruct (IH (S i) found') as [Ha Hb]. split.
    + destruct Ha as [Ha | (p & Hp & Hi & Hw & Hg)].
      * rewrite Ha. subst found'.
        destruct ((lo <=? i)%nat && (i <? hi)%nat && Ascii.eqb x c) eqn:E;
          [| by left].
        right. exists i. apply andb_true_iff in E as [E Ex].
        apply andb_true_iff in E as [E1 E2].
        apply Nat.leb_le in E1. apply Nat.ltb_lt in E2.
        apply Ascii.eqb_eq in Ex. subst x.
        replace (i - i)%nat with 0%nat by lia. repeat split; auto; lia.
      * right. exists p. rewrite Hp. repeat split; try lia.
        replace (p - i)%nat with (S (p - S i)) by lia. exact Hg.
    + intros j Hj Hw Hg.
      destruct (decide (j = i)) as [-> | Hne].
      * replace (i - i)%nat with 0%nat in Hg by lia. cbn in Hg.
        injection Hg as ->.
        assert (found' = Some i) as Hf.
        { subst found'. rewrite Ascii.eqb_refl.
          destruct (Nat.leb_spec lo i); [| lia].
          destruct (Nat.ltb_spec i hi); [| lia]. reflexivity. }
        destruct Ha as [Ha | (p & Hp & Hi & _)].
        -- exists i. rewrite Ha, Hf. split; [reflexivity | lia].
        -- exists p. split; [exact Hp | lia].
      * apply (Hb j); [lia | lia |].
        replace (j - i)%nat with (S (j - S i)) in Hg by lia. exact Hg.
Qed.

(** [rfind] returns -1 when the window holds no [c], and otherwise the
    last position of the window that holds it. *)
Lemma rfind_cases (s : string) (c : ascii) (start stop : Z) :
  let lo := adjust (len s) start in
  let hi := adjust (len s) stop in
  (rfind s c start stop = -1
   /\ forall j, (lo <= j < hi)%nat -> String.get j s <> Some c)
  \/ (exists p : nat,
        rfind s c start stop = Z.of_nat p
        /\ (lo <= p < hi)%nat /\ String.get p s = Some c
        /\ forall j, (p < j < hi)%nat -> String.get j s <> Some c).
Proof.
  intros lo hi. unfold rfind. fold lo hi.
  destruct (rfind_from_spec c lo hi s 0 None) as [Ha Hb].
  destruct (rfind_from s c 0 lo hi None) as [p |] eqn:E.
  - right. exists p. destruct Ha as [Ha | (p' & Hp & _ & Hw & Hg)];
      [discriminate |].
    injection Hp as <-. rewrite Nat.sub_0_r in Hg.
    repeat split; try lia; [exact Hg |].
    intros j Hj Hc.
    destruct (Hb j) as (q & Hq & Hle); [lia | lia | by rewrite Nat.sub_0_r |].
    injection Hq as <-. lia.
  - left. split; [reflexivity |]. intros j Hj Hc.
    destruct (Hb j) as (q & Hq & _); [lia | lia | by rewrite Nat.sub_0_r |].
    discriminate.
Qed.

Lemma rstrip_empty (s : string) :
  rstrip s = "" ->
  forall i ch, String.get i s = Some ch -> isspace ch = true.
Proof.
  induction s as [| x s IH]; intros H i ch Hg; [by destruct i |].
  cbn [rstrip] in H. destruct (rstrip s) eqn:E; [| discriminate].
  destruct (isspace x) eqn:Ex; [| discriminate].
  destruct i as [| i]; cbn in Hg; [by injection Hg as <- | eauto].
Qed.

(** A slice that trims to nothing consists of whitespace only. *)
Lemma strip_empty (s : string) :
  strip s = "" ->
  forall i ch, String.get i s = Some ch -> isspace ch = true.
Proof.
  unfold strip. induction s as [| x s IH]; intros H i ch Hg; [by destruct i |].
  cbn [lstrip] in H. destruct (isspace x) eqn:Ex.
  - destruct i as [| i]; cbn in Hg; [by injection Hg as <- | eauto].
  - eapply rstrip_empty; eauto.
Qed.

End Strings.

(** ** The chunker *)

Section ChunkerBoundary.

Import TextChunker.

Variable self : t.
Variable txt : string.

Lemma rfind_last_hit (c : ascii) (start stop : Z) :
  last_hit txt (adjust (len txt) start) (adjust (len txt) stop)
    (fun ch => ch = c) (rfind txt c start stop).
Proof.
  destruct (rfind_cases txt c start stop) as [[Hr Hn] | (p & Hr & Hw & Hg & Hn)].
  - left. split; [exact Hr |]. intros j ch Hj Hg ->. by apply (Hn j).
  - right. exists p. split_and!; [exact Hr | lia | lia | by exists c |].
    intros j ch Hj Hg' ->. by apply (Hn j).
Qed.

Lemma last_hit_max (lo hi : nat) (P Q : ascii -> Prop) (r1 r2 : Z) :
  last_hit txt lo hi P r1 -> last_hit txt lo hi Q r2 ->
  last_hit txt lo hi (fun ch => P ch \/ Q ch) (Z.max r1 r2).
Proof.
  intros [[-> H1] | (p1 & -> & Hw1 & (c1 & Hg1 & Hp1) & Hn1)]
         [[-> H2] | (p2 & -> & Hw2 & (c2 & Hg2 & Hp2) & Hn2)].
  - left. split; [reflexivity |]. intros j ch Hj Hg [?|?];
      [by apply (H1 j ch) | by apply (H2 j ch)].
  - right. exists p2. split_and!; [lia | lia | lia | exists c2; auto |].
    intros j ch Hj Hg [?|?]; [apply (H1 j ch) | apply (Hn2 j ch)]; auto; lia.
  - right. exists p1. split_and!; [lia | lia | lia | exists c1; auto |].
    intros j ch Hj Hg [?|?]; [apply (Hn1 j ch) | apply (H2 j ch)]; auto; lia.
  - right. exists (Nat.max p1 p2). split_and!; [lia | lia | lia | |].
    + destruct (Nat.max_spec p1 p2) as [[_ ->] | [_ ->]];
        [exists c2 | exists c1]; auto.
    + intros j ch Hj Hg [?|?]; [apply (Hn1 j ch) | apply (Hn2 j ch)]; auto; lia.
Qed.

(** [split_point] is -1 when the window holds no delimiter, and the
    rightmost delimiter of the window otherwise. *)
Lemma split_point_cases (start stop : Z) :
  (split_point txt start stop = -1
   /\ forall p, ~ delimiter_in txt start stop p)
  \/ (exists p : nat,
        split_point txt start stop = Z.of_nat p
        /\ rightmost_delimiter txt start stop p).
Proof.
  pose proof (last_hit_max _ _ _ _ _ _
                (last_hit_max _ _ _ _ _ _
                   (rfind_last_hit "." start stop) (rfind_last_hit nl start stop))
                (rfind_last_hit " " start stop)) as H.
  fold (split_point txt start stop) in H.
  destruct H as [[Hr Hn] | (p & Hr & Hw & (ch & Hg & Hp) & Hn)].
  - left. split; [exact Hr |]. intros p (Hw & ch & Hg & Hd).
    apply (Hn p ch Hw Hg). unfold is_delimiter in Hd. tauto.
  - right. exists p. split; [exact Hr |]. split.
    + split; [exact Hw |]. exists ch. split; [exact Hg |].
      unfold is_delimiter. tauto.
    + intros q (Hq & ch' & Hg' & Hd).
      destruct (decide (q <= p)%nat) as [| Hlt]; [done |].
      exfalso. apply (Hn q ch'); [unfold window in Hq; lia | exact Hg' |].
      unfold is_delimiter in Hd. tauto.
Qed.

Lemma split_point_lower (start stop : Z) : -1 <= split_point txt start stop.
Proof.
  destruct (split_point_cases start stop) as [[-> _] | (p & -> & _)]; lia.
Qed.

Lemma split_point_upper (start stop : Z) :
  split_point txt start stop < Z.of_nat (adjust (len txt) stop).
Proof.
  destruct (split_point_cases start stop) as [[-> _] | (p & -> & [[Hw _] _])];
    [lia | unfold window in Hw; lia].
Qed.

(** The end computed by the loop is the end the spec prescribes, except
    for a start below -1 with no delimiter in its window, where the
    comparison [-1 > start] moves the end to 0. *)
Lemma chunk_end_spec (s : Z) :
  spec_end self txt s (chunk_end self txt s)
  \/ (s < -1 /\ chunk_end self txt s = 0).
Proof.
  unfold chunk_end, spec_end. cbv zeta.
  destruct (Z.ltb_spec (s + chunk_size self) (len txt)) as [Hlt | Hge];
    [| left; split; [lia | reflexivity]].
  destruct (split_point_cases s (s + chunk_size self))
    as [[-> Hn] | (p & -> & Hr)].
  - destruct (Z.gtb_spec (-1) s) as [Hs | Hs]; [right; split; [lia | reflexivity] |].
    left. split; [intros _ | lia]. split; [| split]; try reflexivity.
    + intros p [Hp _] _. by destruct (Hn p).
  - left. split; [intros _ | lia].
    assert (forall q, rightmost_delimiter txt s (s + chunk_size self) q -> q = p)
      as Huniq.
    { intros q [Hq1 Hq2]. destruct Hr as [Hp1 Hp2].
      specialize (Hq2 p Hp1). specialize (Hp2 q Hq1). lia. }
    destruct (Z.gtb_spec (Z.of_nat p) s) as [Hs | Hs].
    + split; [| split].
      * intros q Hq _. by rewrite (Huniq q Hq).
      * intros Hn. destruct Hr as [Hp _]. by destruct (Hn p).
      * intros q Hq Hqs. rewrite (Huniq q Hq) in Hqs. lia.
    + split; [| split]; try reflexivity.
      intros q Hq Hqs. rewrite (Huniq q Hq) in Hqs. lia.
Qed.

End ChunkerBoundary.

(** The chunks against the slices the loop takes. *)

Section ChunkerRun.

Import TextChunker.

Variable self : t.
Variable txt : string.
Variable md : option (gmap string value).

Lemma chunk_end_nonneg (s : Z) :
  0 <= s + chunk_size self -> 0 <= chunk_end self txt s.
Proof.
  intros H. unfold chunk_end. cbv zeta.
  destruct (_ <? _); [| lia].
  pose proof (split_point_lower txt s (s + chunk_size self)).
  destruct (_ >? _); lia.
Qed.

Lemma chunk_end_gt (s : Z) : 0 < chunk_size self -> s < chunk_end self txt s.
Proof.
  intros H. unfold chunk_end. cbv zeta.
  destruct (_ <? _); [| lia].
  destruct (Z.gtb_spec (split_point txt s (s + chunk_size self)) s); lia.
Qed.

Lemma chunk_end_upper (s : Z) :
  0 <= s + chunk_size self -> s + chunk_size self < len txt ->
  chunk_end self txt s <= s + chunk_size self.
Proof.
  intros H0 H. unfold chunk_end. cbv zeta.
  destruct (_ <? _); [| lia].
  pose proof (split_point_upper txt s (s + chunk_size self)) as Hu.
  rewrite adjust_inside in Hu by lia.
  destruct (_ >? _); lia.
Qed.

Lemma chunk_end_final (s : Z) :
  len txt <= s + chunk_size self -> chunk_end self txt s = s + chunk_size self.
Proof.
  intros H. unfold chunk_end. cbv zeta.
  destruct (Z.ltb_spec (s + chunk_size self) (len txt)); [lia | reflexivity].
Qed.

(** A negative start leaves an inverted range: nothing is sliced. *)
Lemma negative_start_blank (s : Z) :
  s < 0 -> 0 <= s + chunk_size self -> chunk_size self < len txt ->
  slice txt s (chunk_end self txt s) = "".
Proof.
  intros Hs H0 Hsize. apply slice_empty.
  assert (Z.of_nat (adjust (len txt) s) = s + len txt) as Hlo.
  { unfold adjust. destruct (Z.ltb_spec s 0); lia. }
  pose proof (chunk_end_nonneg s H0) as He0.
  pose proof (chunk_end_upper s H0 ltac:(lia)) as He1.
  assert (Z.of_nat (adjust (len txt) (chunk_end self txt s))
          = chunk_end self txt s) as Hhi
    by (apply adjust_inside; lia).
  lia.
Qed.

Lemma start_inv_step (s : Z) :
  0 <= chunk_size self -> chunk_overlap self <= chunk_size self ->
  start_inv self txt s ->
  start_inv self txt (next_start self txt (chunk_end self txt s)).
Proof.
  intros Hsize Hov [H0 Hneg]. unfold start_inv, next_start.
  pose proof (chunk_end_nonneg s H0) as He.
  destruct (Z.ltb_spec (chunk_end self txt s) (len txt)) as [Hlt | Hge];
    [| lia].
  split; [lia |]. intros _.
  destruct (Z.lt_ge_cases (s + chunk_size self) (len txt)) as [| Hfin].
  - destruct (Z.lt_ge_cases s 0); [auto | lia].
  - rewrite (chunk_end_final s Hfin) in Hlt. lia.
Qed.

(** The offsets of a slice that is kept. *)
Lemma nonblank_bounds (s : Z) :
  0 < chunk_size self -> start_inv self txt s -> s < len txt ->
  nonblank txt (s, chunk_end self txt s) = true ->
  0 <= s < chunk_end self txt s
  /\ (chunk_end self txt s <= len txt
      \/ chunk_end self txt s = s + chunk_size self).
Proof.
  intros Hsize [H0 Hneg] Hlen Hnb.
  destruct (Z.lt_ge_cases s 0) as [Hs | Hs].
  - unfold nonblank in Hnb. cbn [fst snd] in Hnb.
    rewrite negative_start_blank in Hnb by auto. discriminate.
  - split; [split; [lia | by apply chunk_end_gt] |].
    destruct (Z.lt_ge_cases (s + chunk_size self) (len txt)) as [Hlt | Hge].
    + left. pose proof (chunk_end_upper s H0 Hlt). lia.
    + right. by apply chunk_end_final.
Qed.

Lemma emit_unfold (s e : Z) (acc : list chunk) :
  emit txt md s e acc =
  if nonblank txt (s, e) then (acc ++ [chunk_of txt md (length acc) (s, e)])%list
  else acc.
Proof. reflexivity. Qed.

(** The loop appends, to the chunks it starts from, the kept slices in
    order. *)
Lemma emit_fold (sl : list (Z * Z)) (acc : list chunk) :
  fold_left (fun acc sl => emit txt md sl.1 sl.2 acc) sl acc =
  (acc ++ imap (fun i => chunk_of txt md (length acc + i))
            (filter (fun sl => nonblank txt sl = true) sl))%list.
Proof.
  revert acc. induction sl as [| [s e] sl IH]; intros acc; cbn [fold_left].
  - by rewrite app_nil_r.
  - rewrite IH. cbn [fst snd]. rewrite emit_unfold, filter_cons.
    destruct (nonblank txt (s, e)) eqn:E.
    + rewrite decide_True by done. cbn [imap].
      rewrite <- app_assoc. cbn [app]. rewrite Nat.add_0_r.
      do 2 f_equal. apply imap_ext. intros i x _. cbn.
      rewrite length_app. cbn. f_equal. lia.
    + rewrite decide_False by (by intros ?). reflexivity.
Qed.

Lemma loop_slices (fuel : nat) :
  forall (start : Z) (acc : list chunk),
    loop self txt md fuel start acc =
    (fun sl => fold_left (fun acc sl => emit txt md sl.1 sl.2 acc) sl acc)
      <$> slices self txt fuel start.
Proof.
  induction fuel as [| fuel IH]; intros start acc; cbn [loop slices];
    destruct (start <? len txt); try reflexivity.
  rewrite IH. by destruct (slices self txt fuel _).
Qed.

Lemma recorded_chunk_of (index : nat) (sl : Z * Z) :
  recorded (chunk_of txt md index sl) = sliced txt sl.
Proof.
  unfold recorded, sliced, chunk_of, chunk_start_of, chunk_end_of, get,
    chunk_metadata. cbn [text metadata].
  rewrite !(lookup_insert_ne _ "chunk_index") by done.
  rewrite lookup_insert_eq.
  rewrite lookup_insert_ne, lookup_insert_eq by done. reflexivity.
Qed.

(** What [chunk_text] returns is what the kept slices record, in the
    order of the slices. *)
Lemma chunk_text_slices (fuel : nat) (chunks : list chunk) :
  chunk_text self txt md fuel = Some chunks ->
  exists sl,
    slices self txt fuel 0 = Some sl
    /\ recorded <$> chunks
       = sliced txt <$> filter (fun sl => nonblank txt sl = true) sl.
Proof.
  unfold chunk_text. destruct (truthy (VStr txt)) eqn:E.
  - rewrite loop_slices. destruct (slices self txt fuel 0) as [sl |];
      [| discriminate].
    cbn. intros [= <-]. exists sl. split; [reflexivity |].
    rewrite emit_fold. cbn [app length].
    rewrite fmap_imap. unfold compose.
    erewrite imap_ext; [| intros i x _; apply recorded_chunk_of].
    apply (imap_const (sliced txt)).
  - intros [= <-]. exists []. split; [| reflexivity].
    cbn in E. apply negb_false_iff, String.eqb_eq in E. subst txt.
    by destruct fuel.
Qed.

(** The shape of a finished run of the loop. *)

Lemma slices_unfold (fuel : nat) (start : Z) (sl : list (Z * Z)) :
  slices self txt fuel start = Some sl ->
  (len txt <= start /\ sl = [])
  \/ (start < len txt
      /\ exists fuel' sl',
           fuel = S fuel'
           /\ sl = (start, chunk_end self txt start) :: sl'
           /\ slices self txt fuel'
                (next_start self txt (chunk_end self txt start)) = Some sl').
Proof.
  destruct fuel as [| fuel]; cbn [slices];
    destruct (Z.ltb_spec start (len txt)) as [Hlt | Hge]; intros H;
    try discriminate; try (left; split; [lia | congruence]).
  right. split; [lia |].
  destruct (slices self txt fuel _) as [sl' |] eqn:E; [| discriminate].
  injection H as <-. by exists fuel, sl'.
Qed.

(** A property of the start kept by every iteration gives a property
    of every slice. *)
Lemma slices_Forall (P : Z -> Prop) (Q : Z * Z -> Prop) :
  (forall s, P s -> s < len txt ->
     Q (s, chunk_end self txt s)
     /\ P (next_start self txt (chunk_end self txt s))) ->
  forall fuel start sl,
    P start -> slices self txt fuel start = Some sl -> Forall Q sl.
Proof.
  intros Hstep fuel. induction fuel as [| fuel IH]; intros start sl HP H;
    destruct (slices_unfold _ _ _ H)
      as [[_ ->] | (Hlt & fuel' & sl' & Hf & -> & Hs)];
    try constructor; try discriminate.
  - by apply Hstep.
  - injection Hf as <-. apply (IH _ _ (proj2 (Hstep _ HP Hlt)) Hs).
Qed.

Lemma slices_ends (fuel : nat) (start : Z) (sl : list (Z * Z)) :
  slices self txt fuel start = Some sl ->
  Forall (fun sl => sl.1 < len txt /\ sl.2 = chunk_end self txt sl.1) sl.
Proof.
  apply (slices_Forall (fun _ => True)); [| done].
  intros s _ Hs. cbn. auto.
Qed.

Lemma slices_head (fuel : nat) (start : Z) (sl : list (Z * Z)) :
  slices self txt fuel start = Some sl -> start < len txt ->
  exists e, sl !! 0%nat = Some (start, e).
Proof.
  intros H Hlt.
  destruct (slices_unfold _ _ _ H) as [[? _] | (_ & fuel' & sl' & _ & -> & _)];
    [lia | eauto].
Qed.

(** Each slice but the last ends inside the text, and the next one
    starts [chunk_overlap] before that end. *)
Lemma slices_consecutive (fuel : nat) :
  forall (start : Z) (sl : list (Z * Z)) (i : nat) (s e s' e' : Z),
    slices self txt fuel start = Some sl ->
    sl !! i = Some (s, e) -> sl !! S i = Some (s', e') ->
    e < len txt /\ s' = e - chunk_overlap self.
Proof.
  induction fuel as [| fuel IH]; intros start sl i s e s' e' H Hi Hi';
    destruct (slices_unfold _ _ _ H)
      as [[_ ->] | (Hlt & fuel' & sl' & Hf & -> & Hs)];
    try discriminate.
  injection Hf as <-. destruct i as [| i].
  - cbn in Hi, Hi'. injection Hi as <- <-.
    destruct (slices_unfold _ _ _ Hs)
      as [[_ ->] | (Hlt' & _ & sl'' & _ & -> & _)]; [discriminate |].
    cbn in Hi'. injection Hi' as <- <-.
    unfold next_start in *.
    destruct (Z.ltb_spec (chunk_end self txt start) (len txt)); [done | lia].
  - cbn in Hi, Hi'. eapply IH; eauto.
Qed.

(** The last slice reaches the end of the text. *)
Lemma slices_last (fuel : nat) :
  0 <= chunk_overlap self ->
  forall (start : Z) (sl : list (Z * Z)) (s e : Z),
    slices self txt fuel start = Some sl ->
    last sl = Some (s, e) -> len txt <= e.
Proof.
  intros Hov. induction fuel as [| fuel IH]; intros start sl s e H Hl;
    destruct (slices_unfold _ _ _ H)
      as [[_ ->] | (Hlt & fuel' & sl' & Hf & -> & Hs)];
    try discriminate.
  injection Hf as <-. destruct sl' as [| x sl'].
  - cbn in Hl. injection Hl as <- <-.
    destruct (slices_unfold _ _ _ Hs) as [[Hge _] | (_ & _ & ? & _ & ? & _)];
      [| discriminate].
    unfold next_start in Hge.
    destruct (Z.ltb_spec (chunk_end self txt start) (len txt)); lia.
  - rewrite last_cons_cons in Hl. eapply IH; eauto.
Qed.

(** Every position from [start] on lies in the span of some slice. *)
Lemma slices_cover (fuel : nat) :
  0 <= chunk_overlap self ->
  forall (start : Z) (sl : list (Z * Z)) (x : Z),
    slices self txt fuel start = Some sl ->
    start <= x < len txt ->
    exists s e, (s, e) ∈ sl /\ s <= x < e.
Proof.
  intros Hov. induction fuel as [| fuel IH]; intros start sl x H Hx;
    destruct (slices_unfold _ _ _ H)
      as [[? _] | (Hlt & fuel' & sl' & Hf & -> & Hs)];
    try lia; try discriminate.
  injection Hf as <-.
  destruct (Z.lt_ge_cases x (chunk_end self txt start)) as [Hin | Hout].
  - exists start, (chunk_end self txt start). split; [left | lia].
  - destruct (IH _ _ x Hs) as (s & e & Hel & Hse).
    + unfold next_start.
      destruct (Z.ltb_spec (chunk_end self txt start) (len txt)); lia.
    + exists s, e. split; [by right | done].
Qed.

Lemma nonblank_start (s : Z) :
  start_inv self txt s -> nonblank txt (s, chunk_end self txt s) = true -> 0 <= s.
Proof.
  intros [H0 Hneg] Hnb. destruct (Z.lt_ge_cases s 0) as [Hs | Hs]; [| done].
  unfold nonblank in Hnb. cbn [fst snd] in Hnb.
  rewrite negative_start_blank in Hnb by auto. discriminate.
Qed.

(** Every chunk records a kept slice, and every kept slice is recorded
    by a chunk. *)
Lemma chunk_text_kept (fuel : nat) (chunks : list chunk) :
  chunk_text self txt md fuel = Some chunks ->
  exists sl,
    slices self txt fuel 0 = Some sl
    /\ Forall (fun c => exists s, let e := chunk_end self txt s in
                 (s, e) ∈ sl /\ s < len txt
                 /\ nonblank txt (s, e) = true
                 /\ recorded c = sliced txt (s, e)) chunks
    /\ (forall s e, (s, e) ∈ sl -> nonblank txt (s, e) = true ->
          exists c, c ∈ chunks /\ recorded c = sliced txt (s, e)).
Proof.
  intros H. destruct (chunk_text_slices _ _ H) as (sl & Hsl & Hrec).
  exists sl. split; [exact Hsl |]. split.
  - apply Forall_forall. intros c Hc.
    assert (recorded c ∈ recorded <$> chunks) as Hin
      by (by apply list_elem_of_fmap_2).
    rewrite Hrec in Hin. apply list_elem_of_fmap in Hin as ([s e] & Heq & Hin).
    apply list_elem_of_filter in Hin as [Hnb Hin].
    pose proof (slices_ends _ _ _ Hsl) as Hends.
    rewrite Forall_forall in Hends. destruct (Hends _ Hin) as [Hlt He].
    cbn [fst snd] in Hlt, He. subst e. exists s. cbv zeta. auto.
  - intros s e Hin Hnb.
    assert (sliced txt (s, e) ∈ recorded <$> chunks) as Hc.
    { rewrite Hrec. apply list_elem_of_fmap_2.
      by apply list_elem_of_filter. }
    apply list_elem_of_fmap in Hc as (c & Heq & Hc). eauto.
Qed.

Lemma recorded_offsets (c : chunk) (sl : Z * Z) :
  recorded c = sliced txt sl ->
  text c = strip (slice txt sl.1 sl.2)
  /\ chunk_start_of c = VInt sl.1 /\ chunk_end_of c = VInt sl.2.
Proof. unfold recorded, sliced. intros [= -> -> ->]. auto. Qed.

End ChunkerRun.

Section ChunkerTheorems.

Import TextChunker.

Lemma window_plain (txt : string) (s stop : Z) (p : nat) :
  0 <= s -> s <= stop -> stop <= len txt ->
  window txt s stop p <-> s <= Z.of_nat p < stop.
Proof.
  intros H0 H1 H2. unfold window.
  pose proof (adjust_inside (len txt) s ltac:(lia)).
  pose proof (adjust_inside (len txt) stop ltac:(lia)). lia.
Qed.

Lemma slices_start_inv (self : t) (txt : string) (fuel : nat)
    (sl : list (Z * Z)) :
  0 <= chunk_size self -> chunk_overlap self <= chunk_size self ->
  slices self txt fuel 0 = Some sl ->
  Forall (fun sl => start_inv self txt sl.1) sl.
Proof.
  intros Hsize Hov. apply (slices_Forall self txt (start_inv self txt)).
  - intros s Hs _. split; [exact Hs | by apply start_inv_step].
  - unfold start_inv. lia.
Qed.

(** A non-empty text no longer than [chunk_size] is cut once, at
    [chunk_size]: the loop body runs once and the loop is left. *)
Lemma chunk_text_one_slice (self : t) (md : option (gmap string value))
    (txt : string) (fuel : nat) :
  txt <> "" -> len txt <= chunk_size self ->
  chunk_text self txt md (S fuel) = Some (emit txt md 0 (chunk_size self) []).
Proof.
  intros Hne Hlen.
  assert (0 < len txt) as Hpos by (destruct txt; [done | unfold len; cbn; lia]).
  unfold chunk_text.
  replace (truthy (VStr txt)) with true
    by (destruct txt; [done | reflexivity]).
  cbn [loop]. destruct (Z.ltb_spec 0 (len txt)); [| lia].
  rewrite (chunk_end_final self txt 0) by lia. rewrite Z.add_0_l.
  unfold next_start. destruct (Z.ltb_spec (chunk_size self) (len txt)); [lia |].
  destruct fuel; cbn [loop];
    (destruct (Z.ltb_spec (chunk_size self) (len txt)); [lia |]);
    reflexivity.
Qed.

(** C2. [chunk_text] returns the empty list on the empty text, without
    entering the loop.  In every iteration that starts at [s >= -1] the
    end [chunk_end] that the loop computes is the end the spec
    prescribes: with [stop = s + chunk_size], if [stop] is before the
    end of the text then the end is [p + 1] for the rightmost delimiter
    [p] of the window [[s, stop)] when [p > s], and [stop] when the
    window holds no delimiter or its rightmost one is at [s]; otherwise
    it is [stop].  An iteration that starts below -1 either follows
    the rule too or ends at 0 and appends nothing.  A non-empty text no longer than [chunk_size] is
    returned as the one slice [[0, chunk_size)], the hard cut, whatever
    the fuel.  Whenever [chunk_text] returns on a text, the slices it
    took start at 0, each ends where [chunk_end] puts it, the returned
    chunks record exactly the slices that trim to a non-empty text, in
    order, and the offsets [s] and [e] that a chunk records satisfy the
    rule; for [0 <= chunk_size] and [chunk_overlap <= chunk_size] the
    recorded start is a position of the text, and the window is then
    the plain range of positions. *)
Theorem C2_boundary_rule (self : t) (md : option (gmap string value)) :
  (forall fuel, chunk_text self "" md fuel = Some [])
  /\ (forall txt s, -1 <= s -> spec_end self txt s (chunk_end self txt s))
  /\ (forall txt s,
        s < -1 ->
        spec_end self txt s (chunk_end self txt s)
        \/ (chunk_end self txt s = 0 /\ nonblank txt (s, 0) = false))
  /\ (forall txt fuel,
        txt <> "" -> len txt <= chunk_size self ->
        records (chunk_text self txt md (S fuel))
        = Some (if nonblank txt (0, chunk_size self)
                then [sliced txt (0, chunk_size self)] else []))
  /\ (forall txt fuel chunks,
        chunk_text self txt md fuel = Some chunks ->
        exists sl,
          slices self txt fuel 0 = Some sl
          /\ (txt <> "" -> exists rest, sl = (0, chunk_end self txt 0) :: rest)
          /\ Forall (fun se => se.2 = chunk_end self txt se.1) sl
          /\ recorded <$> chunks
             = sliced txt <$> filter (fun se => nonblank txt se = true) sl
          /\ Forall (fun c => exists s e,
                       chunk_start_of c = VInt s /\ chunk_end_of c = VInt e
                       /\ e = chunk_end self txt s
                       /\ spec_end self txt s e
                       /\ (0 <= chunk_size self ->
                           chunk_overlap self <= chunk_size self ->
                           0 <= s < len txt)) chunks)
  /\ (forall txt s stop p,
        0 <= s -> s <= stop -> stop <= len txt ->
        window txt s stop p <-> s <= Z.of_nat p < stop).
Proof.
  split; [reflexivity |].
  split; [| split; [| split; [| split; [| apply window_plain]]]].
  - intros txt s Hs.
    destruct (chunk_end_spec self txt s) as [Hspec | [Hneg _]]; [done | lia].
  - intros txt s Hs.
    destruct (chunk_end_spec self txt s) as [Hspec | [_ H0]]; [by left |].
    right. split; [exact H0 |]. unfold nonblank. cbn [fst snd].
    rewrite slice_empty; [reflexivity |].
    unfold adjust. destruct (Z.ltb_spec 0 0); lia.
  - intros txt fuel Hne Hlen.
    rewrite (chunk_text_one_slice self md txt fuel Hne Hlen).
    rewrite emit_unfold. cbn [records app length].
    destruct (nonblank txt (0, chunk_size self)); [| reflexivity].
    cbn [fmap list_fmap]. by rewrite recorded_chunk_of.
  - intros txt fuel chunks H.
    destruct (chunk_text_kept _ _ _ _ _ H) as (sl & Hsl & Hall & _).
    destruct (chunk_text_slices _ _ _ _ _ H) as (sl' & Hsl' & Hrec).
    assert (sl' = sl) as -> by congruence.
    exists sl. split_and!; [exact Hsl | | | exact Hrec |].
    + intros Hne.
      assert (0 < len txt) as Hpos
        by (destruct txt; [done | unfold len; cbn; lia]).
      destruct (slices_unfold _ _ _ _ _ Hsl)
        as [[? _] | (_ & fuel' & rest & _ & -> & _)]; [lia | eauto].
    + eapply Forall_impl; [exact (slices_ends _ _ _ _ _ Hsl) |].
      cbv beta. by intros se [_ He].
    + eapply Forall_impl; [exact Hall |]. cbv beta zeta.
      intros c (s & Hin & Hlt & Hnb & Hrec').
      apply recorded_offsets in Hrec' as (_ & Hs & He).
      cbn [fst snd] in Hs, He.
      exists s, (chunk_end self txt s). split_and!; [done | done | done | |].
      * destruct (chunk_end_spec self txt s) as [Hspec | [Hneg H0]]; [done |].
        exfalso. unfold nonblank in Hnb. cbn [fst snd] in Hnb.
        rewrite H0, slice_empty in Hnb; [discriminate |].
        unfold adjust. destruct (Z.ltb_spec 0 0); lia.
      * intros Hsize Hov. split; [| done].
        pose proof (slices_start_inv self txt fuel sl Hsize Hov Hsl) as Hinv.
        rewrite Forall_forall in Hinv.
        apply (nonblank_start self txt s (Hinv _ Hin) Hnb).
Qed.

(** C2 on a text of three sentences: the first two ends are snapped to
    the space at 11 and to the space at 20, the last is the hard cut
    19 + 12. *)
Lemma C2_boundary_rule_witness :
  let self := {| chunk_size := 12; chunk_overlap := 2 |} in
  let txt := "Hello world. This is a test." in
  let chunks := [ chunk_of txt None 0 (0, 12); chunk_of txt None 1 (10, 21);
                  chunk_of txt None 2 (19, 31) ] in
  chunk_text self txt None 10 = Some chunks
  /\ spec_end self txt 0 12 /\ spec_end self txt 10 21
  /\ spec_end self txt 19 31
  /\ exists sl,
       slices self txt 10 0 = Some sl
       /\ (txt <> "" -> exists rest, sl = (0, chunk_end self txt 0) :: rest)
       /\ Forall (fun se => se.2 = chunk_end self txt se.1) sl
       /\ recorded <$> chunks
          = sliced txt <$> filter (fun se => nonblank txt se = true) sl
       /\ Forall (fun c => exists s e,
                    chunk_start_of c = VInt s /\ chunk_end_of c = VInt e
                    /\ e = chunk_end self txt s
                    /\ spec_end self txt s e
                    /\ (0 <= chunk_size self ->
                        chunk_overlap self <= chunk_size self ->
                        0 <= s < len txt)) chunks.
Proof.
  cbv zeta.
  assert (chunk_text {| chunk_size := 12; chunk_overlap := 2 |}
            "Hello world. This is a test." None 10
          = Some [ chunk_of "Hello world. This is a test." None 0 (0, 12);
                   chunk_of "Hello world. This is a test." None 1 (10, 21);
                   chunk_of "Hello world. This is a test." None 2 (19, 31) ])
    as Hrun by (vm_compute; reflexivity).
  destruct (C2_boundary_rule {| chunk_size := 12; chunk_overlap := 2 |} None)
    as (_ & Hend & _ & _ & Hret & _).
  split; [exact Hrun |].
  split; [exact (Hend "Hello world. This is a test." 0 ltac:(lia)) |].
  split; [exact (Hend "Hello world. This is a test." 10 ltac:(lia)) |].
  split; [exact (Hend "Hello world. This is a test." 19 ltac:(lia)) |].
  exact (Hret _ _ _ Hrun).
Defined.

Example chunk_text_sentences :
  records
    (chunk_text {| chunk_size := 12; chunk_overlap := 2 |}
       "Hello world. This is a test." None 10)
  = Some [ ("Hello world.", VInt 0, VInt 12);
           ("d. This is", VInt 10, VInt 21);
           ("s a test.", VInt 19, VInt 31) ].
Proof. vm_compute. reflexivity. Qed.

(** C1 as stated fails: with the default configuration the only chunk
    of "abc" records the end offset 1000, beyond the text. *)
Lemma C1_counterexample :
  0 <= 200 < 1000
  /\ records
       (chunk_text {| chunk_size := 1000; chunk_overlap := 200 |} "abc" None 1)
     = Some [ ("abc", VInt 0, VInt 1000) ]
  /\ ~ (1000 <= len "abc").
Proof.
  split; [lia |]. split; [vm_compute; reflexivity |]. vm_compute. by intros ?.
Qed.

(** With chunk_size 10 and chunk_overlap 3 the boundary after "a " is
    nearer to the start than the overlap, the next start is -1, and the
    characters "bcde" at positions 2 to 5 are in no returned chunk. *)
Example chunk_text_loses_text :
  records
    (chunk_text {| chunk_size := 10; chunk_overlap := 3 |}
       "a bcdefghijklmnopqrstuvwxyz" None 5)
  = Some [ ("a", VInt 0, VInt 2);
           ("fghijklmno", VInt 6, VInt 16);
           ("mnopqrstuv", VInt 13, VInt 23);
           ("tuvwxyz", VInt 20, VInt 30) ]
  /\ slices {| chunk_size := 10; chunk_overlap := 3 |}
       "a bcdefghijklmnopqrstuvwxyz" 5 0
     = Some [ (0, 2); (-1, 9); (6, 16); (13, 23); (20, 30) ].
Proof. split; vm_compute; reflexivity. Qed.

Lemma starts_nonneg (self : t) (txt : string) (fuel : nat)
    (sl : list (Z * Z)) :
  slices self txt fuel 0 = Some sl ->
  (forall i s e, sl !! i = Some (s, e) -> is_Some (sl !! S i) ->
     chunk_overlap self < e - s) ->
  forall i s e, sl !! i = Some (s, e) -> 0 <= s.
Proof.
  intros Hsl Hlong. induction i as [| i IH]; intros s e Hi.
  - destruct (slices_unfold _ _ _ _ _ Hsl)
      as [[_ ->] | (_ & _ & sl' & _ & -> & _)]; [discriminate |].
    cbn in Hi. injection Hi as <- _. lia.
  - destruct (sl !! i) as [[s0 e0] |] eqn:E.
    + destruct (slices_consecutive self txt fuel 0 sl i s0 e0 s e Hsl E Hi)
        as [_ ->].
      specialize (IH _ _ eq_refl). specialize (Hlong i s0 e0 E ltac:(eauto)).
      lia.
    + apply lookup_ge_None in E. apply lookup_lt_Some in Hi. lia.
Qed.

(** C1, amended. For [0 <= chunk_overlap < chunk_size], when
    [chunk_text] returns:
    - the returned chunks record, in order, the slices of the loop whose
      trimmed text is not empty (a whitespace-only slice is dropped);
    - every recorded pair satisfies [0 <= chunk_start < chunk_end] and
      [chunk_start < len(text)], and [chunk_end <= len(text)] unless
      [chunk_end] is the hard cut [chunk_start + chunk_size];
    - the first slice starts at 0, a slice followed by another ends
      inside the text and the next one starts exactly [chunk_overlap]
      before that end, and the last slice ends at or beyond the end of
      the text;
    - when every slice but the last is longer than [chunk_overlap], the
      starts and the ends increase, consecutive spans share exactly
      [chunk_overlap] positions, every position of the text lies in the
      span of a slice, and every position holding a non-whitespace
      character lies in the span of a returned chunk. *)
Theorem C1_chunk_spans (self : t) (txt : string)
    (md : option (gmap string value)) (fuel : nat) (chunks : list chunk) :
  0 <= chunk_overlap self < chunk_size self ->
  chunk_text self txt md fuel = Some chunks ->
  exists sl : list (Z * Z),
    slices self txt fuel 0 = Some sl
    /\ recorded <$> chunks
       = sliced txt <$> filter (fun sl => nonblank txt sl = true) sl
    /\ Forall (fun c => exists s e,
                 chunk_start_of c = VInt s /\ chunk_end_of c = VInt e
                 /\ 0 <= s < e /\ s < len txt
                 /\ (e <= len txt \/ e = s + chunk_size self)) chunks
    /\ (txt <> "" -> exists e, sl !! 0%nat = Some (0, e))
    /\ (forall i s e s' e',
          sl !! i = Some (s, e) -> sl !! S i = Some (s', e') ->
          e < len txt /\ s' = e - chunk_overlap self)
    /\ (forall s e, last sl = Some (s, e) -> len txt <= e)
    /\ ((forall i s e, sl !! i = Some (s, e) -> is_Some (sl !! S i) ->
           chunk_overlap self < e - s) ->
        (forall i s e s' e',
           sl !! i = Some (s, e) -> sl !! S i = Some (s', e') ->
           0 <= s < s' /\ s' <= e < e' /\ e - s' = chunk_overlap self)
        /\ (forall x, 0 <= x < len txt ->
              exists s e, (s, e) ∈ sl /\ 0 <= s /\ s <= x < e)
        /\ (forall (x : nat) ch,
              String.get x txt = Some ch -> isspace ch = false ->
              exists c s e,
                c ∈ chunks /\ chunk_start_of c = VInt s
                /\ chunk_end_of c = VInt e /\ s <= Z.of_nat x < e)).
Proof.
  intros Hcfg H.
  destruct (chunk_text_slices _ _ _ _ _ H) as (sl & Hsl & Hrec).
  destruct (chunk_text_kept _ _ _ _ _ H) as (sl' & Hsl' & Hall & Hkept).
  rewrite Hsl in Hsl'. injection Hsl' as <-.
  pose proof (slices_start_inv self txt fuel sl ltac:(lia) ltac:(lia) Hsl)
    as Hinv.
  rewrite Forall_forall in Hinv.
  pose proof (slices_consecutive self txt fuel 0 sl) as Hcons.
  pose proof (slices_last self txt fuel ltac:(lia) 0 sl) as Hlast.
  exists sl. split_and!; [exact Hsl | exact Hrec | | | | |].
  - eapply Forall_impl; [exact Hall |]. cbv beta zeta.
    intros c (s & Hin & Hlt & Hnb & Hr).
    apply recorded_offsets in Hr as (_ & Hs & He). cbn [fst snd] in Hs, He.
    exists s, (chunk_end self txt s).
    destruct (nonblank_bounds self txt s ltac:(lia) (Hinv _ Hin) Hlt Hnb)
      as [Hb1 Hb2].
    split_and!; auto; lia.
  - intros Hne. apply (slices_head self txt fuel 0 sl Hsl).
    destruct txt; [done | unfold len; cbn; lia].
  - intros i s e s' e' Hi Hi'. eapply Hcons; eauto.
  - intros s e Hl. eapply Hlast; eauto.
  - intros Hlong.
    pose proof (starts_nonneg self txt fuel sl Hsl Hlong) as Hpos.
    split_and!.
    + intros i s e s' e' Hi Hi'.
      destruct (Hcons i s e s' e' Hsl Hi Hi') as [He ->].
      pose proof (Hpos _ _ _ Hi). pose proof (Hlong i s e Hi ltac:(eauto)).
      assert (e < e'); [| lia].
      destruct (sl !! S (S i)) as [x |] eqn:E.
      * pose proof (Hlong (S i) _ _ Hi' ltac:(eauto)). lia.
      * assert (last sl = Some (e - chunk_overlap self, e')) as Hl.
        { rewrite last_lookup. apply lookup_ge_None in E.
          pose proof (lookup_lt_Some _ _ _ Hi').
          replace (pred (length sl)) with (S i) by lia. exact Hi'. }
        pose proof (Hlast _ _ Hsl Hl). lia.
    + intros x Hx.
      destruct (slices_cover self txt fuel ltac:(lia) 0 sl x Hsl Hx)
        as (s & e & Hin & Hse).
      exists s, e. split; [exact Hin |].
      apply list_elem_of_lookup in Hin as [i Hi].
      pose proof (Hpos _ _ _ Hi). lia.
    + intros x ch Hg Hsp.
      assert (Z.of_nat x < len txt) as Hx.
      { unfold len. apply inj_lt. apply get_length. eauto. }
      destruct (slices_cover self txt fuel ltac:(lia) 0 sl (Z.of_nat x) Hsl
                  ltac:(lia)) as (s & e & Hin & Hse).
      assert (0 <= s) as Hs0.
      { apply list_elem_of_lookup in Hin as [i Hi]. eapply Hpos; eauto. }
      assert (nonblank txt (s, e) = true) as Hnb.
      { destruct (nonblank txt (s, e)) eqn:E; [done | exfalso].
        unfold nonblank in E. cbn in E.
        apply negb_false_iff, String.eqb_eq in E.
        assert (adjust (len txt) s <= x < adjust (len txt) e)%nat as Hw.
        { unfold adjust.
          destruct (Z.ltb_spec s 0); destruct (Z.ltb_spec e 0); lia. }
        pose proof (slice_get txt s e x Hw) as Hsg. rewrite Hg in Hsg.
        rewrite (strip_empty _ E _ _ Hsg) in Hsp. discriminate. }
      destruct (Hkept s e Hin Hnb) as (c & Hc & Hr).
      apply recorded_offsets in Hr as (_ & Hcs & Hce).
      exists c, s, e. auto.
Qed.

(** The amended C1 on a text of three sentences cut into three chunks. *)
Lemma C1_chunk_spans_witness :
  let self := {| chunk_size := 12; chunk_overlap := 2 |} in
  let txt := "Hello world. This is a test." in
  let chunks := [ chunk_of txt None 0 (0, 12); chunk_of txt None 1 (10, 21);
                  chunk_of txt None 2 (19, 31) ] in
  0 <= chunk_overlap self < chunk_size self
  /\ chunk_text self txt None 10 = Some chunks
  /\ exists sl : list (Z * Z),
       slices self txt 10 0 = Some sl
       /\ recorded <$> chunks
          = sliced txt <$> filter (fun sl => nonblank txt sl = true) sl
       /\ Forall (fun c => exists s e,
                    chunk_start_of c = VInt s /\ chunk_end_of c = VInt e
                    /\ 0 <= s < e /\ s < len txt
                    /\ (e <= len txt \/ e = s + chunk_size self)) chunks.
Proof.
  cbv zeta.
  assert (0 <= 2 < 12) as Hcfg by lia.
  assert (chunk_text {| chunk_size := 12; chunk_overlap := 2 |}
            "Hello world. This is a test." None 10
          = Some [ chunk_of "Hello world. This is a test." None 0 (0, 12);
                   chunk_of "Hello world. This is a test." None 1 (10, 21);
                   chunk_of "Hello world. This is a test." None 2 (19, 31) ])
    as Hrun by (vm_compute; reflexivity).
  split; [exact Hcfg |]. split; [exact Hrun |].
  destruct (C1_chunk_spans {| chunk_size := 12; chunk_overlap := 2 |}
              "Hello world. This is a test." None 10 _ Hcfg Hrun)
    as (sl & H1 & H2 & H3 & _).
  exists sl. split; [exact H1 |]. split; [exact H2 | exact H3].
Defined.

(** A start that the iteration maps to itself is never left. *)
Lemma loop_fixpoint (self : t) (txt : string)
    (md : option (gmap string value)) (s : Z) :
  s < len txt ->
  next_start self txt (chunk_end self txt s) = s ->
  forall fuel acc, loop self txt md fuel s acc = None.
Proof.
  intros Hlt Hfix fuel. induction fuel as [| fuel IH]; intros acc;
    cbn [loop]; destruct (Z.ltb_spec s (len txt)); try lia; [reflexivity |].
  rewrite Hfix. apply IH.
Qed.

Lemma loop_step (self : t) (txt : string)
    (md : option (gmap string value)) (fuel : nat) (s : Z) (acc : list chunk) :
  s < len txt ->
  loop self txt md (S fuel) s acc
  = loop self txt md fuel (next_start self txt (chunk_end self txt s))
      (emit txt md s (chunk_end self txt s) acc).
Proof.
  intros Hlt. cbn [loop]. destruct (Z.ltb_spec s (len txt)); [reflexivity | lia].
Qed.

Lemma loop_out_of_fuel (self : t) (txt : string)
    (md : option (gmap string value)) (s : Z) (acc : list chunk) :
  s < len txt -> loop self txt md 0 s acc = None.
Proof.
  intros Hlt. cbn [loop]. destruct (Z.ltb_spec s (len txt)); [reflexivity | lia].
Qed.

(** C4 fails on the code: with chunk_size 3 and chunk_overlap 2 the
    first slice of "a bcdefgh" is cut after the space at position 1,
    so the end is 2 and the next start is 2 - 2 = 0 again; the loop
    never leaves start 0 and [chunk_text] returns for no amount of
    fuel. *)
Theorem C4_chunk_text_diverges :
  0 <= 2 < 3
  /\ chunk_end {| chunk_size := 3; chunk_overlap := 2 |} "a bcdefgh" 0 = 2
  /\ next_start {| chunk_size := 3; chunk_overlap := 2 |} "a bcdefgh" 2 = 0
  /\ forall md fuel,
       chunk_text {| chunk_size := 3; chunk_overlap := 2 |} "a bcdefgh" md fuel
       = None.
Proof.
  split; [lia |]. split; [reflexivity |]. split; [reflexivity |].
  intros md fuel. unfold chunk_text. cbn [truthy String.eqb negb].
  apply loop_fixpoint; [vm_compute; reflexivity | reflexivity].
Qed.

(** The same happens with the default configuration: on "a " followed
    by 1500 letters the starts are 0, -198, -200, -200, ... and the
    loop never leaves -200. *)
Lemma chunk_text_default_diverges (md : option (gmap string value)) (fuel : nat) :
  chunk_text {| chunk_size := 1000; chunk_overlap := 200 |}
    ("a " +:+ letters 1500) md fuel = None.
Proof.
  set (self := {| chunk_size := 1000; chunk_overlap := 200 |}).
  set (txt := "a " +:+ letters 1500).
  assert (len txt = 1502) as Hlen by (vm_compute; reflexivity).
  assert (chunk_end self txt 0 = 2) as E0 by (vm_compute; reflexivity).
  assert (chunk_end self txt (-198) = 0) as E1 by (vm_compute; reflexivity).
  assert (chunk_end self txt (-200) = 0) as E2 by (vm_compute; reflexivity).
  assert (forall e, e < 1502 -> next_start self txt e = e - 200) as Hnext.
  { intros e He. unfold next_start. rewrite Hlen.
    destruct (Z.ltb_spec e 1502); [reflexivity | lia]. }
  unfold chunk_text.
  replace (truthy (VStr txt)) with true by (vm_compute; reflexivity).
  destruct fuel as [| [| fuel]].
  - apply loop_out_of_fuel. lia.
  - rewrite loop_step, E0, Hnext by lia. apply loop_out_of_fuel. lia.
  - rewrite loop_step, E0, Hnext by lia. change (2 - 200) with (-198).
    rewrite loop_step, E1, Hnext by lia. change (0 - 200) with (-200).
    apply loop_fixpoint; [lia |]. rewrite E2, Hnext by lia. reflexivity.
Qed.

(** C3 as stated fails: [TextChunker(10, 10)] is constructed without an
    error, and the chunker so obtained loops on a text longer than one
    chunk. *)
Lemma C3_counterexample :
  10 >= 10
  /\ ~ (exists msg, init 10 10 = Raised msg)
  /\ init 10 10 = Returned {| chunk_size := 10; chunk_overlap := 10 |}
  /\ forall md fuel,
       chunk_text {| chunk_size := 10; chunk_overlap := 10 |}
         "0123456789abc" md fuel = None.
Proof.
  split; [lia |]. split; [intros [msg H]; discriminate H |].
  split; [reflexivity |].
  intros md fuel. unfold chunk_text. cbn [truthy String.eqb negb].
  apply loop_fixpoint; [vm_compute; reflexivity | reflexivity].
Qed.

(** C3, amended. The constructor makes no check: for every pair of
    parameters, [chunk_overlap >= chunk_size] included, it returns a
    chunker that holds both as given. *)
Theorem C3_init_returns (size overlap : Z) :
  init size overlap = Returned {| chunk_size := size; chunk_overlap := overlap |}
  /\ forall msg, init size overlap <> Raised msg.
Proof. split; [reflexivity | discriminate]. Qed.

End ChunkerTheorems.

(** ** The response envelope *)

Section Envelope.

Import MCPResponse.

Lemma to_dict_error (r : t) :
  truthy (error r) = true ->
  to_dict r !! "error" = Some (error r) /\ to_dict r !! "result" = None
  /\ to_dict r !! "id" = Some (id r).
Proof.
  intros H. unfold to_dict. rewrite H. by simplify_map_eq.
Qed.

Lemma to_dict_result (r : t) :
  truthy (error r) = false ->
  to_dict r !! "result" = Some (result r) /\ to_dict r !! "error" = None
  /\ to_dict r !! "id" = Some (id r).
Proof.
  intros H. unfold to_dict. rewrite H. by simplify_map_eq.
Qed.

(** C6. Whatever the three fields hold, the dictionary built by
    [to_dict] has exactly one of the keys ['result'] and ['error']. *)
Theorem C6_exactly_one_key (r : t) :
  (is_Some (to_dict r !! "result") /\ to_dict r !! "error" = None)
  \/ (to_dict r !! "result" = None /\ is_Some (to_dict r !! "error")).
Proof.
  destruct (truthy (error r)) eqn:E.
  - right. destruct (to_dict_error r E) as (-> & -> & _). eauto.
  - left. destruct (to_dict_result r E) as (-> & -> & _). eauto.
Qed.



End Envelope.

(** ** The dispatch of [/mcp] *)

Section Dispatch.

Import MCPServer.

Variable handlers : gmap string handler.

(** The body of an error response: the message is never empty, so
    [to_dict] keeps it under ['error'] next to the echoed id. *)
Lemma error_response_body (c : ascii) (msg : string) (request_id : value) :
  error_response (String c msg) request_id =
  <["error" := VStr (String c msg)]>
    {[ "type" := VStr "response"; "id" := request_id ]}.
Proof. reflexivity. Qed.

Lemma dispatch_falsy (data : value) :
  truthy data = false -> handle_mcp_request handlers data = invalid_request.
Proof. intros H. unfold handle_mcp_request, dispatch. by rewrite H. Qed.

Lemma dispatch_not_object (data : value) :
  truthy data = true -> (forall d, data <> VDict d) ->
  handle_mcp_request handlers data =
  processing_error ("'" +:+ type_name data +:+ "' object has no attribute 'get'").
Proof.
  intros H Hd. unfold handle_mcp_request, dispatch. rewrite H. cbn.
  destruct data; try reflexivity. by destruct (Hd d).
Qed.

Lemma dispatch_wrong_type (d : gmap string value) :
  get d "type" <> VStr "request" ->
  handle_mcp_request handlers (VDict d) = invalid_request.
Proof.
  intros H. unfold handle_mcp_request, dispatch.
  destruct (truthy (VDict d)); [| reflexivity]. cbn.
  unfold get_or. fold (get d "type").
  destruct (get d "type") as [| | | | s | |]; try reflexivity.
  cbn. destruct (String.eqb_spec s "request") as [->|]; [done | reflexivity].
Qed.

(** A dict holding a ['type'] is not empty, hence truthy. *)
Lemma request_truthy (d : gmap string value) :
  get d "type" = VStr "request" -> truthy (VDict d) = true.
Proof.
  intros H. cbn. rewrite bool_decide_eq_false_2; [done |].
  intros ->. unfold get in H. rewrite lookup_empty in H. discriminate.
Qed.

Lemma dispatch_request (d : gmap string value) :
  get d "type" = VStr "request" ->
  handle_mcp_request handlers (VDict d) =
  match contains handlers (get d "method") with
  | Raised msg => processing_error msg
  | Returned None =>
      (error_response ("Method '" +:+ format (get d "method") +:+ "' not found")
         (get d "id"), 404)
  | Returned (Some h) => invoke h (get_or d "params" (VDict ∅)) (get d "id")
  end.
Proof.
  intros H. unfold handle_mcp_request, dispatch.
  rewrite (request_truthy d H). cbn.
  change (get_or d "type" VNone) with (get d "type"). rewrite H. cbn.
  change (get_or d "method" VNone) with (get d "method").
  destruct (contains handlers (get d "method")) as [[h|]|msg]; reflexivity.
Qed.

(** C5 as stated fails on two kinds of decoded bodies.  A request whose
    method is a JSON array is in no handler table, yet the answer is not
    the 404 with the id echoed: hashing the method raises, the outer
    [except] answers 500 and echoes no id.  A body that is a non-empty
    JSON array has no type field equal to "request", yet the answer is
    500 and not 400. *)
Lemma C5_counterexample :
  let data :=
    VDict {[ "type" := VStr "request"; "method" := VList [VStr "x"];
             "id" := VStr "7" ]} in
  (forall m, (∅ : gmap string handler) !! m = None)
  /\ handle_mcp_request ∅ data = processing_error "unhashable type: 'list'"
  /\ (handle_mcp_request ∅ data).2 <> 404
  /\ (handle_mcp_request ∅ data).1 !! "id" = None
  /\ handle_mcp_request ∅ (VList [VInt 1]) =
     processing_error "'list' object has no attribute 'get'"
  /\ (handle_mcp_request ∅ (VList [VInt 1])).2 <> 400.
Proof.
  cbv zeta.
  assert (E1 : handle_mcp_request ∅
                 (VDict {[ "type" := VStr "request";
                           "method" := VList [VStr "x"]; "id" := VStr "7" ]})
               = processing_error "unhashable type: 'list'")
    by (vm_compute; reflexivity).
  assert (E2 : handle_mcp_request ∅ (VList [VInt 1]) =
               processing_error "'list' object has no attribute 'get'")
    by (vm_compute; reflexivity).
  rewrite E1, E2. clear E1 E2. unfold processing_error. cbn [fst snd].
  split; [intros m; apply lookup_empty |].
  split; [reflexivity |]. split; [discriminate |].
  split; [vm_compute; reflexivity |]. split; [reflexivity | discriminate].
Qed.

(** C5, amended. For a decoded body [data]:
    - a falsy body, or an object whose type is not "request", gets the
      error envelope and 400, with no id;
    - a truthy body that is not an object gets the error envelope of the
      outer [except] and 500;
    - for an object of type "request": a method that is a list or an
      object gets the envelope of the outer [except] and 500; any other
      method absent from the table gets "Method '<method>' not found",
      the id echoed, and 404; a handler that raises gets
      "Error executing method: <message>", the id echoed, and 500, and so
      does a handler whose return value cannot be serialised; otherwise
      the result is the handler's return value, the id echoed, and 200. *)
Theorem C5_dispatch (data : value) :
  (truthy data = false ->
   handle_mcp_request handlers data = invalid_request)
  /\ (forall d, data = VDict d -> get d "type" <> VStr "request" ->
      handle_mcp_request handlers data = invalid_request)
  /\ (truthy data = true -> (forall d, data <> VDict d) ->
      exists msg, handle_mcp_request handlers data = processing_error msg)
  /\ (forall d, data = VDict d -> get d "type" = VStr "request" ->
      let method := get d "method" in
      let params := get_or d "params" (VDict ∅) in
      let request_id := get d "id" in
      let envelope : gmap string value :=
        {[ "type" := VStr "response"; "id" := request_id ]} in
      ((type_name method = "list" \/ type_name method = "dict") ->
       handle_mcp_request handlers data =
       processing_error ("unhashable type: '" +:+ type_name method +:+ "'"))
      /\ (type_name method <> "list" -> type_name method <> "dict" ->
          (forall m, method = VStr m -> handlers !! m = None) ->
          handle_mcp_request handlers data =
          (<["error" := VStr ("Method '" +:+ format method +:+ "' not found")]>
             envelope, 404))
      /\ (forall m (h : handler), method = VStr m -> handlers !! m = Some h ->
          handle_mcp_request handlers data =
          match h params with
          | Raised msg =>
              (<["error" := VStr ("Error executing method: " +:+ msg)]>
                 envelope, 500)
          | Returned (NonJson ty) =>
              (<["error" := VStr ("Error executing method: Object of type "
                                  +:+ ty +:+ " is not JSON serializable")]>
                 envelope, 500)
          | Returned (Json r) => (<["result" := r]> envelope, 200)
          end)).
Proof.
  split; [apply dispatch_falsy |].
  split; [intros d -> H; by apply dispatch_wrong_type |].
  split; [intros H Hd; eexists; by apply dispatch_not_object |].
  intros d -> Ht. cbv zeta. rewrite (dispatch_request d Ht).
  split; [| split].
  - destruct (get d "method"); cbn; intros [?|?]; done.
  - intros Hl Hd Hm.
    destruct (get d "method") as [| [|] | | | m | |] eqn:E; cbn in *;
      try done.
    by rewrite (Hm m eq_refl).
  - intros m h -> Hh. unfold contains. rewrite Hh. unfold invoke.
    destruct (h (get_or d "params" (VDict ∅))) as [[r|ty]|msg]; reflexivity.
Qed.

End Dispatch.

(** ** The retriever *)

Section RetrieverFacts.

Import Retriever.

Lemma append_assoc (a b c : string) : (a +:+ b) +:+ c = a +:+ (b +:+ c).
Proof.
  induction a as [|x a IH]; [reflexivity |].
  change (String x ((a +:+ b) +:+ c) = String x (a +:+ (b +:+ c))).
  by rewrite IH.
Qed.

Lemma context_parts_texts (docs : list (gmap string value)) (texts : list string) :
  Forall2 (fun d doc_text => d !! "document" = Some (VStr doc_text)) docs texts ->
  forall i, context_parts i docs = Returned (VStr <$> part_strings i texts).
Proof.
  induction 1 as [| d doc_text docs texts Hd _ IH]; intros i; [reflexivity |].
  cbn [context_parts]. rewrite Hd, (IH (i + 1)). reflexivity.
Qed.

Lemma str_items_strings (l : list string) (n : Z) :
  str_items n (VStr <$> l) = Returned l.
Proof.
  revert n. induction l as [| x l IH]; intros n; [reflexivity |].
  cbn [fmap list_fmap str_items]. change (list_fmap _ _ VStr l) with (VStr <$> l).
  by rewrite IH.
Qed.

Lemma join_parts_blocks (texts : list string) (i : Z) :
  join NL (part_strings i texts) = join NL (spec_blocks i texts).
Proof.
  revert i. induction texts as [| doc_text rest IH]; intros i; [reflexivity |].
  cbn [part_strings spec_blocks]. unfold join in *.
  specialize (IH (i + 1)). unfold spec_block.
  destruct rest as [| t2 rest].
  - cbn. rewrite !append_assoc. reflexivity.
  - cbn [part_strings spec_blocks] in *. cbn [String.concat] in *.
    rewrite <- IH. rewrite !append_assoc. reflexivity.
Qed.

Lemma format_context_texts (docs : list (gmap string value)) (texts : list string) :
  Forall2 (fun d doc_text => d !! "document" = Some (VStr doc_text)) docs texts ->
  format_context docs = Returned (spec_context texts).
Proof.
  intros H. unfold format_context, spec_context.
  pose proof (context_parts_texts docs texts H 1) as Hp.
  destruct H as [| d doc_text docs texts Hd H]; [reflexivity |].
  rewrite Hp. cbn [mbind outcome_bind]. unfold join_values.
  rewrite str_items_strings. cbn [mbind outcome_bind].
  by rewrite join_parts_blocks.
Qed.

(** C8. [format_context] returns the empty string on the empty list;
    on documents that carry a text it returns the blocks
    "[Document i]\n<text>\n", numbered from 1 in the input order and
    joined by a newline; on the two documents A and B it returns
    "[Document 1]\nA\n\n[Document 2]\nB\n". *)
Theorem C8_format_context :
  format_context [] = Returned ""
  /\ (forall docs texts,
        Forall2 (fun d doc_text => d !! "document" = Some (VStr doc_text))
          docs texts ->
        format_context docs = Returned (spec_context texts))
  /\ format_context [ {[ "document" := VStr "A" ]}; {[ "document" := VStr "B" ]} ]
     = Returned ("[Document 1]" +:+ NL +:+ "A" +:+ NL +:+ NL +:+
                 "[Document 2]" +:+ NL +:+ "B" +:+ NL).
Proof.
  split; [reflexivity |]. split; [apply format_context_texts |].
  vm_compute. reflexivity.
Qed.

Lemma recording_store_k (query : string) (k : Z)
    (filter : option (gmap string value)) :
  match similarity_search recording_store query k filter with
  | Returned [d] => d !! "k"
  | _ => None
  end = Some (VInt k).
Proof.
  cbn [similarity_search recording_store].
  rewrite lookup_insert_ne by done. by rewrite lookup_insert_eq.
Qed.

(** C10 as stated fails: [k = 0] is supplied, and the store is searched
    with the configured [top_k] instead. *)
Lemma C10_counterexample :
  let self := {| vector_store := recording_store; top_k := 5 |} in
  retrieve self "q" (Some 0) None
  = similarity_search recording_store "q" 5 None
  /\ retrieve self "q" (Some 0) None
     <> similarity_search recording_store "q" 0 None.
Proof.
  cbv zeta. split; [reflexivity |].
  intros H.
  apply (f_equal (fun r => match r with
                           | Returned [d] => d !! "k"
                           | _ => None
                           end)) in H.
  rewrite !recording_store_k in H. discriminate H.
Qed.

(** C10, amended. [retrieve] searches the store with [k] itself when
    [k] is supplied and not zero, and with the configured [top_k] when
    [k] is [None] or zero; the query and the filter reach the store
    unchanged, [None] included; [RAGPipeline.query] hands its [k] and
    [filter] to [retrieve] as they are. *)
Theorem C10_retrieve_arguments (self : t) (query : string)
    (filter : option (gmap string value)) :
  (forall k, k <> 0 ->
     retrieve self query (Some k) filter
     = similarity_search (vector_store self) query k filter)
  /\ retrieve self query (Some 0) filter
     = similarity_search (vector_store self) query (top_k self) filter
  /\ retrieve self query None filter
     = similarity_search (vector_store self) query (top_k self) filter
  /\ (forall gen k system_prompt,
        let pipeline := {| RAGPipeline.retriever := self;
                           RAGPipeline.generator := gen |} in
        (forall msg, retrieve self query k filter = Raised msg ->
           RAGPipeline.query pipeline query k filter system_prompt = Raised msg)
        /\ (forall docs result,
              RAGPipeline.query pipeline query k filter system_prompt
              = Returned result ->
              retrieve self query k filter = Returned docs ->
              result !! "retrieved_documents" = Some (VList (VDict <$> docs)))).
Proof.
  split; [| split; [reflexivity | split; [reflexivity |]]].
  - intros k Hk. unfold retrieve, k_or_top_k. cbn.
    destruct (Z.eqb_spec k 0); [done | reflexivity].
  - intros gen k system_prompt pipeline. unfold RAGPipeline.query. cbn.
    split.
    + intros msg ->. reflexivity.
    + intros docs result Hq Hr. rewrite Hr in Hq. cbn in Hq.
      destruct (format_context docs) as [context|msg]; cbn in Hq; [| discriminate].
      injection Hq as <-. rewrite lookup_insert_ne by done.
      by rewrite lookup_insert_eq.
Qed.

End RetrieverFacts.

(** ** The pipeline *)

Section PipelineFacts.

Import RAGPipeline.

Lemma format_context_returns (docs : list (gmap string value)) :
  Forall (fun d => exists doc_text, d !! "document" = Some (VStr doc_text)) docs ->
  exists context, Retriever.format_context docs = Returned context.
Proof.
  intros H.
  assert (exists texts,
            Forall2 (fun d doc_text => d !! "document" = Some (VStr doc_text))
              docs texts) as [texts Ht].
  { induction H as [| d docs [doc_text Hd] _ [texts IH]].
    - exists []. constructor.
    - exists (doc_text :: texts). by constructor. }
  exists (spec_context texts).
  by apply format_context_texts.
Qed.

(** C9. When retrieval succeeds with documents that carry a text,
    [query] returns a result holding the retrieved list under
    ['retrieved_documents'] and its length under ['num_documents'],
    whatever the generator did; every other key is the generator's, as
    it was; and when the generation backend raises, the result has
    ['answer'] None and ['error'] the message of the exception. *)
Theorem C9_query_result (self : t) (q : string) (k : option Z)
    (filter : option (gmap string value)) (system_prompt : option string)
    (docs : list (gmap string value)) :
  Retriever.retrieve (retriever self) q k filter = Returned docs ->
  Forall (fun d => exists doc_text, d !! "document" = Some (VStr doc_text)) docs ->
  exists context result,
    Retriever.format_context docs = Returned context
    /\ query self q k filter system_prompt = Returned result
    /\ result !! "retrieved_documents" = Some (VList (VDict <$> docs))
    /\ result !! "num_documents" = Some (VInt (Z.of_nat (length docs)))
    /\ (forall key, key <> "retrieved_documents" -> key <> "num_documents" ->
          result !! key
          = Generator.generate (generator self) q context system_prompt !! key)
    /\ (forall msg,
          Generator.client (generator self) (Generator.model (generator self))
            (default Generator.default_system_prompt system_prompt)
            (Generator.user_message q context)
            (Generator.temperature (generator self)) = Raised msg ->
          result !! "answer" = Some VNone
          /\ result !! "error" = Some (VStr msg)).
Proof.
  intros Hr Hdocs.
  destruct (format_context_returns docs Hdocs) as [context Hc].
  exists context. eexists. split; [exact Hc |].
  unfold query. rewrite Hr. cbn [mbind outcome_bind]. rewrite Hc.
  cbn [mbind outcome_bind]. split; [reflexivity |].
  split; [by rewrite lookup_insert_ne, lookup_insert_eq by done |].
  split; [by rewrite lookup_insert_eq |].
  split.
  - intros key H1 H2. by rewrite !lookup_insert_ne by done.
  - intros msg Hm. rewrite !lookup_insert_ne by done.
    unfold Generator.generate. rewrite Hm.
    split; [by rewrite lookup_insert_eq |].
    by rewrite lookup_insert_ne, lookup_singleton_eq by done.
Qed.

End PipelineFacts.

(** C9 on a one-document store with a generation backend that fails. *)
Lemma C9_query_result_witness :
  exists context result,
    Retriever.format_context
      [ {[ "id" := VStr "d1"; "document" := VStr "Sales for Q1 2024 were $1.2M." ]} ]
    = Returned context
    /\ RAGPipeline.query
         (RAGPipeline.init one_document_store failing_generator 5)
         "What were the Q1 sales?" None None None = Returned result
    /\ result !! "retrieved_documents"
       = Some (VList (VDict <$>
            [ {[ "id" := VStr "d1"; "document" := VStr "Sales for Q1 2024 were $1.2M." ]} ]))
    /\ result !! "num_documents" = Some (VInt 1)
    /\ (forall key, key <> "retrieved_documents" -> key <> "num_documents" ->
          result !! key
          = Generator.generate failing_generator "What were the Q1 sales?"
              context None !! key)
    /\ (forall msg,
          @Raised Generator.completion "insufficient_quota" = Raised msg ->
          result !! "answer" = Some VNone
          /\ result !! "error" = Some (VStr msg)).
Proof.
  apply (C9_query_result
           (RAGPipeline.init one_document_store failing_generator 5)
           "What were the Q1 sales?" None None None
           [ {[ "id" := VStr "d1"; "document" := VStr "Sales for Q1 2024 were $1.2M." ]} ]).
  - reflexivity.
  - constructor; [| constructor].
    exists "Sales for Q1 2024 were $1.2M.". reflexivity.
Defined.

(** The four answers of the dispatch on a two-handler table. *)
Example dispatch_200 :
  MCPServer.handle_mcp_request two_handlers (request (VStr "echo")) =
  (<["result" := VList [VDict ∅]]>
     {[ "type" := VStr "response"; "id" := VStr "7" ]}, 200).
Proof. vm_compute. reflexivity. Qed.

Example dispatch_500 :
  MCPServer.handle_mcp_request two_handlers (request (VStr "query_database")) =
  (<["error" := VStr "Error executing method: Query parameter is required"]>
     {[ "type" := VStr "response"; "id" := VStr "7" ]}, 500).
Proof. vm_compute. reflexivity. Qed.

Example dispatch_404 :
  MCPServer.handle_mcp_request two_handlers (request VNone) =
  (<["error" := VStr "Method 'None' not found"]>
     {[ "type" := VStr "response"; "id" := VStr "7" ]}, 404).
Proof. vm_compute. reflexivity. Qed.

Example dispatch_400 :
  MCPServer.handle_mcp_request two_handlers (VDict ∅) =
  MCPServer.invalid_request.
Proof. vm_compute. reflexivity. Qed.


(* ===================================================================== *)
(** * Further properties of the code *)
(* ===================================================================== *)

(** ** rag/chunker.py: what [chunk_text] returns *)

Section ChunkerMore.

Import TextChunker.

(** The chunks themselves, not only what they record. *)
Lemma chunk_text_chunks (self : t) (txt : string)
    (md : option (gmap string value)) (fuel : nat) (chunks : list chunk) :
  chunk_text self txt md fuel = Some chunks ->
  exists sl,
    slices self txt fuel 0 = Some sl
    /\ chunks = imap (chunk_of txt md)
                  (filter (fun sl => nonblank txt sl = true) sl).
Proof.
  unfold chunk_text. destruct (truthy (VStr txt)) eqn:E.
  - rewrite loop_slices. destruct (slices self txt fuel 0) as [sl |];
      [| discriminate].
    intros [= <-]. exists sl. split; [reflexivity |].
    rewrite emit_fold. reflexivity.
  - intros [= <-]. exists []. split; [| reflexivity].
    cbn in E. apply negb_false_iff, String.eqb_eq in E. subst txt.
    by destruct fuel.
Qed.

Lemma chunk_index_of_chunk_of (txt : string) (md : option (gmap string value))
    (i : nat) (sl : Z * Z) :
  chunk_index_of (chunk_of txt md i sl) = VInt (Z.of_nat i).
Proof.
  unfold chunk_index_of, chunk_of, get, chunk_metadata. cbn [metadata].
  by rewrite lookup_insert_eq.
Qed.

(** X1: the [chunk_index] recorded in the metadata of a returned chunk
    is its position in the returned list: the indices are 0, 1, 2, ...
    without a gap, also when whitespace-only slices were dropped. *)
Theorem chunk_index_sequential (self : t) (txt : string)
    (md : option (gmap string value)) (fuel : nat) (chunks : list chunk) :
  chunk_text self txt md fuel = Some chunks ->
  forall (i : nat) (c : chunk),
    chunks !! i = Some c -> chunk_index_of c = VInt (Z.of_nat i).
Proof.
  intros H i c Hi.
  destruct (chunk_text_chunks _ _ _ _ _ H) as (sl & _ & ->).
  rewrite list_lookup_imap in Hi.
  destruct (filter _ sl !! i) as [x |]; [| discriminate].
  injection Hi as <-. apply chunk_index_of_chunk_of.
Qed.

Lemma chunk_index_sequential_witness :
  let self := {| chunk_size := 12; chunk_overlap := 2 |} in
  let txt := "Hello world. This is a test." in
  let chunks := [ chunk_of txt None 0 (0, 12); chunk_of txt None 1 (10, 21);
                  chunk_of txt None 2 (19, 31) ] in
  chunk_text self txt None 10 = Some chunks
  /\ forall (i : nat) (c : chunk),
       chunks !! i = Some c -> chunk_index_of c = VInt (Z.of_nat i).
Proof.
  cbv zeta.
  assert (chunk_text {| chunk_size := 12; chunk_overlap := 2 |}
            "Hello world. This is a test." None 10
          = Some [ chunk_of "Hello world. This is a test." None 0 (0, 12);
                   chunk_of "Hello world. This is a test." None 1 (10, 21);
                   chunk_of "Hello world. This is a test." None 2 (19, 31) ])
    as Hrun by (vm_compute; reflexivity).
  split; [exact Hrun |].
  exact (chunk_index_sequential _ _ _ _ _ Hrun).
Defined.

(** *** Trimming *)

Lemma lstrip_head (s : string) (x : ascii) (r : string) :
  lstrip s = String x r -> isspace x = false.
Proof.
  induction s as [| a s IH]; cbn [lstrip]; [discriminate |].
  destruct (isspace a) eqn:E; [exact IH |]. by intros [= <- _].
Qed.

Lemma rstrip_head (s : string) (x : ascii) (r : string) :
  rstrip s = String x r -> exists s', s = String x s'.
Proof.
  destruct s as [| a s]; cbn [rstrip]; [discriminate |].
  destruct (rstrip s); [destruct (isspace a) |]; intros [= <- _]; eauto.
Qed.

Lemma rstrip_idempotent (s : string) : rstrip (rstrip s) = rstrip s.
Proof.
  induction s as [| a s IH]; [reflexivity |]. cbn [rstrip].
  destruct (rstrip s) as [| b r] eqn:E.
  - destruct (isspace a) eqn:Ea; [reflexivity |]. cbn [rstrip]. by rewrite Ea.
  - cbn [rstrip]. cbn [rstrip] in IH. by rewrite IH.
Qed.

Lemma rstrip_last (s : string) (x : ascii) :
  last_char (rstrip s) = Some x -> isspace x = false.
Proof.
  induction s as [| a s IH]; cbn [rstrip]; [discriminate |].
  destruct (rstrip s) as [| b r] eqn:E.
  - destruct (isspace a) eqn:Ea; cbn; [discriminate |]. by intros [= <-].
  - intros H. apply IH. exact H.
Qed.

(** What [strip] returns starts and ends with a character that is
    not whitespace, and trimming it again changes nothing. *)
Lemma strip_trimmed (s : string) :
  (forall x r, strip s = String x r -> isspace x = false)
  /\ (forall x, last_char (strip s) = Some x -> isspace x = false)
  /\ strip (strip s) = strip s.
Proof.
  unfold strip. split_and!.
  - intros x r H. destruct (rstrip_head _ _ _ H) as [s' Hs'].
    eapply lstrip_head; eauto.
  - apply rstrip_last.
  - destruct (rstrip (lstrip s)) as [| x r] eqn:E; [reflexivity |].
    destruct (rstrip_head _ _ _ E) as [s' Hs'].
    pose proof (lstrip_head _ _ _ Hs') as Hx.
    cbn [lstrip]. rewrite Hx. rewrite <- E. apply rstrip_idempotent.
Qed.

(** Every returned chunk is the trimmed text of a slice, and that text
    is not empty. *)
Lemma chunk_text_texts (self : t) (txt : string)
    (md : option (gmap string value)) (fuel : nat) (chunks : list chunk) :
  chunk_text self txt md fuel = Some chunks ->
  Forall (fun c => text c <> ""
                   /\ exists start stop, text c = strip (slice txt start stop))
    chunks.
Proof.
  intros H. destruct (chunk_text_kept _ _ _ _ _ H) as (sl & _ & Hall & _).
  eapply Forall_impl; [exact Hall |]. cbv beta zeta.
  intros c (s & _ & _ & Hnb & Hrec).
  apply recorded_offsets in Hrec as (Ht & _ & _). split; [| eauto].
  unfold nonblank in Hnb. cbn [truthy] in Hnb.
  intros E. rewrite Ht in E. rewrite E in Hnb. discriminate.
Qed.

(** X2: every returned chunk text is trimmed and not empty: it starts
    and ends with a character that is not whitespace, and trimming it
    again gives it back. *)
Theorem chunk_text_trimmed (self : t) (txt : string)
    (md : option (gmap string value)) (fuel : nat) (chunks : list chunk) :
  chunk_text self txt md fuel = Some chunks ->
  Forall (fun c =>
            text c <> ""
            /\ (forall x r, text c = String x r -> isspace x = false)
            /\ (forall x, last_char (text c) = Some x -> isspace x = false)
            /\ strip (text c) = text c) chunks.
Proof.
  intros H. eapply Forall_impl; [exact (chunk_text_texts _ _ _ _ _ H) |].
  cbv beta. intros c (Hne & start & stop & Ht). rewrite Ht.
  destruct (strip_trimmed (slice txt start stop)) as (H1 & H2 & H3).
  split_and!; auto. by rewrite <- Ht.
Qed.

Lemma chunk_text_trimmed_witness :
  let self := {| chunk_size := 12; chunk_overlap := 2 |} in
  let txt := "Hello world. This is a test." in
  let chunks := [ chunk_of txt None 0 (0, 12); chunk_of txt None 1 (10, 21);
                  chunk_of txt None 2 (19, 31) ] in
  chunk_text self txt None 10 = Some chunks
  /\ Forall (fun c =>
               text c <> ""
               /\ (forall x r, text c = String x r -> isspace x = false)
               /\ (forall x, last_char (text c) = Some x -> isspace x = false)
               /\ strip (text c) = text c) chunks.
Proof.
  cbv zeta.
  assert (chunk_text {| chunk_size := 12; chunk_overlap := 2 |}
            "Hello world. This is a test." None 10
          = Some [ chunk_of "Hello world. This is a test." None 0 (0, 12);
                   chunk_of "Hello world. This is a test." None 1 (10, 21);
                   chunk_of "Hello world. This is a test." None 2 (19, 31) ])
    as Hrun by (vm_compute; reflexivity).
  split; [exact Hrun |].
  exact (chunk_text_trimmed _ _ _ _ _ Hrun).
Defined.

(** *** Metadata *)

(** X3: the metadata of every returned chunk holds the caller's
    metadata under every key but [chunk_start], [chunk_end] and
    [chunk_index] (those three are overwritten), and nothing else:
    without caller metadata every other key is absent. *)
Theorem chunk_text_metadata (self : t) (txt : string)
    (md : option (gmap string value)) (fuel : nat) (chunks : list chunk) :
  chunk_text self txt md fuel = Some chunks ->
  Forall (fun c =>
            forall key, key <> "chunk_start" -> key <> "chunk_end" ->
                        key <> "chunk_index" ->
              metadata c !! key
              = match md with Some m => m !! key | None => None end) chunks.
Proof.
  intros H. destruct (chunk_text_chunks _ _ _ _ _ H) as (sl & _ & ->).
  apply Forall_forall. intros c Hc.
  apply list_elem_of_lookup in Hc as [i Hi].
  rewrite list_lookup_imap in Hi.
  destruct (filter _ sl !! i) as [x |]; [| discriminate].
  injection Hi as <-. intros key H1 H2 H3.
  unfold chunk_of, chunk_metadata. cbn [metadata].
  rewrite !lookup_insert_ne by done.
  destruct md as [m |]; [| reflexivity].
  destruct (truthy (VDict m)) eqn:E; [reflexivity |].
  cbn in E. apply negb_false_iff, bool_decide_eq_true_1 in E. by rewrite E.
Qed.

Lemma chunk_text_metadata_witness :
  let self := {| chunk_size := 12; chunk_overlap := 2 |} in
  let txt := "Hello world. This is a test." in
  let md : gmap string value :=
    {[ "source" := VStr "a.txt"; "chunk_index" := VInt 7 ]} in
  let chunks := [ chunk_of txt (Some md) 0 (0, 12);
                  chunk_of txt (Some md) 1 (10, 21);
                  chunk_of txt (Some md) 2 (19, 31) ] in
  chunk_text self txt (Some md) 10 = Some chunks
  /\ Forall (fun c =>
               forall key, key <> "chunk_start" -> key <> "chunk_end" ->
                           key <> "chunk_index" ->
                 metadata c !! key = md !! key) chunks.
Proof.
  cbv zeta.
  assert (chunk_text {| chunk_size := 12; chunk_overlap := 2 |}
            "Hello world. This is a test."
            (Some {[ "source" := VStr "a.txt"; "chunk_index" := VInt 7 ]}) 10
          = Some [ chunk_of "Hello world. This is a test."
                     (Some {[ "source" := VStr "a.txt"; "chunk_index" := VInt 7 ]})
                     0 (0, 12);
                   chunk_of "Hello world. This is a test."
                     (Some {[ "source" := VStr "a.txt"; "chunk_index" := VInt 7 ]})
                     1 (10, 21);
                   chunk_of "Hello world. This is a test."
                     (Some {[ "source" := VStr "a.txt"; "chunk_index" := VInt 7 ]})
                     2 (19, 31) ])
    as Hrun by (vm_compute; reflexivity).
  split; [exact Hrun |].
  exact (chunk_text_metadata _ _ _ _ _ Hrun).
Defined.

(** *** When the loop ends *)

Lemma loop_terminates (self : t) (txt : string)
    (md : option (gmap string value)) :
  (forall s, 0 <= s < len txt ->
     s < next_start self txt (chunk_end self txt s)) ->
  forall (fuel : nat) (start : Z) (acc : list chunk),
    0 <= start -> len txt - start <= Z.of_nat fuel ->
    exists r, loop self txt md fuel start acc = Some r.
Proof.
  intros Hprog fuel. induction fuel as [| fuel IH]; intros start acc H0 Hf.
  - exists acc. cbn [loop]. destruct (Z.ltb_spec start (len txt)); [lia | done].
  - destruct (Z.lt_ge_cases start (len txt)) as [Hlt | Hge].
    + rewrite loop_step by done.
      pose proof (Hprog start ltac:(lia)). apply IH; lia.
    + exists acc. cbn [loop].
      destruct (Z.ltb_spec start (len txt)); [lia | done].
Qed.

Lemma progress_small_overlap (self : t) (txt : string) :
  0 < chunk_size self -> chunk_overlap self < chunk_size self ->
  chunk_overlap self <= 1 ->
  forall s, 0 <= s < len txt ->
    s < next_start self txt (chunk_end self txt s).
Proof.
  intros Hsize Hov H1 s Hs. unfold next_start, chunk_end. cbv zeta.
  destruct (Z.ltb_spec (s + chunk_size self) (len txt)) as [Hlt | Hge].
  - pose proof (split_point_upper txt s (s + chunk_size self)) as Hu.
    rewrite adjust_inside in Hu by lia.
    destruct (Z.gtb_spec (split_point txt s (s + chunk_size self)) s).
    + destruct (Z.ltb_spec (split_point txt s (s + chunk_size self) + 1)
                  (len txt)); lia.
    + destruct (Z.ltb_spec (s + chunk_size self) (len txt)); lia.
  - destruct (Z.ltb_spec (s + chunk_size self) (len txt)); lia.
Qed.

Lemma progress_no_delimiter (self : t) (txt : string) :
  0 < chunk_size self -> chunk_overlap self < chunk_size self ->
  (forall p ch, String.get p txt = Some ch -> ~ is_delimiter ch) ->
  forall s, 0 <= s < len txt ->
    s < next_start self txt (chunk_end self txt s).
Proof.
  intros Hsize Hov Hnd s Hs. unfold next_start, chunk_end. cbv zeta.
  destruct (split_point_cases txt s (s + chunk_size self))
    as [[-> _] | (p & _ & [(_ & ch & Hg & Hd) _])];
    [| by destruct (Hnd p ch Hg)].
  destruct (Z.gtb_spec (-1) s); [lia |].
  destruct (Z.ltb_spec (s + chunk_size self) (len txt));
    destruct (Z.ltb_spec (s + chunk_size self) (len txt)); lia.
Qed.

(** X4: with a positive [chunk_size] and [chunk_overlap < chunk_size],
    [chunk_text] returns after at most [len(text)] iterations when the
    overlap is at most 1 (also when it is negative), or when the text
    holds none of the characters the boundary search looks for (full
    stop, newline, space): in both cases every iteration moves [start]
    forward. *)
Theorem chunk_text_terminates (self : t) (txt : string)
    (md : option (gmap string value)) (fuel : nat) :
  0 < chunk_size self -> chunk_overlap self < chunk_size self ->
  chunk_overlap self <= 1
  \/ (forall p ch, String.get p txt = Some ch -> ~ is_delimiter ch) ->
  (String.length txt <= fuel)%nat ->
  exists chunks, chunk_text self txt md fuel = Some chunks.
Proof.
  intros Hsize Hov Hcase Hfuel. unfold chunk_text.
  destruct (truthy (VStr txt)); [| eauto].
  apply loop_terminates; [| lia | unfold len; lia].
  destruct Hcase as [H1 | Hnd];
    [by apply progress_small_overlap | by apply progress_no_delimiter].
Qed.

Lemma chunk_text_terminates_witness :
  let self := {| chunk_size := 12; chunk_overlap := 1 |} in
  exists chunks,
    chunk_text self "Hello world. This is a test." None 28 = Some chunks.
Proof.
  cbv zeta.
  apply (chunk_text_terminates {| chunk_size := 12; chunk_overlap := 1 |}
           "Hello world. This is a test." None 28).
  - cbn. lia.
  - cbn. lia.
  - left. cbn. lia.
  - cbn. lia.
Defined.

(** *** A text that fits in one chunk *)

Lemma substring_all (s : string) : substring 0 (String.length s) s = s.
Proof. induction s as [| x s IH]; [reflexivity |]. cbn. by rewrite IH. Qed.

Lemma slice_all (s : string) (stop : Z) : len s <= stop -> slice s 0 stop = s.
Proof.
  intros H. unfold slice.
  assert (adjust (len s) 0 = 0%nat) as ->
    by (unfold adjust, len; destruct (Z.ltb_spec 0 0); lia).
  assert (adjust (len s) stop = String.length s) as ->.
  { unfold adjust, len in *. destruct (Z.ltb_spec stop 0); lia. }
  rewrite Nat.sub_0_r. apply substring_all.
Qed.

(** One iteration: the slice is the whole text and its recorded end is
    the hard cut [chunk_size]. *)
Lemma chunk_text_fits (self : t) (txt : string)
    (md : option (gmap string value)) (fuel : nat) :
  txt <> "" -> len txt <= chunk_size self ->
  chunk_text self txt md (S fuel)
  = Some (if decide (strip txt = "") then []
          else [ {| text := strip txt;
                    metadata := chunk_metadata md 0 (chunk_size self) 0 |} ]).
Proof.
  intros Hne Hlen.
  assert (0 < len txt) as Hpos by (destruct txt; [done | unfold len; cbn; lia]).
  unfold chunk_text.
  replace (truthy (VStr txt)) with true
    by (destruct txt; [done | reflexivity]).
  rewrite loop_step by lia.
  rewrite (chunk_end_final self txt 0) by lia. rewrite Z.add_0_l.
  unfold next_start. destruct (Z.ltb_spec (chunk_size self) (len txt)); [lia |].
  rewrite emit_unfold. cbn [app length].
  unfold nonblank, chunk_of. cbn [fst snd truthy].
  rewrite slice_all by lia.
  assert (loop self txt md fuel (chunk_size self)
            (if negb (strip txt =? "")%string
             then [ {| text := strip txt;
                       metadata := chunk_metadata md 0 (chunk_size self)
                                     (Z.of_nat 0) |} ]
             else [])
          = Some (if negb (strip txt =? "")%string
                  then [ {| text := strip txt;
                            metadata := chunk_metadata md 0 (chunk_size self)
                                          (Z.of_nat 0) |} ]
                  else [])) as ->.
  { destruct fuel; cbn [loop];
      (destruct (Z.ltb_spec (chunk_size self) (len txt)); [lia |]);
      reflexivity. }
  destruct (decide (strip txt = "")) as [-> | Hn]; [reflexivity |].
  destruct (String.eqb_spec (strip txt) ""); [done | reflexivity].
Qed.

(** X5: a non-empty text no longer than [chunk_size] gives, whatever
    the overlap, no chunk when it is all whitespace and otherwise
    exactly one chunk: the trimmed text, with [chunk_start] 0,
    [chunk_index] 0 and [chunk_end] equal to [chunk_size], not to the
    length of the text. *)
Theorem chunk_text_single (self : t) (txt : string)
    (md : option (gmap string value)) (fuel : nat) :
  txt <> "" -> len txt <= chunk_size self ->
  exists chunks,
    chunk_text self txt md (S fuel) = Some chunks
    /\ (strip txt = "" -> chunks = [])
    /\ (strip txt <> "" ->
        exists c, chunks = [c]
                  /\ text c = strip txt
                  /\ chunk_start_of c = VInt 0
                  /\ chunk_end_of c = VInt (chunk_size self)
                  /\ chunk_index_of c = VInt 0).
Proof.
  intros Hne Hlen. eexists. split; [by apply chunk_text_fits |].
  destruct (decide (strip txt = "")) as [E | E]; split; try done.
  intros _. eexists. split; [reflexivity |].
  unfold chunk_start_of, chunk_end_of, chunk_index_of, get, chunk_metadata.
  cbn [text metadata]. split_and!; [reflexivity | | |].
  - by rewrite !lookup_insert_ne, lookup_insert_eq by done.
  - by rewrite lookup_insert_ne, lookup_insert_eq by done.
  - by rewrite lookup_insert_eq.
Qed.

Lemma chunk_text_single_witness :
  let self := {| chunk_size := 1000; chunk_overlap := 200 |} in
  exists chunks,
    chunk_text self "  Sales rose.  " None 1 = Some chunks
    /\ (strip "  Sales rose.  " = "" -> chunks = [])
    /\ (strip "  Sales rose.  " <> "" ->
        exists c, chunks = [c]
                  /\ text c = strip "  Sales rose.  "
                  /\ chunk_start_of c = VInt 0
                  /\ chunk_end_of c = VInt (chunk_size self)
                  /\ chunk_index_of c = VInt 0).
Proof.
  cbv zeta.
  apply (chunk_text_single {| chunk_size := 1000; chunk_overlap := 200 |}
           "  Sales rose.  " None 0).
  - discriminate.
  - vm_compute. discriminate.
Defined.

End ChunkerMore.

(** ** rag/chunker.py: [chunk_documents] *)

Section ChunkDocumentsFacts.

Import TextChunker ChunkDocuments.

Lemma chunk_pairs_cons (self : t) (fuel : nat) (doc : string)
    (md : gmap string value) (rest : list (string * gmap string value)) :
  chunk_pairs self fuel ((doc, md) :: rest) =
  match chunk_text self doc (Some md) fuel, chunk_pairs self fuel rest with
  | Some chunks, Some (all_chunks, all_metadatas) =>
      Some (((text <$> chunks) ++ all_chunks)%list,
            ((metadata <$> chunks) ++ all_metadatas)%list)
  | _, _ => None
  end.
Proof.
  cbn [chunk_pairs]. destruct (chunk_text self doc (Some md) fuel); [| done].
  by destruct (chunk_pairs self fuel rest) as [[? ?] |].
Qed.

Lemma chunk_pairs_app (self : t) (fuel : nat)
    (p1 p2 : list (string * gmap string value)) :
  chunk_pairs self fuel (p1 ++ p2) =
  match chunk_pairs self fuel p1, chunk_pairs self fuel p2 with
  | Some (t1, m1), Some (t2, m2) => Some ((t1 ++ t2)%list, (m1 ++ m2)%list)
  | _, _ => None
  end.
Proof.
  induction p1 as [| [doc md] p1 IH].
  - cbn [app chunk_pairs]. by destruct (chunk_pairs self fuel p2) as [[? ?] |].
  - rewrite <- app_comm_cons, !chunk_pairs_cons, IH.
    destruct (chunk_text self doc (Some md) fuel) as [chunks |]; [| done].
    destruct (chunk_pairs self fuel p1) as [[t1 m1] |]; [| done].
    destruct (chunk_pairs self fuel p2) as [[t2 m2] |]; [| done].
    by rewrite !app_assoc.
Qed.

Lemma chunk_pairs_aligned (self : t) (fuel : nat)
    (pairs : list (string * gmap string value)) :
  forall texts mds,
    chunk_pairs self fuel pairs = Some (texts, mds) ->
    length texts = length mds /\ Forall (fun t => t <> "") texts.
Proof.
  induction pairs as [| [doc md] pairs IH]; intros texts mds.
  - intros [= <- <-]. split; [reflexivity | constructor].
  - rewrite chunk_pairs_cons.
    destruct (chunk_text self doc (Some md) fuel) as [chunks |] eqn:E;
      [| discriminate].
    destruct (chunk_pairs self fuel pairs) as [[t1 m1] |]; [| discriminate].
    intros [= <- <-]. destruct (IH _ _ eq_refl) as [Hl Hne].
    split; [by rewrite !length_app, !length_fmap, Hl |].
    apply Forall_app. split; [| exact Hne].
    apply Forall_fmap. eapply Forall_impl;
      [exact (chunk_text_texts _ _ _ _ _ E) |].
    cbv beta. intros c (Hc & _). exact Hc.
Qed.

(** X6: [chunk_documents] returns as many metadata dicts as texts (the
    two lists can be zipped back), and no returned text is empty. *)
Theorem chunk_documents_aligned (self : t) (documents : list string)
    (metadatas : option (list (gmap string value))) (fuel : nat)
    (texts : list string) (mds : list (gmap string value)) :
  chunk_documents self documents metadatas fuel = Some (texts, mds) ->
  length texts = length mds /\ Forall (fun t => t <> "") texts.
Proof. apply chunk_pairs_aligned. Qed.

Lemma chunk_documents_aligned_witness :
  let self := {| chunk_size := 12; chunk_overlap := 2 |} in
  let texts := ["Hello world."; "d. This is"; "s a test."; "Bye."] in
  exists mds,
    chunk_documents self ["Hello world. This is a test."; "   "; "Bye."]
      None 10 = Some (texts, mds)
    /\ length texts = length mds /\ Forall (fun t => t <> "") texts.
Proof.
  cbv zeta. eexists.
  assert (chunk_documents {| chunk_size := 12; chunk_overlap := 2 |}
            ["Hello world. This is a test."; "   "; "Bye."] None 10
          = Some (["Hello world."; "d. This is"; "s a test."; "Bye."], _))
    as Hrun by (vm_compute; reflexivity).
  split; [exact Hrun |].
  exact (chunk_documents_aligned _ _ _ _ _ _ Hrun).
Defined.

(** X7: chunking a concatenation of document lists is chunking each
    list and concatenating the results: documents do not influence each
    other, and the chunk indices restart at 0 in every document. *)
Theorem chunk_documents_app (self : t) (docs1 docs2 : list string)
    (fuel : nat) :
  chunk_documents self (docs1 ++ docs2) None fuel =
  match chunk_documents self docs1 None fuel,
        chunk_documents self docs2 None fuel with
  | Some (t1, m1), Some (t2, m2) => Some ((t1 ++ t2)%list, (m1 ++ m2)%list)
  | _, _ => None
  end.
Proof.
  unfold chunk_documents. rewrite fmap_app.
  rewrite zip_with_app by (by rewrite length_fmap).
  apply chunk_pairs_app.
Qed.

Lemma zip_take {A B} (l : list A) (k : list B) :
  zip l k = zip (take (length k) l) k.
Proof.
  revert k. induction l as [| x l IH]; intros [| y k]; cbn; try reflexivity.
  by rewrite <- IH.
Qed.

(** X8: with a metadata list shorter than the document list, the
    documents beyond it are dropped without an error; with the empty
    metadata list nothing is chunked at all. *)
Theorem chunk_documents_truncates (self : t) (documents : list string)
    (given : list (gmap string value)) (fuel : nat) :
  chunk_documents self documents (Some given) fuel
  = chunk_documents self (take (length given) documents) (Some given) fuel
  /\ chunk_documents self documents (Some []) fuel = Some ([], []).
Proof.
  unfold chunk_documents. split; [by rewrite <- zip_take |].
  by destruct documents.
Qed.

End ChunkDocumentsFacts.

(** ** rag/pipeline.py: [add_documents] *)

Section IngestFacts.

Import TextChunker ChunkDocuments Ingest.



End IngestFacts.

(** ** mcp/server.py: requests, registration *)

Section ServerMore.

Import MCPServer.

Lemma request_lookups (r : MCPRequest.t) :
  get (MCPRequest.to_dict r) "type" = VStr "request"
  /\ get (MCPRequest.to_dict r) "method" = VStr (MCPRequest.method r)
  /\ get_or (MCPRequest.to_dict r) "params" (VDict ∅)
     = VDict (MCPRequest.params r)
  /\ get (MCPRequest.to_dict r) "id" = VStr (MCPRequest.id r).
Proof.
  unfold get, get_or, MCPRequest.to_dict. split_and!.
  - by rewrite lookup_insert_eq.
  - by rewrite lookup_insert_ne, lookup_insert_eq by done.
  - by rewrite !lookup_insert_ne, lookup_insert_eq by done.
  - by rewrite !lookup_insert_ne, lookup_singleton_eq by done.
Qed.

(** How the server answers a request encoded by [MCPRequest.to_dict]. *)
Lemma dispatch_encoded (handlers : gmap string handler) (r : MCPRequest.t) :
  handle_mcp_request handlers (VDict (MCPRequest.to_dict r)) =
  match handlers !! MCPRequest.method r with
  | None =>
      (error_response ("Method '" +:+ MCPRequest.method r +:+ "' not found")
         (VStr (MCPRequest.id r)), 404)
  | Some h => invoke h (VDict (MCPRequest.params r)) (VStr (MCPRequest.id r))
  end.
Proof.
  destruct (request_lookups r) as (Ht & Hm & Hp & Hi).
  rewrite (dispatch_request handlers _ Ht), Hm, Hp, Hi. cbn [contains format].
  by destruct (handlers !! MCPRequest.method r).
Qed.

Lemma error_response_lookups (c : ascii) (msg : string) (request_id : value) :
  error_response (String c msg) request_id !! "id" = Some request_id
  /\ error_response (String c msg) request_id !! "type" = Some (VStr "response")
  /\ error_response (String c msg) request_id !! "error"
     = Some (VStr (String c msg))
  /\ error_response (String c msg) request_id !! "result" = None.
Proof.
  rewrite error_response_body. split_and!.
  - by rewrite !lookup_insert_ne, lookup_singleton_eq by done.
  - by rewrite lookup_insert_ne, lookup_insert_eq by done.
  - by rewrite lookup_insert_eq.
  - by rewrite !lookup_insert_ne, lookup_singleton_ne by done.
Qed.

Lemma success_lookups (r request_id : value) :
  let body := MCPResponse.to_dict
                {| MCPResponse.result := r; MCPResponse.error := VNone;
                   MCPResponse.id := request_id |} in
  body !! "id" = Some request_id
  /\ body !! "type" = Some (VStr "response")
  /\ body !! "result" = Some r
  /\ body !! "error" = None.
Proof.
  cbv zeta. unfold MCPResponse.to_dict. cbn [MCPResponse.error truthy
    MCPResponse.result MCPResponse.id]. split_and!.
  - by rewrite !lookup_insert_ne, lookup_singleton_eq by done.
  - by rewrite lookup_insert_ne, lookup_insert_eq by done.
  - by rewrite lookup_insert_eq.
  - by rewrite !lookup_insert_ne, lookup_singleton_ne by done.
Qed.

Lemma invoke_envelope (h : handler) (params request_id : value) :
  (invoke h params request_id).1 !! "id" = Some request_id
  /\ (invoke h params request_id).1 !! "type" = Some (VStr "response")
  /\ ((invoke h params request_id).2 = 200
      \/ (invoke h params request_id).2 = 500).
Proof.
  unfold invoke. destruct (h params) as [[r | ty] | msg]; cbn [fst snd].
  - destruct (success_lookups r request_id) as (H1 & H2 & _). auto.
  - destruct (error_response_lookups "E"
                ("rror executing method: " +:+ "Object of type " +:+ ty
                 +:+ " is not JSON serializable") request_id) as (H1 & H2 & _).
    auto.
  - destruct (error_response_lookups "E"
                ("rror executing method: " +:+ msg) request_id)
      as (H1 & H2 & _).
    auto.
Qed.

(** X10: a request encoded by [MCPRequest.to_dict] is never answered
    with 400: the answer is a response envelope that echoes the
    request's id, with status 200, 404 or 500, and 404 exactly when no
    handler is registered for the method; decoding the answer with
    [MCPResponse.from_dict] gives the request's id back. *)
Theorem request_round_trip (handlers : gmap string handler) (r : MCPRequest.t) :
  let a := handle_mcp_request handlers (VDict (MCPRequest.to_dict r)) in
  a.1 !! "id" = Some (VStr (MCPRequest.id r))
  /\ a.1 !! "type" = Some (VStr "response")
  /\ (a.2 = 200 \/ a.2 = 404 \/ a.2 = 500)
  /\ (a.2 = 404 <-> handlers !! MCPRequest.method r = None)
  /\ MCPResponse.id (MCPResponse.from_dict a.1) = VStr (MCPRequest.id r).
Proof.
  cbv zeta. rewrite dispatch_encoded.
  destruct (handlers !! MCPRequest.method r) as [h |] eqn:E.
  - destruct (invoke_envelope h (VDict (MCPRequest.params r))
                (VStr (MCPRequest.id r))) as (Hi & Ht & Hs).
    unfold MCPResponse.from_dict, get. cbn [MCPResponse.id]. rewrite Hi.
    split_and!; auto; [tauto |]. split; [| discriminate].
    intros H404. destruct Hs as [Hs | Hs]; rewrite Hs in H404; discriminate.
  - cbn [fst snd]. unfold MCPResponse.from_dict, get. cbn [MCPResponse.id].
    destruct (error_response_lookups "M"
                ("ethod '" +:+ MCPRequest.method r +:+ "' not found")
                (VStr (MCPRequest.id r))) as (Hi & Ht & _).
    change (String "M" ("ethod '" +:+ MCPRequest.method r +:+ "' not found"))
      with ("Method '" +:+ MCPRequest.method r +:+ "' not found") in Hi, Ht.
    rewrite Hi, Ht. split_and!; auto. tauto.
Qed.

Lemma contains_register_ne (handlers : gmap string handler) (m : string)
    (h : handler) (method : value) :
  method <> VStr m ->
  contains (register_handler handlers m h) method = contains handlers method.
Proof.
  intros Hne. destruct method; try reflexivity. cbn [contains].
  unfold register_handler. rewrite lookup_insert_ne; [done | congruence].
Qed.

(** X11: after [register_handler] of [h] under [m], a request for [m]
    is answered by [h] (a handler registered before under [m] is
    replaced), and every body that is not a request for [m] is answered
    as before. *)
Theorem register_handler_dispatch (handlers : gmap string handler)
    (m : string) (h : handler) :
  (forall d, get d "type" = VStr "request" -> get d "method" = VStr m ->
     handle_mcp_request (register_handler handlers m h) (VDict d)
     = invoke h (get_or d "params" (VDict ∅)) (get d "id"))
  /\ (forall data, (forall d, data = VDict d -> get d "method" <> VStr m) ->
        handle_mcp_request (register_handler handlers m h) data
        = handle_mcp_request handlers data).
Proof.
  split.
  - intros d Ht Hm. rewrite (dispatch_request _ d Ht), Hm. cbn [contains].
    unfold register_handler. by rewrite lookup_insert_eq.
  - intros data Hne. unfold handle_mcp_request, dispatch.
    destruct (negb (truthy data)); [reflexivity |].
    destruct data as [| | | | | | d]; try reflexivity.
    cbn [attr_get mbind outcome_bind].
    destruct (differs _ _); [reflexivity |].
    rewrite contains_register_ne by exact (Hne d eq_refl). reflexivity.
Qed.

End ServerMore.

(** ** mcp/server.py: the default handlers *)

Section HandlerFacts.

Import Database MCPServer DefaultHandlers.

Context {S : Type}.
Variable db : connection S.

Lemma py_dict_fold_notin {A : Type} (pairs : list (string * A))
    (d : gmap string A) (k : string) :
  k ∉ pairs.*1 ->
  fold_left (fun d kv => <[kv.1 := kv.2]> d) pairs d !! k = d !! k.
Proof.
  revert d. induction pairs as [| [k' v'] pairs IH]; intros d Hk; [done |].
  cbn [fold_left fst snd]. rewrite fmap_cons in Hk. cbn in Hk.
  apply not_elem_of_cons in Hk as [Hne Hk].
  rewrite IH by done. by rewrite lookup_insert_ne.
Qed.

Lemma py_dict_fold_lookup {A : Type} (pairs : list (string * A))
    (d : gmap string A) (k : string) (v : A) :
  NoDup pairs.*1 -> (k, v) ∈ pairs ->
  fold_left (fun d kv => <[kv.1 := kv.2]> d) pairs d !! k = Some v.
Proof.
  revert d. induction pairs as [| [k' v'] pairs IH]; intros d Hnd Hin.
  - by apply elem_of_nil in Hin.
  - rewrite fmap_cons in Hnd. cbn in Hnd.
    apply NoDup_cons in Hnd as [Hk' Hnd]. cbn [fold_left fst snd].
    apply elem_of_cons in Hin as [[= -> ->] | Hin].
    + rewrite py_dict_fold_notin by done. by rewrite lookup_insert_eq.
    + by apply IH.
Qed.

(** Whatever a dict built from pairs holds came from one of the pairs. *)
Lemma py_dict_fold_elem {A : Type} (pairs : list (string * A))
    (d : gmap string A) (k : string) (v : A) :
  fold_left (fun d kv => <[kv.1 := kv.2]> d) pairs d !! k = Some v ->
  (k, v) ∈ pairs \/ d !! k = Some v.
Proof.
  revert d. induction pairs as [| [k' v'] pairs IH]; intros d H; [by right |].
  cbn [fold_left fst snd] in H. destruct (IH _ H) as [Hin | Hd].
  - left. by right.
  - destruct (decide (k' = k)) as [-> | Hne].
    + rewrite lookup_insert_eq in Hd. injection Hd as ->. left. by left.
    + rewrite lookup_insert_ne in Hd by done. by right.
Qed.

Lemma zip_fst_elem {A B} (l : list A) (k : list B) (x : A) :
  x ∈ (zip l k).*1 -> x ∈ l.
Proof.
  revert k. induction l as [| a l IH]; intros [| b k] H; cbn in H;
    try (by apply elem_of_nil in H).
  apply elem_of_cons in H as [-> | H]; [left | right; eauto].
Qed.

Lemma zip_snd_elem {A B} (l : list A) (k : list B) (x : A) (y : B) :
  (x, y) ∈ zip l k -> y ∈ k.
Proof.
  revert k. induction l as [| a l IH]; intros [| b k] H; cbn in H;
    try (by apply elem_of_nil in H).
  apply elem_of_cons in H as [[= -> ->] | H]; [left | right; eauto].
Qed.

Lemma zip_fst_NoDup {A B} (l : list A) (k : list B) :
  NoDup l -> NoDup (zip l k).*1.
Proof.
  revert k. induction l as [| a l IH]; intros [| b k] H; cbn;
    try constructor.
  - apply NoDup_cons in H as [Ha H]. intros Hin. apply Ha.
    eapply zip_fst_elem; eauto.
  - apply NoDup_cons in H as [_ H]. by apply IH.
Qed.

(** What [dict(zip(columns, row))] holds. *)
Lemma row_dict_lookup (columns : list string) (row : list cell) :
  (forall k, is_Some (py_dict (zip columns row) !! k) -> k ∈ columns)
  /\ (forall k c, py_dict (zip columns row) !! k = Some c -> c ∈ row)
  /\ (NoDup columns ->
      forall (j : nat) col c,
        columns !! j = Some col -> row !! j = Some c ->
        py_dict (zip columns row) !! col = Some c).
Proof.
  unfold py_dict. split_and!.
  - intros k Hk. destruct (decide (k ∈ (zip columns row).*1)) as [Hin | Hn].
    + eapply zip_fst_elem; eauto.
    + rewrite py_dict_fold_notin, lookup_empty in Hk by done.
      by destruct Hk.
  - intros k c Hk. apply py_dict_fold_elem in Hk as [Hin | Hk].
    + eapply zip_snd_elem; eauto.
    + by rewrite lookup_empty in Hk.
  - intros Hnd j col c Hc Hr. apply py_dict_fold_lookup.
    + by apply zip_fst_NoDup.
    + apply (list_elem_of_lookup_2 _ j). by apply lookup_zip_Some.
Qed.

(** *** What [jsonify] makes of the fetched cells *)

Lemma omap_nil_all {A B} (f : A -> option B) (l : list A) :
  (forall x, x ∈ l -> f x = None) -> omap f l = [].
Proof.
  induction l as [| a l IH]; intros H; [reflexivity |]. cbn.
  rewrite (H a) by left. apply IH. intros x Hx. apply H. by right.
Qed.

Lemma head_omap_Some {A B} (f : A -> option B) (l : list A) (y : B) :
  head (omap f l) = Some y -> exists x, x ∈ l /\ f x = Some y.
Proof.
  intros H. assert (y ∈ omap f l) as Hin.
  { destruct (omap f l) as [| z r]; [discriminate |].
    injection H as ->. left. }
  apply list_elem_of_omap in Hin as (x & Hx & Hf). eauto.
Qed.

Lemma rejected_Some (c : cell) (ty : string) :
  rejected c = Some ty <-> c = Opaque ty.
Proof. destruct c; cbn; split; congruence. Qed.

Lemma first_rejected_row_Some (d : gmap string cell) (ty : string) :
  first_rejected_row d = Some ty -> exists k, d !! k = Some (Opaque ty).
Proof.
  intros H. apply head_omap_Some in H as (k & _ & H).
  destruct (d !! k) as [c |] eqn:E; [| discriminate]. cbn in H.
  apply rejected_Some in H as ->. eauto.
Qed.

Lemma first_rejected_row_None (d : gmap string cell) :
  (forall k c, d !! k = Some c -> rejected c = None) ->
  first_rejected_row d = None.
Proof.
  intros H. unfold first_rejected_row. rewrite omap_nil_all; [reflexivity |].
  intros k _. destruct (d !! k) as [c |] eqn:E; [| reflexivity].
  exact (H k c E).
Qed.

(** A rejected result holds a rejected cell of the reported type, and
    that cell was fetched. *)
Lemma first_rejected_Some (columns : list string) (rows : list (list cell))
    (ty : string) :
  first_rejected ((fun row => py_dict (zip columns row)) <$> rows) = Some ty ->
  exists row, row ∈ rows /\ Opaque ty ∈ row.
Proof.
  intros H. apply head_omap_Some in H as (d & Hd & H).
  apply list_elem_of_fmap in Hd as (row & -> & Hrow).
  apply first_rejected_row_Some in H as (k & Hk).
  exists row. split; [exact Hrow |].
  by apply (proj1 (proj2 (row_dict_lookup columns row)) k).
Qed.

(** When no fetched cell is rejected, nothing is. *)
Lemma first_rejected_None (columns : list string) (rows : list (list cell)) :
  Forall (Forall (fun c => rejected c = None)) rows ->
  first_rejected ((fun row => py_dict (zip columns row)) <$> rows) = None.
Proof.
  intros Hall. unfold first_rejected. rewrite omap_nil_all; [reflexivity |].
  intros d Hd. apply list_elem_of_fmap in Hd as (row & -> & Hrow).
  apply first_rejected_row_None. intros k c Hk.
  rewrite Forall_forall in Hall. specialize (Hall row Hrow).
  rewrite Forall_forall in Hall. apply Hall.
  by apply (proj1 (proj2 (row_dict_lookup columns row)) k).
Qed.

Lemma default_table (s : S) :
  setup_default_handlers (Some db) s !! "query_database"
  = Some ((fun params => (handle_query_database db params s).2) : handler)
  /\ setup_default_handlers (Some db) s !! "execute_sql"
     = Some ((fun params => (handle_execute_sql db params s).2) : handler)
  /\ setup_default_handlers (Some db) s !! "get_schema"
     = Some ((fun params => (handle_get_schema db params s).2) : handler)
  /\ forall m, m <> "query_database" -> m <> "execute_sql" ->
               m <> "get_schema" ->
       setup_default_handlers (Some db) s !! m = None.
Proof.
  unfold setup_default_handlers, register_handler. split_and!.
  - by rewrite !lookup_insert_ne, lookup_insert_eq by done.
  - by rewrite lookup_insert_ne, lookup_insert_eq by done.
  - by rewrite lookup_insert_eq.
  - intros m H1 H2 H3. by rewrite !lookup_insert_ne, lookup_empty by done.
Qed.

(** X12: the default table serves exactly [query_database],
    [execute_sql] and [get_schema], and only when the server was built
    with a database connection. *)
Theorem default_handlers_served (db_connection : option (connection S))
    (s : S) (m : string) :
  is_Some (setup_default_handlers db_connection s !! m)
  <-> db_connection <> None
      /\ (m = "query_database" \/ m = "execute_sql" \/ m = "get_schema").
Proof.
  destruct db_connection as [db' |].
  - split.
    + intros Hm. split; [done |].
      destruct (decide (m = "query_database")); [auto |].
      destruct (decide (m = "execute_sql")); [auto |].
      destruct (decide (m = "get_schema")); [auto |].
      unfold setup_default_handlers, register_handler in Hm.
      rewrite !lookup_insert_ne, lookup_empty in Hm by done.
      by destruct Hm.
    + unfold setup_default_handlers, register_handler.
      intros [_ [-> | [-> | ->]]].
      * by rewrite !lookup_insert_ne, lookup_insert_eq by done.
      * by rewrite lookup_insert_ne, lookup_insert_eq by done.
      * by rewrite lookup_insert_eq.
  - cbn. rewrite lookup_empty. split; [by intros [? ?] | by intros [? _]].
Qed.

(** X13: a request for [query_database] without a query, or for
    [execute_sql] without a statement (missing, [None] or empty), is
    answered with 500 and the validation message, and the database is
    not touched. *)
Theorem handlers_validate (s : S) (d p : gmap string value) :
  get d "type" = VStr "request" ->
  get_or d "params" (VDict ∅) = VDict p ->
  (get d "method" = VStr "query_database" ->
   truthy (get p "query") = false ->
   handle_mcp_request (setup_default_handlers (Some db) s) (VDict d)
   = (<["error" := VStr "Error executing method: Query parameter is required"]>
        {[ "type" := VStr "response"; "id" := get d "id" ]}, 500)
   /\ (handle_query_database db (VDict p) s).1 = s)
  /\ (get d "method" = VStr "execute_sql" ->
      truthy (get p "sql") = false ->
      handle_mcp_request (setup_default_handlers (Some db) s) (VDict d)
      = (<["error" := VStr "Error executing method: SQL parameter is required"]>
           {[ "type" := VStr "response"; "id" := get d "id" ]}, 500)
      /\ (handle_execute_sql db (VDict p) s).1 = s).
Proof.
  intros Ht Hp. destruct (default_table s) as (H1 & H2 & _).
  split; intros Hm Hq; rewrite (dispatch_request _ d Ht), Hm; cbn [contains].
  - rewrite H1. unfold invoke, handle_query_database. rewrite Hp.
    cbn [attr_get]. change (get_or p "query" VNone) with (get p "query").
    rewrite Hq. done.
  - rewrite H2. unfold invoke, handle_execute_sql. rewrite Hp.
    cbn [attr_get]. change (get_or p "sql" VNone) with (get p "sql").
    rewrite Hq. done.
Qed.

(** With a query present, [_handle_query_database] hands back a dict:
    one that [jsonify] writes, or one in which it meets a fetched cell
    it rejects. *)
Lemma handle_query_database_returns (s : S) (p : gmap string value) :
  truthy (get p "query") = true ->
  exists s' r,
    handle_query_database db (VDict p) s = (s', Returned r)
    /\ match r with
       | Json v =>
           exists payload,
             v = VDict payload
             /\ (payload !! "success" = Some (VBool true)
                 \/ (payload !! "success" = Some (VBool false)
                     /\ exists msg, payload !! "error" = Some (VStr msg)))
       | NonJson ty =>
           exists s1 cur rows row,
             cursor db s = (s1, Returned ())
             /\ execute db (get p "query") None s1 = (s', Returned cur)
             /\ fetchall cur = Returned rows
             /\ row ∈ rows /\ Opaque ty ∈ row
       end.
Proof.
  intros Hq.
  assert (forall msg, exists payload,
            failure msg = Json (VDict payload)
            /\ payload !! "success" = Some (VBool false)
            /\ payload !! "error" = Some (VStr msg)) as Hf.
  { intros msg. eexists. split_and!; [reflexivity | |].
    - by rewrite lookup_insert_eq.
    - by rewrite lookup_insert_ne, lookup_singleton_eq by done. }
  unfold handle_query_database. cbn [attr_get].
  change (get_or p "query" VNone) with (get p "query"). rewrite Hq.
  cbn [negb].
  destruct (cursor db s) as [s1 [[] | msg]] eqn:Ec;
    [| destruct (Hf msg) as (pl & -> & ? & ?); eexists _, _;
       split; [reflexivity |]; exists pl; split; [reflexivity |];
       right; split; [assumption |]; eexists; eassumption].
  destruct (execute db (get p "query") None s1) as [s2 [cur | msg]] eqn:Ee;
    [| destruct (Hf msg) as (pl & -> & ? & ?); eexists _, _;
       split; [reflexivity |]; exists pl; split; [reflexivity |];
       right; split; [assumption |]; eexists; eassumption].
  destruct (fetchall cur) as [rows | msg] eqn:Ef;
    [| destruct (Hf msg) as (pl & -> & ? & ?); eexists _, _;
       split; [reflexivity |]; exists pl; split; [reflexivity |];
       right; split; [assumption |]; eexists; eassumption].
  cbv zeta. eexists _, _. split; [reflexivity |].
  unfold query_result.
  destruct (first_rejected _) as [ty |] eqn:Er.
  - apply first_rejected_Some in Er as (row & Hrow & Hty).
    exists s1, cur, rows, row. auto.
  - eexists. split; [reflexivity |]. left. by rewrite lookup_insert_eq.
Qed.


Lemma lookup_written (rd : gmap string cell) (k : string) :
  omap written rd !! k = rd !! k ≫= written.
Proof. apply lookup_omap. Qed.

(** X15: when cursor, [execute] and [fetchall] return, the handler's
    result holds one dict per fetched row, in order; a row's dict has
    no key that is not a column name and, when the column names are
    distinct, maps each column name to the cell at its position.  When
    every fetched cell can be written, the payload is [success] true
    with these dicts under [data] and the number of rows under
    [row_count]. *)
Theorem query_database_rows (s s1 s2 : S) (p : gmap string value)
    (cur : executed) (columns : list string) (rows : list (list cell)) :
  truthy (get p "query") = true ->
  cursor db s = (s1, Returned ()) ->
  execute db (get p "query") None s1 = (s2, Returned cur) ->
  description cur = Some columns ->
  fetchall cur = Returned rows ->
  exists data : list (gmap string cell),
    handle_query_database db (VDict p) s = (s2, Returned (query_result data))
    /\ length data = length rows
    /\ (forall (i : nat) row,
          rows !! i = Some row ->
          exists rd,
            data !! i = Some rd
            /\ (forall k, is_Some (rd !! k) -> k ∈ columns)
            /\ (NoDup columns ->
                forall (j : nat) col c,
                  columns !! j = Some col -> row !! j = Some c ->
                  rd !! col = Some c))
    /\ (Forall (Forall (fun c => rejected c = None)) rows ->
        exists jdata,
          query_result data
          = Json (VDict {[ "success" := VBool true;
                           "data" := VList jdata;
                           "row_count" := VInt (Z.of_nat (length rows)) ]})
          /\ length jdata = length rows
          /\ forall (i : nat) row,
               rows !! i = Some row ->
               exists jrd,
                 jdata !! i = Some (VDict jrd)
                 /\ (forall k, is_Some (jrd !! k) -> k ∈ columns)
                 /\ (NoDup columns ->
                     forall (j : nat) col v,
                       columns !! j = Some col -> row !! j = Some (Cell v) ->
                       jrd !! col = Some v)).
Proof.
  intros Hq Hc He Hd Hf.
  exists ((fun row => py_dict (zip columns row)) <$> rows).
  split_and!.
  - unfold handle_query_database. cbn [attr_get].
    change (get_or p "query" VNone) with (get p "query").
    by rewrite Hq, Hc, He, Hd, Hf.
  - by rewrite length_fmap.
  - intros i row Hi. exists (py_dict (zip columns row)).
    rewrite list_lookup_fmap, Hi. split; [reflexivity |].
    destruct (row_dict_lookup columns row) as (H1 & _ & H3). auto.
  - intros Hall. eexists. split_and!.
    + unfold query_result. rewrite first_rejected_None by done.
      by rewrite !length_fmap.
    + by rewrite !length_fmap.
    + intros i row Hi. exists (omap written (py_dict (zip columns row))).
      rewrite !list_lookup_fmap, Hi. split; [reflexivity |].
      destruct (row_dict_lookup columns row) as (H1 & _ & H3). split.
      * intros k [v Hk]. rewrite lookup_written in Hk. apply H1.
        destruct (py_dict (zip columns row) !! k); [eauto | discriminate].
      * intros Hnd j col v Hcol Hrow. rewrite lookup_written.
        by rewrite (H3 Hnd j col (Cell v) Hcol Hrow).
Qed.

(** X16: [_handle_execute_sql] with a statement present.  A payload
    with [success] true means that cursor, [execute] and [commit] all
    returned, and the state left is the one after the commit; a payload
    with [success] false means that one of them raised and the
    [rollback] that followed returned, the state left being the one
    after the rollback; the handler itself raises only when that
    [rollback] raises. *)
Theorem execute_sql_commit_or_rollback (s : S) (p : gmap string value) :
  truthy (get p "sql") = true ->
  match handle_execute_sql db (VDict p) s with
  | (s', Returned (Json (VDict payload))) =>
      (payload !! "success" = Some (VBool true)
       /\ exists s1 s2 cur,
            cursor db s = (s1, Returned ())
            /\ execute db (get p "sql") None s1 = (s2, Returned cur)
            /\ commit db s2 = (s', Returned ())
            /\ payload !! "rows_affected" = Some (rowcount cur))
      \/ (payload !! "success" = Some (VBool false)
          /\ exists s0 msg,
               execute_and_commit db (get p "sql") s = (s0, Raised msg)
               /\ rollback db s0 = (s', Returned ())
               /\ payload !! "error" = Some (VStr msg))
  | (s', Raised msg') =>
      exists s0 msg,
        execute_and_commit db (get p "sql") s = (s0, Raised msg)
        /\ rollback db s0 = (s', Raised msg')
  | _ => False
  end.
Proof.
  intros Hq. unfold handle_execute_sql. cbn [attr_get].
  change (get_or p "sql" VNone) with (get p "sql"). rewrite Hq. cbn [negb].
  destruct (execute_and_commit db (get p "sql") s) as [s0 [n | msg]] eqn:E.
  - left. split; [by rewrite lookup_insert_eq |].
    unfold execute_and_commit in E.
    destruct (cursor db s) as [s1 [[] | ?]] eqn:E1; [| discriminate].
    destruct (execute db (get p "sql") None s1) as [s2 [cur | ?]] eqn:E2;
      [| discriminate].
    destruct (commit db s2) as [s3 [[] | ?]] eqn:E3; [| discriminate].
    injection E as <- <-. exists s1, s2, cur.
    split_and!; [reflexivity | exact E2 | exact E3 |].
    by rewrite lookup_insert_ne, lookup_singleton_eq by done.
  - destruct (rollback db s0) as [s'' [[] | msg']] eqn:R.
    + right. split; [by rewrite lookup_insert_eq |].
      exists s0, msg. split_and!; [reflexivity | first [exact R | reflexivity] |].
      by rewrite lookup_insert_ne, lookup_singleton_eq by done.
    + exists s0, msg. auto.
Qed.

Lemma first_columns_elem (rows : list (list cell)) (tables : list cell)
    (c : cell) :
  first_columns rows = Returned tables -> c ∈ tables ->
  exists row, row ∈ rows /\ head row = Some c.
Proof.
  revert tables. induction rows as [| [| x row] rows IH]; intros tables H Hc.
  - injection H as <-. by apply elem_of_nil in Hc.
  - discriminate.
  - cbn [first_columns] in H.
    destruct (first_columns rows) as [tl |]; [| discriminate].
    injection H as <-. apply elem_of_cons in Hc as [-> | Hc].
    + exists (x :: row). split; [left | reflexivity].
    + destruct (IH tl eq_refl Hc) as (r & Hr & Hh).
      exists r. split; [by right | exact Hh].
Qed.

(** [_handle_get_schema] hands back a dict whatever happens: one that
    [jsonify] writes, or one whose table list holds a fetched cell it
    rejects. *)
Lemma handle_get_schema_returns (s : S) (params : value) :
  exists s' r,
    handle_get_schema db params s = (s', Returned r)
    /\ match r with
       | Json v =>
           exists payload,
             v = VDict payload
             /\ (payload !! "success" = Some (VBool true)
                 \/ payload !! "success" = Some (VBool false))
       | NonJson ty =>
           exists s1 owner cur rows row,
             cursor db s = (s1, Returned ())
             /\ execute db (VStr schema_query) (Some {[ "owner" := owner ]}) s1
                = (s', Returned cur)
             /\ fetchall cur = Returned rows
             /\ row ∈ rows /\ head row = Some (Opaque ty)
       end.
Proof.
  assert (forall msg, exists payload,
            failure msg = Json (VDict payload)
            /\ payload !! "success" = Some (VBool false)) as Hf.
  { intros msg. eexists. split; [reflexivity |]. by rewrite lookup_insert_eq. }
  unfold handle_get_schema.
  destruct (cursor db s) as [s1 [[] | msg]] eqn:Ec;
    [| destruct (Hf msg) as (pl & -> & ?); eexists _, _;
       split; [reflexivity |]; exists pl; split; [reflexivity |];
       right; assumption].
  destruct (attr_get params "owner" (VStr "X750571")) as [owner | msg];
    [| destruct (Hf msg) as (pl & -> & ?); eexists _, _;
       split; [reflexivity |]; exists pl; split; [reflexivity |];
       right; assumption].
  destruct (execute db (VStr schema_query) (Some {[ "owner" := owner ]}) s1)
    as [s2 [cur | msg]] eqn:Ee;
    [| destruct (Hf msg) as (pl & -> & ?); eexists _, _;
       split; [reflexivity |]; exists pl; split; [reflexivity |];
       right; assumption].
  destruct (fetchall cur ≫= first_columns) as [tables | msg] eqn:Ef;
    [| destruct (Hf msg) as (pl & -> & ?); eexists _, _;
       split; [reflexivity |]; exists pl; split; [reflexivity |];
       right; assumption].
  eexists _, _. split; [reflexivity |]. unfold schema_result.
  destruct (head (omap rejected tables)) as [ty |] eqn:Er.
  - apply head_omap_Some in Er as (c & Hc & Hty).
    apply rejected_Some in Hty as ->.
    destruct (fetchall cur) as [rows |] eqn:Er; [| discriminate].
    cbn [mbind outcome_bind] in Ef.
    destruct (first_columns_elem rows tables _ Ef Hc) as (row & Hrow & Hh).
    exists s1, owner, cur, rows, row. split_and!; done.
  - eexists. split; [reflexivity |]. left. by rewrite lookup_insert_eq.
Qed.

(** X17: [_handle_get_schema] never raises: its whole body is under
    the [try].  What it hands back is a payload with [success] true or
    false, unless the first cell of a fetched row is an object that
    [jsonify] rejects.  Leaving the owner out is the same as asking
    for the owner X750571; and params that are not an object, on which
    [_handle_query_database] raises before touching the database, give
    a failure payload here, after the cursor was opened. *)
Theorem get_schema_payload (s : S) (params : value) :
  (exists s' r,
     handle_get_schema db params s = (s', Returned r)
     /\ match r with
        | Json v =>
            exists payload,
              v = VDict payload
              /\ (payload !! "success" = Some (VBool true)
                  \/ payload !! "success" = Some (VBool false))
        | NonJson ty =>
            exists s1 owner cur rows row,
              cursor db s = (s1, Returned ())
              /\ execute db (VStr schema_query) (Some {[ "owner" := owner ]}) s1
                 = (s', Returned cur)
              /\ fetchall cur = Returned rows
              /\ row ∈ rows /\ head row = Some (Opaque ty)
        end)
  /\ (forall d, params = VDict d -> d !! "owner" = None ->
        handle_get_schema db params s
        = handle_get_schema db (VDict (<["owner" := VStr "X750571"]> d)) s)
  /\ ((forall d, params <> VDict d) ->
      handle_query_database db params s
      = (s, Raised ("'" +:+ type_name params
                    +:+ "' object has no attribute 'get'"))
      /\ forall s1, cursor db s = (s1, Returned ()) ->
           handle_get_schema db params s
           = (s1, Returned (failure ("'" +:+ type_name params
                                     +:+ "' object has no attribute 'get'")))).
Proof.
  split_and!.
  - apply handle_get_schema_returns.
  - intros d -> Ho. unfold handle_get_schema. cbn [attr_get].
    unfold get_or. by rewrite Ho, lookup_insert_eq.
  - intros Hnd. split.
    + unfold handle_query_database.
      destruct params; try reflexivity. by destruct (Hnd d).
    + intros s1 Hc. unfold handle_get_schema. rewrite Hc.
      destruct params; try reflexivity. by destruct (Hnd d).
Qed.

End HandlerFacts.

Lemma handlers_validate_witness :
  let d : gmap string value :=
    {[ "type" := VStr "request"; "method" := VStr "query_database";
       "params" := VDict {[ "query" := VStr "" ]}; "id" := VStr "7" ]} in
  MCPServer.handle_mcp_request
    (DefaultHandlers.setup_default_handlers (Some toy_db) []) (VDict d)
  = (<["error" := VStr "Error executing method: Query parameter is required"]>
       {[ "type" := VStr "response"; "id" := VStr "7" ]}, 500)
  /\ (DefaultHandlers.handle_query_database toy_db
        (VDict {[ "query" := VStr "" ]}) []).1 = [].
Proof.
  cbv zeta.
  destruct (handlers_validate toy_db []
              {[ "type" := VStr "request"; "method" := VStr "query_database";
                 "params" := VDict {[ "query" := VStr "" ]}; "id" := VStr "7" ]}
              {[ "query" := VStr "" ]}) as [H _].
  - vm_compute. reflexivity.
  - vm_compute. reflexivity.
  - apply H; vm_compute; reflexivity.
Defined.


(** The two answers the theorem allows, on the toy connection. *)
Example query_database_failed :
  MCPServer.handle_mcp_request
    (DefaultHandlers.setup_default_handlers (Some toy_db) [])
    (VDict {[ "type" := VStr "request"; "method" := VStr "query_database";
              "params" := VDict {[ "query" := VStr "bad" ]};
              "id" := VStr "7" ]})
  = (<["result" := VDict {[ "success" := VBool false;
                            "error" := VStr "ORA-00900: invalid SQL statement" ]}]>
       {[ "type" := VStr "response"; "id" := VStr "7" ]}, 200).
Proof. vm_compute. reflexivity. Qed.

Example query_database_rejected :
  MCPServer.handle_mcp_request
    (DefaultHandlers.setup_default_handlers (Some toy_db) [])
    (VDict {[ "type" := VStr "request"; "method" := VStr "query_database";
              "params" := VDict {[ "query" := VStr "blob" ]};
              "id" := VStr "7" ]})
  = (<["error" := VStr "Error executing method: Object of type bytes is not JSON serializable"]>
       {[ "type" := VStr "response"; "id" := VStr "7" ]}, 500).
Proof. vm_compute. reflexivity. Qed.

Lemma query_database_rows_witness :
  exists data jdata,
    DefaultHandlers.handle_query_database toy_db
      (VDict {[ "query" := VStr "SELECT ID, NAME FROM T" ]}) []
    = (["cursor"; "execute"],
       Returned (DefaultHandlers.query_result data))
    /\ DefaultHandlers.query_result data
       = MCPServer.Json (VDict {[ "success" := VBool true;
                                   "data" := VList jdata;
                                   "row_count" := VInt 2 ]})
    /\ (exists rd, data !! 1%nat = Some rd
                   /\ rd !! "NAME" = Some (Database.Cell (VStr "bob")))
    /\ (exists jrd, jdata !! 1%nat = Some (VDict jrd)
                    /\ jrd !! "NAME" = Some (VStr "bob")).
Proof.
  destruct (query_database_rows toy_db [] ["cursor"] ["cursor"; "execute"]
              {[ "query" := VStr "SELECT ID, NAME FROM T" ]} toy_executed
              ["ID"; "NAME"]
              [ [Database.Cell (VInt 1); Database.Cell (VStr "ada")];
                [Database.Cell (VInt 2); Database.Cell (VStr "bob")] ])
    as (data & Hrun & Hlen & Hrows & Hjson);
    [vm_compute; reflexivity | reflexivity | reflexivity | reflexivity
    | reflexivity |].
  assert (NoDup ["ID"; "NAME"]) as Hnd
    by (apply NoDup_cons; split;
        [intros [= ?]%list_elem_of_singleton | apply NoDup_singleton]).
  destruct Hjson as (jdata & Hj & _ & Hjrows);
    [repeat constructor |].
  exists data, jdata. split; [exact Hrun |]. split; [exact Hj |]. split.
  - destruct (Hrows 1%nat _ eq_refl) as (rd & Hd & _ & Hcol).
    exists rd. split; [exact Hd |].
    apply (Hcol Hnd 1%nat "NAME" (Database.Cell (VStr "bob"))); reflexivity.
  - destruct (Hjrows 1%nat _ eq_refl) as (jrd & Hd & _ & Hcol).
    exists jrd. split; [exact Hd |].
    apply (Hcol Hnd 1%nat "NAME" (VStr "bob")); reflexivity.
Defined.

Lemma execute_sql_commit_or_rollback_witness :
  match DefaultHandlers.handle_execute_sql toy_db
          (VDict {[ "sql" := VStr "bad" ]}) [] with
  | (s', Returned (MCPServer.Json (VDict payload))) =>
      (payload !! "success" = Some (VBool true)
       /\ exists s1 s2 cur,
            Database.cursor toy_db [] = (s1, Returned ())
            /\ Database.execute toy_db
                 (get {[ "sql" := VStr "bad" ]} "sql") None s1
               = (s2, Returned cur)
            /\ Database.commit toy_db s2 = (s', Returned ())
            /\ payload !! "rows_affected" = Some (Database.rowcount cur))
      \/ (payload !! "success" = Some (VBool false)
          /\ exists s0 msg,
               DefaultHandlers.execute_and_commit toy_db
                 (get {[ "sql" := VStr "bad" ]} "sql") [] = (s0, Raised msg)
               /\ Database.rollback toy_db s0 = (s', Returned ())
               /\ payload !! "error" = Some (VStr msg))
  | (s', Raised msg') =>
      exists s0 msg,
        DefaultHandlers.execute_and_commit toy_db
          (get {[ "sql" := VStr "bad" ]} "sql") [] = (s0, Raised msg)
        /\ Database.rollback toy_db s0 = (s', Raised msg')
  | _ => False
  end.
Proof.
  apply (execute_sql_commit_or_rollback toy_db [] {[ "sql" := VStr "bad" ]}).
  vm_compute. reflexivity.
Defined.

(** ** mcp/client.py against mcp/server.py *)

Section ClientFacts.

Import MCPServer MCPClient.

Lemma send_request_missing (handlers : gmap string handler)
    (http_error : Z -> string) (request_id method : string)
    (params : option (gmap string value)) :
  handlers !! method = None ->
  send_request (loopback handlers http_error) request_id method params
  = Returned {| MCPResponse.result := VNone;
                MCPResponse.error := VStr (http_error 404);
                MCPResponse.id := VStr request_id |}.
Proof.
  intros Hm. unfold send_request, loopback. cbn [post MCPClient.http_error].
  rewrite dispatch_encoded.
  cbn [MCPRequest.method MCPRequest.params MCPRequest.id].
  by rewrite Hm.
Qed.

Lemma send_request_found (handlers : gmap string handler)
    (http_error : Z -> string) (request_id method : string)
    (params : option (gmap string value)) (h : handler) :
  handlers !! method = Some h ->
  send_request (loopback handlers http_error) request_id method params
  = Returned
      match h (VDict (default ∅ params)) with
      | Returned (Json r) =>
          {| MCPResponse.result := r; MCPResponse.error := VNone;
             MCPResponse.id := VStr request_id |}
      | _ =>
          {| MCPResponse.result := VNone;
             MCPResponse.error := VStr (http_error 500);
             MCPResponse.id := VStr request_id |}
      end.
Proof.
  intros Hm. unfold send_request, loopback. cbn [post MCPClient.http_error].
  rewrite dispatch_encoded.
  cbn [MCPRequest.method MCPRequest.params MCPRequest.id].
  rewrite Hm.
  unfold invoke. destruct (h (VDict (default ∅ params))) as [[r | ty] | msg];
    [| reflexivity | reflexivity].
  cbn [fst snd]. change ((400 <=? 200) && (200 <? 600)) with false. cbv iota.
  destruct (success_lookups r (VStr request_id)) as (Hi & _ & Hr & He).
  unfold MCPResponse.from_dict, get. by rewrite Hi, Hr, He.
Qed.

(** X18: what a caller of [send_request] gets from this server.  The
    call returns a response with the generated id.  For a method that
    is not registered, and for a handler that raises or returns a value
    that cannot be serialised, the error is the text of the HTTP error
    for 404 or 500: the message the server wrote in its envelope is not
    passed on.  Otherwise the result is the handler's value and the
    error is [None]. *)
Theorem send_request_over_server (handlers : gmap string handler)
    (http_error : Z -> string) (request_id method : string)
    (params : option (gmap string value)) :
  send_request (loopback handlers http_error) request_id method params
  = Returned
      match (handlers !! method : option handler) with
      | None =>
          {| MCPResponse.result := VNone;
             MCPResponse.error := VStr (http_error 404);
             MCPResponse.id := VStr request_id |}
      | Some h =>
          match h (VDict (default ∅ params)) with
          | Returned (Json r) =>
              {| MCPResponse.result := r; MCPResponse.error := VNone;
                 MCPResponse.id := VStr request_id |}
          | _ =>
              {| MCPResponse.result := VNone;
                 MCPResponse.error := VStr (http_error 500);
                 MCPResponse.id := VStr request_id |}
          end
      end.
Proof.
  destruct (handlers !! method) as [h |] eqn:E.
  - by apply send_request_found.
  - by apply send_request_missing.
Qed.

(** X19: the client's wrappers against the default handlers.
    [execute_command] names a method that no default handler serves, so
    it always comes back with the 404 error, with or without a
    database.  [get_schema], and [query_database] with a non-empty
    query, come back without an error, carrying the handler's payload,
    unless a fetched cell is an object that [jsonify] rejects: then
    they come back with the 500 error.  [query_database] with the
    empty query comes back with the 500 error. *)
Theorem wrappers_over_defaults {S : Type} (db : Database.connection S)
    (s : S) (http_error : Z -> string) (request_id : string) :
  (forall db_connection command args,
     execute_command
       (loopback (DefaultHandlers.setup_default_handlers db_connection s)
          http_error) request_id command args
     = Returned {| MCPResponse.result := VNone;
                   MCPResponse.error := VStr (http_error 404);
                   MCPResponse.id := VStr request_id |})
  /\ ((exists payload,
         get_schema
           (loopback (DefaultHandlers.setup_default_handlers (Some db) s)
              http_error) request_id
         = Returned {| MCPResponse.result := VDict payload;
                       MCPResponse.error := VNone;
                       MCPResponse.id := VStr request_id |})
      \/ (get_schema
            (loopback (DefaultHandlers.setup_default_handlers (Some db) s)
               http_error) request_id
          = Returned {| MCPResponse.result := VNone;
                        MCPResponse.error := VStr (http_error 500);
                        MCPResponse.id := VStr request_id |}
          /\ exists ty s1 s2 owner cur rows row,
               Database.cursor db s = (s1, Returned ())
               /\ Database.execute db (VStr DefaultHandlers.schema_query)
                    (Some {[ "owner" := owner ]}) s1 = (s2, Returned cur)
               /\ Database.fetchall cur = Returned rows
               /\ row ∈ rows /\ head row = Some (Database.Opaque ty)))
  /\ (forall query context,
        query <> "" ->
        (exists payload,
           query_database
             (loopback (DefaultHandlers.setup_default_handlers (Some db) s)
                http_error) request_id query context
           = Returned {| MCPResponse.result := VDict payload;
                         MCPResponse.error := VNone;
                         MCPResponse.id := VStr request_id |})
        \/ (query_database
              (loopback (DefaultHandlers.setup_default_handlers (Some db) s)
                 http_error) request_id query context
            = Returned {| MCPResponse.result := VNone;
                          MCPResponse.error := VStr (http_error 500);
                          MCPResponse.id := VStr request_id |}
            /\ exists ty s1 s2 cur rows row,
                 Database.cursor db s = (s1, Returned ())
                 /\ Database.execute db (VStr query) None s1
                    = (s2, Returned cur)
                 /\ Database.fetchall cur = Returned rows
                 /\ row ∈ rows /\ Database.Opaque ty ∈ row))
  /\ (forall context,
        query_database
          (loopback (DefaultHandlers.setup_default_handlers (Some db) s)
             http_error) request_id "" context
        = Returned {| MCPResponse.result := VNone;
                      MCPResponse.error := VStr (http_error 500);
                      MCPResponse.id := VStr request_id |}).
Proof.
  destruct (default_table db s) as (Hq & _ & Hs & _).
  split_and!.
  - intros dbc command args. unfold execute_command.
    apply send_request_missing. destruct dbc as [db' |].
    + by apply default_table.
    + apply lookup_empty.
  - unfold get_schema. rewrite (send_request_found _ _ _ _ _ _ Hs). cbv beta.
    destruct (handle_get_schema_returns db s (VDict (default ∅ None)))
      as (s' & r & Hp & Hr).
    rewrite Hp. cbn [snd]. destruct r as [v | ty].
    + destruct Hr as (payload & -> & _). left. by exists payload.
    + destruct Hr as (s1 & owner & cur & rows & row & ? & ? & ? & ? & ?).
      right. split; [reflexivity |].
      exists ty, s1, s', owner, cur, rows, row. split_and!; done.
  - intros query context Hne. unfold query_database.
    rewrite (send_request_found _ _ _ _ _ _ Hq). cbv beta.
    cbn [default from_option id].
    destruct (handle_query_database_returns db s
                {[ "query" := VStr query; "context" := VDict (default ∅ context) ]})
      as (s' & r & Hp & Hr).
    { unfold get. rewrite lookup_insert_eq. cbn.
      destruct (String.eqb_spec query ""); done. }
    rewrite Hp. cbn [snd]. destruct r as [v | ty].
    + destruct Hr as (payload & -> & _). left. by exists payload.
    + destruct Hr as (s1 & cur & rows & row & ? & He & ? & ? & ?).
      unfold get in He. rewrite lookup_insert_eq in He.
      cbn [default from_option id] in He.
      right. split; [reflexivity |].
      exists ty, s1, s', cur, rows, row. split_and!; done.
  - intros context. unfold query_database.
    rewrite (send_request_found _ _ _ _ _ _ Hq). cbv beta.
    cbn [default from_option id].
    unfold DefaultHandlers.handle_query_database. cbn [attr_get].
    unfold get_or. by rewrite lookup_insert_eq.
Qed.

End ClientFacts.


(** ** agents/database_agent.py *)

Section AgentFacts.

Import DatabaseAgent.

(** X20: the agent over the modelled pipeline.  When retrieval raises,
    or the generation backend raises, the agent returns exactly
    [success] false and the message: the retrieved documents are not
    part of a failed result.  A completion whose content is falsy (
    [None] or the empty string) is reported as [success] false with
    'Unknown error'.  Otherwise the result carries the answer, the
    retrieved documents as sources, their number and the usage. *)
Theorem process_over_pipeline (agent : t) (rp : RAGPipeline.t) (q : string)
    (context : option (gmap string value)) (k : option Z)
    (filter : option (gmap string value)) :
  rag_pipeline_query agent q (get (default ∅ context) "top_k")
    (get (default ∅ context) "filter")
  = RAGPipeline.query rp q k filter None ->
  (forall msg,
     Retriever.retrieve (RAGPipeline.retriever rp) q k filter = Raised msg ->
     process agent q context
     = {[ "success" := VBool false; "error" := VStr msg ]})
  /\ (forall docs ctx,
        Retriever.retrieve (RAGPipeline.retriever rp) q k filter = Returned docs ->
        Retriever.format_context docs = Returned ctx ->
        match Generator.client (RAGPipeline.generator rp)
                (Generator.model (RAGPipeline.generator rp))
                Generator.default_system_prompt
                (Generator.user_message q ctx)
                (Generator.temperature (RAGPipeline.generator rp)) with
        | Raised msg =>
            process agent q context
            = {[ "success" := VBool false; "error" := VStr msg ]}
        | Returned completion =>
            if truthy (Generator.content completion) then
              process agent q context
              = {[ "success" := VBool true;
                   "answer" := Generator.content completion;
                   "sources" := VList (VDict <$> docs);
                   "metadata" :=
                     VDict {[ "num_documents" := VInt (Z.of_nat (length docs));
                              "usage" :=
                                VDict {[ "prompt_tokens" := Generator.prompt_tokens completion;
                                         "completion_tokens" := Generator.completion_tokens completion;
                                         "total_tokens" := Generator.total_tokens completion ]} ]} ]}
            else
              process agent q context
              = {[ "success" := VBool false; "error" := VStr "Unknown error" ]}
        end).
Proof.
  intros Hq. unfold process. rewrite Hq. unfold RAGPipeline.query. split.
  - intros msg ->. reflexivity.
  - intros docs ctx -> . cbn [mbind outcome_bind]. intros ->.
    cbn [mbind outcome_bind]. unfold Generator.generate. cbn [default].
    destruct (Generator.client _ _ _ _ _) as [completion | msg].
    + unfold get, get_or.
      match goal with |- context [ ?m !! "answer" ] => set (result := m) end.
      assert (result !! "answer" = Some (Generator.content completion)) as ->
        by (unfold result; by rewrite !lookup_insert_ne, lookup_insert_eq by done).
      assert (result !! "retrieved_documents" = Some (VList (VDict <$> docs)))
        as -> by (unfold result;
                  by rewrite !lookup_insert_ne, lookup_insert_eq by done).
      assert (result !! "num_documents"
              = Some (VInt (Z.of_nat (length docs)))) as ->
        by (unfold result; by rewrite lookup_insert_eq).
      assert (result !! "error" = None) as ->
        by (unfold result;
            by rewrite !lookup_insert_ne, lookup_singleton_ne by done).
      assert (result !! "usage"
              = Some (VDict {[ "prompt_tokens" := Generator.prompt_tokens completion;
                               "completion_tokens" := Generator.completion_tokens completion;
                               "total_tokens" := Generator.total_tokens completion ]}))
        as -> by (unfold result;
                  by rewrite !lookup_insert_ne, lookup_singleton_eq by done).
      cbn [default from_option id].
      destruct (truthy (Generator.content completion)); reflexivity.
    + unfold get, get_or.
      match goal with |- context [ ?m !! "answer" ] => set (result := m) end.
      assert (result !! "answer" = Some VNone) as ->
        by (unfold result; by rewrite !lookup_insert_ne, lookup_insert_eq by done).
      assert (result !! "error" = Some (VStr msg)) as ->
        by (unfold result;
            by rewrite !lookup_insert_ne, lookup_singleton_eq by done).
      reflexivity.
Qed.

End AgentFacts.

Lemma process_over_pipeline_witness :
  DatabaseAgent.process
    (agent_over (RAGPipeline.init one_document_store failing_generator 5))
    "What were the Q1 sales?" None
  = {[ "success" := VBool false; "error" := VStr "insufficient_quota" ]}.
Proof.
  destruct (process_over_pipeline
              (agent_over (RAGPipeline.init one_document_store failing_generator 5))
              (RAGPipeline.init one_document_store failing_generator 5)
              "What were the Q1 sales?" None None None eq_refl) as [_ H].
  exact (H [ {[ "id" := VStr "d1";
                "document" := VStr "Sales for Q1 2024 were $1.2M." ]} ]
           _ eq_refl eq_refl).
Defined.

(** ** agents/query_agent.py *)

Section QueryAgentFacts.

Import QueryAgent.

Lemma lower_char_idempotent (c : ascii) : lower_char (lower_char c) = lower_char c.
Proof.
  destruct c as [[] [] [] [] [] [] [] []]; reflexivity.
Qed.

Lemma lower_idempotent (s : string) : lower (lower s) = lower s.
Proof.
  induction s as [| c s IH]; [reflexivity |]. cbn [lower].
  by rewrite lower_char_idempotent, IH.
Qed.

Lemma lower_app (a b : string) : lower (a +:+ b) = lower a +:+ lower b.
Proof.
  induction a as [| c a IH]; [reflexivity |].
  change (String c a +:+ b) with (String c (a +:+ b)). cbn [lower].
  by rewrite IH.
Qed.

Lemma prefix_app (w s b : string) :
  String.prefix w s = true -> String.prefix w (s +:+ b) = true.
Proof.
  revert s. induction w as [| x w IH]; intros s H;
    [destruct s; [destruct b |]; reflexivity |].
  destruct s as [| y s]; [discriminate |].
  change (String y s +:+ b) with (String y (s +:+ b)). cbn in *.
  destruct (ascii_dec x y); [eauto | discriminate].
Qed.

Lemma has_substring_app_r (s w b : string) :
  has_substring s w = true -> has_substring (s +:+ b) w = true.
Proof.
  induction s as [| y s IH]; intros H.
  - cbn in H. rewrite orb_false_r in H.
    destruct w; [by destruct b | discriminate].
  - change (String y s +:+ b) with (String y (s +:+ b)).
    cbn [has_substring] in *. apply orb_true_iff in H as [H | H].
    + apply (prefix_app _ _ b) in H.
      change (String y s +:+ b) with (String y (s +:+ b)) in H.
      by rewrite H.
    + rewrite (IH H). apply orb_true_r.
Qed.

Lemma has_substring_app_l (a s w : string) :
  has_substring s w = true -> has_substring (a +:+ s) w = true.
Proof.
  induction a as [| y a IH]; intros H; [exact H |].
  change (String y a +:+ s) with (String y (a +:+ s)).
  cbn [has_substring]. rewrite (IH H). apply orb_true_r.
Qed.

Lemma any_in_app (a s b : string) (words : list string) :
  any_in s words = true -> any_in (a +:+ s +:+ b) words = true.
Proof.
  unfold any_in. rewrite !existsb_exists. intros (w & Hw & Hc).
  exists w. split; [exact Hw |].
  by apply has_substring_app_l, has_substring_app_r.
Qed.

(** X21: a query classified as retrieval stays retrieval when text is
    put before and after it, and when it is put in lower case: the
    retrieval keywords are looked for first, anywhere in the query and
    inside other words too, whatever other keywords the query holds. *)
Theorem classify_retrieval_stable (a q b : string) :
  classify_query q = "retrieval" ->
  classify_query (a +:+ q +:+ b) = "retrieval"
  /\ classify_query (lower q) = "retrieval".
Proof.
  unfold classify_query. cbv zeta. rewrite lower_idempotent.
  destruct (any_in (lower q) retrieval_words) eqn:E.
  - intros _. rewrite !lower_app.
    by rewrite (any_in_app (lower a) (lower q) (lower b) _ E).
  - repeat (destruct (any_in _ _); [discriminate |]). discriminate.
Qed.

(** X22: the type is one of the six names, each with an entry in the
    action table, so the fallback of [_determine_action] is never used;
    a query requires the database exactly when one of the 20 keywords
    occurs in its lower-cased text, and is handed to
    [process_general_query] exactly when none does. *)
Theorem requires_database_iff (q : string) :
  let query_type := classify_query q in
  let interpreted := interpret_query q query_type in
  query_type ∈ ["retrieval"; "insertion"; "update"; "deletion";
                "aggregation"; "general"]
  /\ actions !! query_type = Some (determine_action query_type)
  /\ (interpreted !! "requires_database" = Some (VBool true)
      <-> any_in (lower q) all_words = true)
  /\ (interpreted !! "action" = Some (VStr "process_general_query")
      <-> any_in (lower q) all_words = false).
Proof.
  cbv zeta. unfold interpret_query.
  rewrite (lookup_insert_ne _ "type" "requires_database") by done.
  rewrite lookup_insert_eq.
  rewrite !(lookup_insert_ne _ _ "action") by done.
  rewrite lookup_singleton_eq.
  unfold classify_query, all_words, any_in. cbv zeta.
  rewrite !existsb_app.
  fold (any_in (lower q) retrieval_words) (any_in (lower q) insertion_words)
       (any_in (lower q) update_words) (any_in (lower q) deletion_words)
       (any_in (lower q) aggregation_words).
  destruct (any_in (lower q) retrieval_words);
    [| destruct (any_in (lower q) insertion_words);
       [| destruct (any_in (lower q) update_words);
          [| destruct (any_in (lower q) deletion_words);
             [| destruct (any_in (lower q) aggregation_words)]]]];
    (split_and!;
     [ set_solver | vm_compute; reflexivity
     | vm_compute; intuition congruence
     | vm_compute; intuition congruence ]).
Qed.

End QueryAgentFacts.

Lemma classify_retrieval_stable_witness :
  QueryAgent.classify_query ("Please for" +:+ "get" +:+ " it, then DELETE")
  = "retrieval"
  /\ QueryAgent.classify_query (QueryAgent.lower "get") = "retrieval".
Proof.
  apply (classify_retrieval_stable "Please for" "get" " it, then DELETE").
  vm_compute. reflexivity.
Defined.

(** ** agents/database_agent.py: [query_via_mcp] *)

Section McpAgentFacts.

Import MCPServer MCPClient DatabaseAgent.

(** X23: [query_via_mcp] against a server with the default handlers.
    With a database and a non-empty query the agent reports [success]
    true with the handler's payload, also when the database call
    failed: when [execute] raises, the failure is only visible inside
    the result, whose own [success] is false.  The one exception is a
    fetched cell that [jsonify] rejects: then the agent reports
    [success] false with the text of the HTTP error for 500.  Without
    a database the agent reports [success] false with the text of the
    HTTP error for 404. *)
Theorem query_via_mcp_over_defaults {S : Type} (db : Database.connection S)
    (s : S) (http_error : Z -> string) (request_id query : string)
    (context : option (gmap string value)) :
  query <> "" ->
  ((exists payload,
      query_via_mcp
        (loopback (DefaultHandlers.setup_default_handlers (Some db) s)
           http_error)
        request_id query context
      = Returned {[ "success" := VBool true; "result" := VDict payload ]}
      /\ (payload !! "success" = Some (VBool true)
          \/ (payload !! "success" = Some (VBool false)
              /\ exists msg, payload !! "error" = Some (VStr msg))))
   \/ (exists ty s1 s2 cur rows row,
         Database.cursor db s = (s1, Returned ())
         /\ Database.execute db (VStr query) None s1 = (s2, Returned cur)
         /\ Database.fetchall cur = Returned rows
         /\ row ∈ rows /\ Database.Opaque ty ∈ row
         /\ (http_error 500 <> "" ->
             query_via_mcp
               (loopback (DefaultHandlers.setup_default_handlers (Some db) s)
                  http_error)
               request_id query context
             = Returned {[ "success" := VBool false;
                           "error" := VStr (http_error 500) ]})))
  /\ (forall s1 s2 msg,
        Database.cursor db s = (s1, Returned ()) ->
        Database.execute db (VStr query) None s1 = (s2, Raised msg) ->
        query_via_mcp
          (loopback (DefaultHandlers.setup_default_handlers (Some db) s)
             http_error)
          request_id query context
        = Returned {[ "success" := VBool true;
                      "result" := VDict {[ "success" := VBool false;
                                           "error" := VStr msg ]} ]})
  /\ (http_error 404 <> "" ->
      query_via_mcp
        (loopback
           (DefaultHandlers.setup_default_handlers
              (@None (Database.connection S)) s) http_error)
        request_id query context
      = Returned {[ "success" := VBool false;
                    "error" := VStr (http_error 404) ]}).
Proof.
  intros Hne. destruct (default_table db s) as (Hq & _).
  assert (truthy (get ({[ "query" := VStr query;
                          "context" := VDict (default ∅ context) ]}
                         : gmap string value) "query") = true) as Htruthy.
  { unfold get. rewrite lookup_insert_eq. cbn.
    destruct (String.eqb_spec query ""); done. }
  split_and!.
  - destruct (handle_query_database_returns db s _ Htruthy)
      as (s' & r & Hp & Hr).
    unfold query_via_mcp, query_database.
    rewrite (send_request_found _ _ _ _ _ _ Hq). cbv beta.
    cbn [default from_option id]. rewrite Hp. cbn [snd].
    destruct r as [v | ty].
    + destruct Hr as (payload & -> & Hs). left. by exists payload.
    + destruct Hr as (s1 & cur & rows & row & ? & He & ? & ? & ?).
      unfold get in He. rewrite lookup_insert_eq in He.
      cbn [default from_option id] in He.
      right. exists ty, s1, s', cur, rows, row. split_and!; try done.
      intros H500. cbn [mbind outcome_bind MCPResponse.error truthy].
      by destruct (String.eqb_spec (http_error 500) "").
  - intros s1 s2 msg Hc He.
    unfold query_via_mcp, query_database.
    rewrite (send_request_found _ _ _ _ _ _ Hq). cbv beta.
    cbn [default from_option id].
    unfold DefaultHandlers.handle_query_database. cbn [attr_get].
    change (get_or ?m "query" VNone) with (get m "query").
    rewrite Htruthy. cbn [negb]. rewrite Hc.
    unfold get at 1. rewrite lookup_insert_eq. cbn [default from_option id].
    by rewrite He.
  - intros H404. unfold query_via_mcp, query_database.
    rewrite send_request_missing by apply lookup_empty.
    cbn [mbind outcome_bind MCPResponse.error truthy].
    by destruct (String.eqb_spec (http_error 404) "").
Qed.

End McpAgentFacts.

Lemma query_via_mcp_over_defaults_witness :
  DatabaseAgent.query_via_mcp
    (loopback (DefaultHandlers.setup_default_handlers (Some toy_db) [])
       (fun status => pretty status +:+ " Server Error"))
    "7" "bad" None
  = Returned
      {[ "success" := VBool true;
         "result" :=
           VDict {[ "success" := VBool false;
                    "error" := VStr "ORA-00900: invalid SQL statement" ]} ]}.
Proof.
  destruct (query_via_mcp_over_defaults toy_db []
              (fun status => pretty status +:+ " Server Error") "7" "bad" None)
    as (_ & H & _); [discriminate |].
  exact (H ["cursor"] ["cursor"; "execute"] _ eq_refl eq_refl).
Defined.

(** The rejected cell, seen from the agent. *)
Example query_via_mcp_rejected :
  DatabaseAgent.query_via_mcp
    (loopback (DefaultHandlers.setup_default_handlers (Some toy_db) [])
       (fun status => pretty status +:+ " Server Error"))
    "7" "blob" None
  = Returned {[ "success" := VBool false;
                "error" := VStr "500 Server Error" ]}.
Proof. vm_compute. reflexivity. Qed.
